(** * Bookkeeper speed-test log parsers: a shallow embedding

    The repository's log-parsing scripts (under [docs/speed_tests] and
    [docs/plans/Bookkeeper/speed_tests]) are Python scripts that scan a
    console-log dump with regular expressions, group timing events into
    test runs, derive phase durations and write CSV tables.

    Conventions of the embedding:
    - a Python [str] is a [string]: the UTF-8 bytes of the text.  The
      offset of a match is counted in bytes, which orders the matches as
      the character offsets of the code do; a slice counts characters;
      the character classes [\d] and [\s] are taken on their ASCII
      range;
    - a Python [int] is a [Z]; run counters and offsets, which the code
      only ever increments from zero, are [nat].  [int(s)] is
      [int_checked]: it raises on a text of more than 4300 digits.  The
      functions named after the timing loops ([entry], [group_step],
      [parse_timing_data]) are the loops once every timing has
      converted; the versions named [_checked], which the [main]
      functions call, are the calls with the conversion that can fail;
    - a Python [float] is kept as the term that denotes it ([pyfloat]):
      binary64 rounding is outside the model, so two equal terms denote
      equal floats but not conversely;
    - a [dict] is a [gmap]; a dict literal with fixed keys that is only
      read field by field is a [Record];
    - exceptions and printed lines are threaded through the monad [py];
      what is printed or written is taken to be text the output stream
      can encode: a JSON text member with a lone surrogate is outside
      the model, and a theorem on a run that prints or writes JSON
      members excludes it in a hypothesis. *)

From Stdlib Require Import ZArith String Ascii List Lia.
From stdpp Require Import base option list gmap strings sorting.

Open Scope string_scope.
Open Scope list_scope.
Set Warnings "-register-all,-clear-no-such-hyp".

(** ** The fragment of Python's [re] the scripts use *)
Module Re.

(** Character classes. *)
Definition code (c : ascii) : nat := nat_of_ascii c.
Definition between (lo hi : nat) (c : ascii) : bool :=
  (Nat.leb lo (code c)) && (Nat.leb (code c) hi).
(** [\d] *)
Definition digit (c : ascii) : bool := between 48 57 c.
(** [\s]: for a [str] pattern the ASCII-range members are
    tab, LF, VT, FF, CR, the separators 0x1c-0x1f and the space. *)
Definition space (c : ascii) : bool :=
  between 9 13 c || between 28 31 c || Nat.eqb (code c) 32.
(** [[A-Z_]] *)
Definition upper_us (c : ascii) : bool := between 65 90 c || Nat.eqb (code c) 95.
(** [[^}]] *)
Definition not_rbrace (c : ascii) : bool := negb (Nat.eqb (code c) 125).
(** [[\d.]] and [[0-9.]] *)
Definition digit_dot (c : ascii) : bool := digit c || Nat.eqb (code c) 46.
(** [[^\s]] *)
Definition not_space (c : ascii) : bool := negb (space c).
(** [.] under [re.DOTALL] *)
Definition any (c : ascii) : bool := true.
(** [.] without flags: anything but a line feed *)
Definition not_lf (c : ascii) : bool := negb (Nat.eqb (code c) 10).

(** Pattern syntax: literals, one character of a class, greedy and lazy
    repetition of a class, concatenation, alternation, an optional
    group, a capturing group, a lookahead and the end anchor. *)
Inductive re : Type :=
| Lit (s : string)
| One (p : ascii -> bool)
| Plus (p : ascii -> bool)
| Star (p : ascii -> bool)
| PlusLazy (p : ascii -> bool)
| Cat (r1 r2 : re)
| Alt (r1 r2 : re)
| Opt (r : re)
| Group (r : re)
| Ahead (r : re)
| Eos.

Declare Scope re_scope.
Delimit Scope re_scope with re.
Bind Scope re_scope with re.
Infix "⋅" := Cat (at level 41, right associativity) : re_scope.

(** A match in progress: offset from the start of the attempt, the
    text still to read, and the groups closed so far (latest first). *)
Definition cont (R : Type) : Type := nat -> string -> list string -> option R.

Fixpoint lit {R} (l : string) (i : nat) (s : string) (g : list string)
    (k : cont R) : option R :=
  match l with
  | EmptyString => k i s g
  | String a l' =>
      match s with
      | String c s' => if Ascii.eqb a c then lit l' (S i) s' g k else None
      | EmptyString => None
      end
  end.

(** Greedy [p*]: take as many as possible, give back one at a time. *)
Fixpoint star {R} (p : ascii -> bool) (i : nat) (s : string) (g : list string)
    (k : cont R) : option R :=
  match s with
  | String c s' =>
      if p c then
        match star p (S i) s' g k with
        | Some r => Some r
        | None => k i s g
        end
      else k i s g
  | EmptyString => k i s g
  end.

(** Lazy [p*?]: try the continuation first, then take one more. *)
Fixpoint star_lazy {R} (p : ascii -> bool) (i : nat) (s : string) (g : list string)
    (k : cont R) : option R :=
  match k i s g with
  | Some r => Some r
  | None =>
      match s with
      | String c s' => if p c then star_lazy p (S i) s' g k else None
      | EmptyString => None
      end
  end.

Definition one {R} (p : ascii -> bool) (i : nat) (s : string) (g : list string)
    (k : cont R) : option R :=
  match s with
  | String c s' => if p c then k (S i) s' g else None
  | EmptyString => None
  end.

(** [exec r s0 i s g k]: match [r] against [s], the suffix of the
    subject [s0] at offset [i], then continue with [k]; backtracking is
    the [None] of the continuation. *)
Fixpoint exec {R} (r : re) (s0 : string) (i : nat) (s : string) (g : list string)
    (k : cont R) {struct r} : option R :=
  match r with
  | Lit l => lit l i s g k
  | One p => one p i s g k
  | Plus p => one p i s g (fun i' s' g' => star p i' s' g' k)
  | Star p => star p i s g k
  | PlusLazy p => one p i s g (fun i' s' g' => star_lazy p i' s' g' k)
  | Cat r1 r2 => exec r1 s0 i s g (fun i' s' g' => exec r2 s0 i' s' g' k)
  | Alt r1 r2 =>
      match exec r1 s0 i s g k with
      | Some x => Some x
      | None => exec r2 s0 i s g k
      end
  | Opt r1 =>
      match exec r1 s0 i s g k with
      | Some x => Some x
      | None => k i s g
      end
  | Group r1 =>
      exec r1 s0 i s g (fun i' s' g' => k i' s' (substring i (i' - i) s0 :: g'))
  | Ahead r1 =>
      match exec r1 s0 i s g (fun _ _ g' => Some g') with
      | Some g' => k i s g'
      | None => None
      end
  | Eos =>
      match s with
      | EmptyString => k i s g
      | String c EmptyString => if Nat.eqb (code c) 10 then k i s g else None
      | _ => None
      end
  end.

(** A match object: its length and its groups in pattern order. *)
Record mobj : Type := { m_len : nat; m_groups : list string }.

(** [pattern.match(s)] anchored at the start of [s]. *)
Definition match_at (r : re) (s : string) : option mobj :=
  exec r s 0 s [] (fun i _ g => Some {| m_len := i; m_groups := rev g |}).

(** [re.finditer]: scan left to right; after a match the scan resumes
    behind it ([skip] characters are passed over). *)
Fixpoint scan (r : re) (s : string) (pos skip : nat) : list (nat * mobj) :=
  match s with
  | EmptyString =>
      match skip, match_at r s with
      | O, Some m => [(pos, m)]
      | _, _ => []
      end
  | String _ s' =>
      match skip with
      | S n => scan r s' (S pos) n
      | O =>
          match match_at r s with
          | Some m => (pos, m) :: scan r s' (S pos) (m_len m - 1)
          | None => scan r s' (S pos) 0
          end
      end
  end.

Definition finditer (r : re) (s : string) : list (nat * mobj) := scan r s 0 0.

(** [re.findall]: the groups of every match. *)
Definition findall (r : re) (s : string) : list (list string) :=
  (fun '(_, m) => m_groups m) <$> finditer r s.

(** [re.search]: the first position where the pattern matches. *)
Fixpoint search (r : re) (s : string) : option mobj :=
  match match_at r s with
  | Some m => Some m
  | None =>
      match s with
      | EmptyString => None
      | String _ s' => search r s'
      end
  end.

(** [m.group(1)] of a pattern with at least one group. *)
Definition group1 (m : mobj) : string := default "" (head (m_groups m)).

(** A line feed. *)
Definition lf : string := String (ascii_of_nat 10) EmptyString.

(** The sentinel's first character, U+1F52C, in UTF-8. *)
Definition microscope : string :=
  String (ascii_of_nat 240) (String (ascii_of_nat 159)
    (String (ascii_of_nat 148) (String (ascii_of_nat 172) EmptyString))).

(** The same character as two of the scripts spell it: its UTF-8 bytes
    read as Windows-1252 (U+00F0 U+0178 U+201D U+00AC), in UTF-8. *)
Definition microscope_1252 : string :=
  String (ascii_of_nat 195) (String (ascii_of_nat 176)
    (String (ascii_of_nat 197) (String (ascii_of_nat 184)
      (String (ascii_of_nat 226) (String (ascii_of_nat 128) (String (ascii_of_nat 157)
        (String (ascii_of_nat 194) (String (ascii_of_nat 172) EmptyString)))))))).

End Re.

(** ** Python values, exceptions and effects *)
Module Py.

(** Floats are kept as the terms that denote them. *)
Inductive pyfloat : Type :=
| FStr (s : string)               (* [float(s)], also a literal such as [2.5] *)
| FInt (z : Z)                    (* an [int] converted to [float] *)
| FMul (a b : pyfloat)            (* [a * b] *)
| FDiv (a b : Z)                  (* true division [a / b] of two ints *)
| FRound (a : pyfloat) (n : Z).   (* [round(a, n)] *)

Inductive pyval : Type :=
| PNone
| PBool (b : bool)
| PInt (z : Z)
| PFloat (f : pyfloat)
| PStr (s : string)
| PList (l : list pyval)
| PDict (kv : list (string * pyval)).

#[global] Instance pyval_inhabited : Inhabited pyval := populate PNone.

(** [d.get(k, v)] *)
Definition dget (d : gmap string pyval) (k : string) (v : pyval) : pyval :=
  default v (d !! k).

(** [None] or an [int]. *)
Definition opt_int (o : option Z) : pyval :=
  match o with Some z => PInt z | None => PNone end.

Inductive exn : Type :=
| SystemExit (code : Z)
| ValueError
| TypeError
| OverflowError
| AttributeError
| KeyError
| RecursionError
| JSONDecodeError.

(** [d[k]] *)
Definition getitem (d : gmap string pyval) (k : string) : exn + pyval :=
  match d !! k with
  | Some v => inr v
  | None => inl KeyError
  end.

(** Expressions that may raise: [x ← e; k] evaluates [e] first. *)
#[global] Instance res_ret : MRet (sum exn) := fun A x => inr x.
#[global] Instance res_bind : MBind (sum exn) :=
  fun A B f m => match m with inr x => f x | inl e => inl e end.

(** [d[k]] where the code goes on with integer arithmetic: the fields
    read this way were set by [int(...)] or to the literal [0]. *)
Definition getint (d : gmap string pyval) (k : string) : exn + Z :=
  match d !! k with
  | Some (PInt z) => inr z
  | Some _ => inl TypeError
  | None => inl KeyError
  end.

(** What [json.loads] raises on a text: [JSONDecodeError] when it is
    not JSON, [RecursionError] when it is nested too deeply, and
    ValueError when an integer literal in it has more digits than
    [int] converts. *)
Inductive json_error : Type := NotJson | TooDeep | IntTooLong.
Definition json_exn (e : json_error) : exn :=
  match e with
  | NotJson => JSONDecodeError
  | TooDeep => RecursionError
  | IntTooLong => ValueError
  end.

(** [except Exception] catches everything but [SystemExit]. *)
Definition is_Exception (e : exn) : bool :=
  match e with SystemExit _ => false | _ => true end.

(** What a run leaves behind: printed lines (the format string and the
    values put into its holes), files opened for writing and rows
    written to them. *)
Inductive arg : Type :=
| V (v : pyval)
| N (n : nat)
| E (e : exn).

Inductive effect : Type :=
| Print (fmt : string) (args : list arg)
| Open (path : string)
| WriteRow (path : string) (cells : list pyval).

(** What calling a function yields: a value or an exception, and the
    effects it had. *)
Definition outcome (A : Type) : Type := (exn + A) * list effect.

(** A function body over its local variables [S]: statements may raise,
    assign and print.  An assignment made before an exception is
    raised is still there when the exception is caught. *)
Definition py (S A : Type) : Type := S -> (exn + A) * S * list effect.

Section Monad.
Context {S : Type}.

Definition ret {A} (x : A) : py S A := fun s => (inr x, s, []).
Definition raise {A} (e : exn) : py S A := fun s => (inl e, s, []).
Definition bind {A B} (m : py S A) (f : A -> py S B) : py S B :=
  fun s =>
    match m s with
    | (inl e, s', o) => (inl e, s', o)
    | (inr x, s', o) => let '(r, s'', o') := f x s' in (r, s'', o ++ o')
    end.
Definition get : py S S := fun s => (inr s, s, []).
Definition put (s' : S) : py S unit := fun _ => (inr tt, s', []).
Definition emit (o : effect) : py S unit := fun s => (inr tt, s, [o]).
Definition print (fmt : string) (args : list arg) : py S unit := emit (Print fmt args).
Definition lift {A} (r : exn + A) : py S A := fun s => (r, s, []).
(** Calling another function: its effects happen, the locals stay. *)
Definition call {A} (f : outcome A) : py S A := fun s => (fst f, s, snd f).

(** [try: m] followed by [except] clauses: [h e] is the handler of the
    first clause that matches [e], if any. *)
Definition try_except {A} (m : py S A) (h : exn -> option (py S A)) : py S A :=
  fun s =>
    match m s with
    | (inl e, s', o) =>
        match h e with
        | Some m' => let '(r, s'', o') := m' s' in (r, s'', o ++ o')
        | None => (inl e, s', o)
        end
    | ok => ok
    end.

(** [for x in l: body x] *)
Fixpoint for_each {A} (body : A -> py S unit) (l : list A) : py S unit :=
  match l with
  | [] => ret tt
  | x :: l' => bind (body x) (fun _ => for_each body l')
  end.
End Monad.

(** [x ← m; k] and [m;; k] are stdpp's monad notations. *)
#[global] Instance py_ret {S} : MRet (py S) := @ret S.
#[global] Instance py_bind {S} : MBind (py S) := fun A B f m => bind m f.

(** A function: its body run on its initial locals. *)
Definition def {S A} (locals : S) (body : py S A) : outcome A :=
  let '(r, _, o) := body locals in (r, o).

Definition result {A} (m : outcome A) : exn + A := fst m.
Definition output {A} (m : outcome A) : list effect := snd m.

(** The exit status of the interpreter after running [main()]. *)
Definition exit_code {A} (m : outcome A) : Z :=
  match result m with
  | inr _ => 0
  | inl (SystemExit c) => c
  | inl _ => 1
  end.

(** The number [int(s)] returns for a group matched by [\d+], when it
    returns ([int_checked], below, is the call). *)
Fixpoint digits_val (s : string) (acc : Z) : Z :=
  match s with
  | EmptyString => acc
  | String c s' => digits_val s' (10 * acc + Z.of_nat (Re.code c - 48))%Z
  end.
Definition int_ (s : string) : Z := digits_val s 0.

(** [int(s)], the call.  CPython converts a text of at most
    [sys.int_max_str_digits] digits, 4300 unless the interpreter is
    started otherwise, and raises ValueError on a longer one; leading
    zeros count. *)
Definition int_max_str_digits : Z := 4300.
Definition too_long (s : string) : bool :=
  (int_max_str_digits <? Z.of_nat (String.length s))%Z.
Definition int_checked (s : string) : exn + Z :=
  if too_long s then inl ValueError else inr (int_ s).

(** [float(s)] for a group matched by [[\d.]+]: the text is a float
    literal when it has a digit and at most one point. *)
Fixpoint count_char (p : ascii -> bool) (s : string) : nat :=
  match s with
  | EmptyString => 0
  | String c s' => (if p c then 1 else 0) + count_char p s'
  end.
Definition float_ (s : string) : exn + pyfloat :=
  if (Nat.ltb 0 (count_char Re.digit s))
     && (Nat.leb (count_char (fun c => negb (Re.digit c)) s) 1)
  then inr (FStr s) else inl ValueError.

(** An [int] converts to a [float] when its magnitude is below the
    midpoint between the largest double and 2^1024. *)
Definition float_limit : Z := (2 ^ 1024 - 2 ^ 970)%Z.

(** The float operand of a product: an [int] is converted first. *)
Definition to_float (v : pyval) : exn + pyfloat :=
  match v with
  | PFloat f => inr f
  | PInt z => if (Z.abs z <? float_limit)%Z then inr (FInt z) else inl OverflowError
  | PBool b => inr (FInt (if b then 1 else 0))
  | _ => inl TypeError
  end.

(** [a / b] on ints, for [b] not zero. *)
Definition true_div (a b : Z) : exn + pyfloat :=
  if (Z.abs a <? float_limit * Z.abs b)%Z then inr (FDiv a b) else inl OverflowError.

(** [format(v, '.1f')], as far as it can raise. *)
Definition format_1f (v : pyval) : exn + unit :=
  match v with
  | PFloat _ | PBool _ => inr tt
  | PInt z => if (Z.abs z <? float_limit)%Z then inr tt else inl OverflowError
  | PStr _ => inl ValueError
  | PNone | PList _ | PDict _ => inl TypeError
  end.

(** [sub in s] for two strings. *)
Fixpoint contains (sub s : string) : bool :=
  String.prefix sub s
  || match s with
     | EmptyString => false
     | String _ s' => contains sub s'
     end.

(** Slices count characters.  In the UTF-8 bytes of a text a character
    is a byte that is no continuation byte (10xxxxxx) with the
    continuation bytes behind it. *)
Definition continuation (c : ascii) : bool := Re.between 128 191 c.

(** [s[:n]] *)
Fixpoint first_chars (n : BinNums.N) (s : string) : string :=
  match s with
  | EmptyString => EmptyString
  | String c s' =>
      if continuation c then String c (first_chars n s')
      else if (n =? 0)%N then EmptyString
      else String c (first_chars (N.pred n) s')
  end.

(** [s[i:]] for the offset [i] of a character of [s]; the offset is
    counted in bytes, as the matcher counts it. *)
Fixpoint from_offset (i : nat) (s : string) : string :=
  match i, s with
  | O, _ => s
  | S i', String _ s' => from_offset i' s'
  | S _, EmptyString => EmptyString
  end.

(** [s[i:i+n]] *)
Definition slice (i : nat) (n : BinNums.N) (s : string) : string :=
  first_chars n (from_offset i s).

(** [s.split('\n')] *)
Fixpoint split_lines (s : string) : list string :=
  match s with
  | EmptyString => [EmptyString]
  | String c s' =>
      if Nat.eqb (Re.code c) 10 then EmptyString :: split_lines s'
      else match split_lines s' with
           | line :: rest => String c line :: rest
           | [] => [String c EmptyString]
           end
  end.


End Py.


(** ** The operating environment of a script *)
Module Os.
(** [file_text p] is the text of the readable file at [p], if there is
    one (directories and unreadable files are outside the model);
    [path_stem] and [path_sibling] are pathlib's [Path(p).stem] and
    [Path(p).parent / name]. *)
Record world : Type :=
  { file_text : string -> option string;
    path_stem : string -> string;
    path_sibling : string -> string -> string }.

(** [Path(p).exists()] *)
Definition path_exists (w : world) (p : string) : bool :=
  bool_decide (is_Some (file_text w p)).
End Os.

(** ** csv.DictWriter, with its defaults [restval=''] and
    [extrasaction='raise']; cells are kept as values, their conversion
    to text (with [None] written as the empty field) is the writer's. *)
Module Csv.
Import Py.

(** [DictWriter._dict_to_list] *)
Definition dict_to_list (fieldnames : list string) (rowdict : gmap string pyval)
    : exn + list pyval :=
  if decide (dom rowdict ⊆ list_to_set fieldnames)
  then inr ((fun k => default (PStr "") (rowdict !! k)) <$> fieldnames)
  else inl ValueError.

Definition writeheader {S} (path : string) (fieldnames : list string) : py S unit :=
  emit (WriteRow path (PStr <$> fieldnames)).

Definition writerows {S} (path : string) (fieldnames : list string)
    (rowdicts : list (gmap string pyval)) : py S unit :=
  for_each (fun r => cells ← lift (dict_to_list fieldnames r);
                     emit (WriteRow path cells)) rowdicts.
End Csv.

Import Re Py.

(** ** docs/plans/Bookkeeper/speed_tests/parse_console_log.py *)
Module ParseConsoleLog.

(** *** parse_timing_data *)

(** [processingTimer\.js:\d+\s+([A-Z_]+):\s+(\d+)] *)
Definition main_pattern : re :=
  (Lit "processingTimer.js:" ⋅ Plus digit ⋅ Plus space ⋅ Group (Plus upper_us)
     ⋅ Lit ":" ⋅ Plus space ⋅ Group (Plus digit))%re.
(** [fileHashWorker\.js:\d+\s+([A-Z_]+):\s+(\d+)] *)
Definition worker_pattern : re :=
  (Lit "fileHashWorker.js:" ⋅ Plus digit ⋅ Plus space ⋅ Group (Plus upper_us)
     ⋅ Lit ":" ⋅ Plus space ⋅ Group (Plus digit))%re.

(** The tags ['main'] and ['worker']. *)
Inductive source : Type := from_main | from_worker.

(** An entry of [all_matches]: [(match.start(), event_type, int(timing), source)]. *)
Record tmatch : Type :=
  { pos : nat; event_type : string; timing : Z; src : source }.

Definition entry (s : source) (x : nat * mobj) : tmatch :=
  {| pos := fst x;
     event_type := default "" (m_groups (snd x) !! 0%nat);
     timing := int_ (default "" (m_groups (snd x) !! 1%nat));
     src := s |}.

(** [list.sort(key=lambda x: x[0])]: a stable sort on the offset. *)
Fixpoint insert_by_pos (x : tmatch) (l : list tmatch) : list tmatch :=
  match l with
  | [] => [x]
  | y :: l' => if (pos x <=? pos y)%nat then x :: y :: l' else y :: insert_by_pos x l'
  end.
Definition sort_by_pos (l : list tmatch) : list tmatch := foldr insert_by_pos [] l.

Definition all_matches (content : string) : list tmatch :=
  sort_by_pos ((entry from_main <$> finditer main_pattern content)
                 ++ (entry from_worker <$> finditer worker_pattern content)).

(** The state of the grouping loop. *)
Record groups : Type :=
  { test_run_data : gmap nat (gmap string Z);
    test_run_positions : gmap nat nat;
    current_test_run : nat }.

Definition groups0 : groups :=
  {| test_run_data := ∅; test_run_positions := ∅; current_test_run := 0 |}.

Definition is_start (m : tmatch) : bool := String.eqb (event_type m) "PROCESSING_START".

(** One iteration of [for pos, event_type, timing, source in all_matches]. *)
Definition group_step (st : groups) (m : tmatch) : groups :=
  let st1 :=
    if is_start m then
      {| test_run_data := test_run_data st;
         test_run_positions := <[S (current_test_run st) := pos m]> (test_run_positions st);
         current_test_run := S (current_test_run st) |}
    else st in
  if (0 <? current_test_run st1)%nat then
    let run := current_test_run st1 in
    {| test_run_data :=
         <[run := <[event_type m := timing m]> (default ∅ (test_run_data st1 !! run))]>
           (test_run_data st1);
       test_run_positions := test_run_positions st1;
       current_test_run := run |}
  else st1.

Definition group_events (ms : list tmatch) : groups := foldl group_step groups0 ms.

(** [sorted(d.keys())] *)
Definition sorted_keys {V} (d : gmap nat V) : list nat :=
  merge_sort Nat.le (elements (dom d)).

(** *** detect_execution_mode *)
Definition worker_patterns : list re :=
  [ (Lit "fileHashWorker.js:" ⋅ Plus digit ⋅ Plus space ⋅ Lit "SIZE_ANALYSIS_COMPLETE")%re;
    (Lit "fileHashWorker.js:" ⋅ Plus digit ⋅ Plus space ⋅ Lit "HASH_CALCULATION_COMPLETE")%re;
    Lit "Web Worker restart failed, falling back to main thread processing" ].

(** The window is [content[pos:pos + 5000]]: 5000 characters from the
    offset on. *)
Definition detect_execution_mode (content : string) (test_run_start_pos : nat) : bool :=
  let search_window := slice test_run_start_pos 5000 content in
  existsb (fun p => bool_decide (is_Some (search p search_window))) worker_patterns.

(** A row of the timing table. *)
Record row : Type :=
  { Test_Run : nat;
    isWorkerMode : bool;
    totalDurationMs : option Z;
    phase1FileAnalysisMs : option Z;
    phase2HashProcessingMs : option Z;
    phase3UIRenderingMs : option Z;
    PROCESSING_START : Z;
    DEDUPLICATION_START : option Z;
    UI_UPDATE_START : option Z;
    ALL_FILES_DISPLAYED : option Z }.

(** The body of [for test_run in sorted(test_run_data.keys())]. *)
Definition make_row (content : string) (positions : gmap nat nat)
    (test_run : nat) (data : gmap string Z) : row :=
  let start_pos := default 0%nat (positions !! test_run) in
  let is_worker_mode := detect_execution_mode content start_pos in
  let processing_start := default 0%Z (data !! "PROCESSING_START") in
  let deduplication_start := data !! "DEDUPLICATION_START" in
  let ui_update_start := data !! "UI_UPDATE_START" in
  let all_files_displayed := data !! "ALL_FILES_DISPLAYED" in
  let phase1_duration :=
    match deduplication_start with
    | Some d => Some (d - processing_start)%Z
    | None => None
    end in
  let phase2_duration :=
    match ui_update_start, deduplication_start with
    | Some u, Some d => Some (u - d)%Z
    | _, _ => None
    end in
  let phase3_duration :=
    match all_files_displayed, ui_update_start with
    | Some a, Some u => Some (a - u)%Z
    | _, _ => None
    end in
  let total_duration :=
    match all_files_displayed with
    | Some a => Some (a - processing_start)%Z
    | None => None
    end in
  {| Test_Run := test_run;
     isWorkerMode := is_worker_mode;
     totalDurationMs := total_duration;
     phase1FileAnalysisMs := phase1_duration;
     phase2HashProcessingMs := phase2_duration;
     phase3UIRenderingMs := phase3_duration;
     PROCESSING_START := processing_start;
     DEDUPLICATION_START := deduplication_start;
     UI_UPDATE_START := ui_update_start;
     ALL_FILES_DISPLAYED := all_files_displayed |}.

Definition rows_of (content : string) (g : groups) : list row :=
  (fun test_run =>
     make_row content (test_run_positions g) test_run
       (default ∅ (test_run_data g !! test_run)))
    <$> sorted_keys (test_run_data g).

Definition parse_timing_data (content : string) : list row :=
  rows_of content (group_events (all_matches content)).

(** *** parse_timing_data, the call

    [int(timing)] runs on every match while [all_matches] is filled,
    the main-thread matches first (lines 118 to 125), outside any
    [try]: a timing of more digits than [int] converts ends the call
    with ValueError.  [entry], [all_matches] and [parse_timing_data]
    above are what a call that gets through appends and returns. *)
Definition timing_text (x : nat * mobj) : string :=
  default "" (m_groups (snd x) !! 1%nat).

(** The texts [int] is called on, in the order of the calls. *)
Definition timing_texts (content : string) : list string :=
  timing_text <$> (finditer main_pattern content ++ finditer worker_pattern content).

Definition entry_checked (s : source) (x : nat * mobj) : exn + tmatch :=
  timing ← int_checked (timing_text x);
  mret {| pos := fst x;
          event_type := default "" (m_groups (snd x) !! 0%nat);
          timing := timing;
          src := s |}.

Definition all_matches_checked (content : string) : exn + list tmatch :=
  main_entries ← mapM (entry_checked from_main) (finditer main_pattern content);
  worker_entries ← mapM (entry_checked from_worker) (finditer worker_pattern content);
  mret (sort_by_pos (main_entries ++ worker_entries)).

Definition parse_timing_data_checked (content : string) : exn + list row :=
  all_matches ← all_matches_checked content;
  mret (rows_of content (group_events all_matches)).

Definition row_dict (r : row) : gmap string pyval :=
  list_to_map
    [ ("Test Run #", PInt (Z.of_nat (Test_Run r)));
      ("isWorkerMode", PBool (isWorkerMode r));
      ("totalDurationMs", opt_int (totalDurationMs r));
      ("phase1FileAnalysisMs", opt_int (phase1FileAnalysisMs r));
      ("phase2HashProcessingMs", opt_int (phase2HashProcessingMs r));
      ("phase3UIRenderingMs", opt_int (phase3UIRenderingMs r));
      ("PROCESSING_START", PInt (PROCESSING_START r));
      ("DEDUPLICATION_START", opt_int (DEDUPLICATION_START r));
      ("UI_UPDATE_START", opt_int (UI_UPDATE_START r));
      ("ALL_FILES_DISPLAYED", opt_int (ALL_FILES_DISPLAYED r)) ].

(** *** parse_folder_analysis_data *)

(** [🔬 FOLDER_ANALYSIS_DATA \(Modal Predictors\): \{([^}]+)\}] *)
Definition pattern : re :=
  (Lit (microscope +:+ " FOLDER_ANALYSIS_DATA (Modal Predictors): {")
     ⋅ Group (Plus not_rbrace) ⋅ Lit "}")%re.

(** [name:\s*(\d+)] and [name:\s*([\d.]+)] *)
Definition digits_of (name : string) : re :=
  (Lit (name +:+ ":") ⋅ Star space ⋅ Group (Plus digit))%re.
Definition digits_dots_of (name : string) : re :=
  (Lit (name +:+ ":") ⋅ Star space ⋅ Group (Plus digit_dot))%re.

Definition field_patterns : list (string * re) :=
  [ ("timestamp", digits_of "timestamp");
    ("totalFiles", digits_of "totalFiles");
    ("duplicateCandidateCount", digits_of "duplicateCandidateCount");
    ("duplicateCandidatePercent", digits_of "duplicateCandidatePercent");
    ("uniqueFilesSizeMB", digits_dots_of "uniqueFilesSizeMB");
    ("duplicateCandidatesSizeMB", digits_dots_of "duplicateCandidatesSizeMB");
    ("totalSizeMB", digits_dots_of "totalSizeMB");
    ("totalDirectoryCount", digits_of "totalDirectoryCount");
    ("maxDirectoryDepth", digits_of "maxDirectoryDepth");
    ("uniqueFilesTotal", digits_of "uniqueFilesTotal");
    ("avgDirectoryDepth", digits_dots_of "avgDirectoryDepth") ].

Definition float_fields : list string :=
  ["totalSizeMB"; "uniqueFilesSizeMB"; "duplicateCandidatesSizeMB"; "avgDirectoryDepth"].

(** The value one field gets: the body of
    [for field, pattern in field_patterns.items()]. *)
Definition field_value (field : string) (pat : re) (match_ : string) : exn + pyval :=
  match search pat match_ with
  | Some match_obj =>
      if bool_decide (field ∈ float_fields) then
        match float_ (group1 match_obj) with
        | inr f => inr (PFloat f)
        | inl e => inl e
        end
      else if String.eqb field "timestamp" then
        match int_checked (group1 match_obj) with
        | inr z => inr (PInt z)
        | inl e => inl e
        end
      else
        match int_checked (group1 match_obj) with
        | inr z => inr (PInt z)
        | inl e => inl e
        end
  | None => inr (PInt 0)
  end.

Fixpoint extract_fields (fps : list (string * re)) (match_ : string)
    (data : gmap string pyval) : exn + gmap string pyval :=
  match fps with
  | [] => inr data
  | (field, pat) :: fps' =>
      match field_value field pat match_ with
      | inr v => extract_fields fps' match_ (<[field := v]> data)
      | inl e => inl e
      end
  end.

(** A dict literal whose values are read with [data[...]]. *)
Fixpoint dict_of (kvs : list (string * (exn + pyval))) : exn + gmap string pyval :=
  match kvs with
  | [] => inr ∅
  | (k, inr v) :: kvs' =>
      match dict_of kvs' with
      | inr d => inr (<[k := v]> d)
      | inl e => inl e
      end
  | (_, inl e) :: _ => inl e
  end.

Definition folder_row (test_run : nat) (data : gmap string pyval)
    : exn + gmap string pyval :=
  dict_of
    [ ("TestRun#", inr (PInt (Z.of_nat test_run)));
      ("timestamp", getitem data "timestamp");
      ("totalFiles", getitem data "totalFiles");
      ("duplicateCandidateCount", getitem data "duplicateCandidateCount");
      ("duplicateCandidatePercent", getitem data "duplicateCandidatePercent");
      ("uniqueFilesSizeMB", getitem data "uniqueFilesSizeMB");
      ("duplicateCandidatesSizeMB", getitem data "duplicateCandidatesSizeMB");
      ("totalSizeMB", getitem data "totalSizeMB");
      ("totalDirectoryCount", getitem data "totalDirectoryCount");
      ("maxDirectoryDepth", getitem data "maxDirectoryDepth");
      ("uniqueFilesTotal", getitem data "uniqueFilesTotal");
      ("avgDirectoryDepth", getitem data "avgDirectoryDepth") ].

(** The locals of the function: [folder_data] and [test_run]. *)
Definition folder_locals : Type := list (gmap string pyval) * nat.

(** The statements under [try:]. *)
Definition folder_try (match_ : string) : py folder_locals unit :=
  data ← lift (extract_fields field_patterns match_ ∅);
  '(folder_data, test_run) ← get;
  row ← lift (folder_row test_run data);
  put (folder_data ++ [row], S test_run).

(** The body of [for match in matches]. *)
Definition folder_body (match_ : string) : py folder_locals unit :=
  try_except (folder_try match_)
    (fun e =>
       if is_Exception e then
         Some (print "Warning: Failed to parse FOLDER_ANALYSIS_DATA: {}... - {}"
                 [V (PStr (first_chars 50 match_)); E e])
       else None).

Definition matches (content : string) : list string :=
  group1 ∘ snd <$> finditer pattern content.

Definition parse_folder_analysis_data (content : string)
    : outcome (list (gmap string pyval)) :=
  def ([], 1%nat)
    (for_each folder_body (matches content);;
     '(folder_data, _) ← get;
     mret folder_data).

(** *** write_csv *)
Definition write_csv (data : list (gmap string pyval)) (output_path : string)
    (fieldnames : list string) : outcome unit :=
  def tt
    (emit (Open output_path);;
     Csv.writeheader output_path fieldnames;;
     Csv.writerows output_path fieldnames data).

(** *** main *)

(** [s.split('_')[0]] *)
Fixpoint before_underscore (s : string) : string :=
  match s with
  | EmptyString => EmptyString
  | String c s' => if Nat.eqb (code c) 95 then EmptyString else String c (before_underscore s')
  end.

Definition extract_filename_prefix (w : Os.world) (input_path : string) : string :=
  before_underscore (Os.path_stem w input_path).

Definition folder_fieldnames : list string :=
  [ "TestRun#"; "timestamp"; "totalFiles"; "duplicateCandidateCount";
    "duplicateCandidatePercent"; "uniqueFilesSizeMB"; "duplicateCandidatesSizeMB";
    "totalSizeMB"; "totalDirectoryCount"; "maxDirectoryDepth"; "uniqueFilesTotal";
    "avgDirectoryDepth" ].

Definition timing_fieldnames : list string :=
  [ "Test Run #"; "isWorkerMode"; "totalDurationMs";
    "phase1FileAnalysisMs"; "phase2HashProcessingMs"; "phase3UIRenderingMs";
    "PROCESSING_START"; "DEDUPLICATION_START"; "UI_UPDATE_START"; "ALL_FILES_DISPLAYED" ].

(** [argv] is [sys.argv]: the script's name, then its arguments. *)
Definition main (w : Os.world) (argv : list string) : outcome unit :=
  def tt
    ((if bool_decide (length argv ≠ 2%nat) then
        print "Usage: python parse_console_log.py input_file.md" [];;
        raise (SystemExit 1)
      else mret tt);;
     let input_path := default "" (argv !! 1%nat) in
     (if negb (Os.path_exists w input_path) then
        print "Error: Input file not found: {}" [V (PStr input_path)];;
        raise (SystemExit 1)
      else mret tt);;
     let prefix := extract_filename_prefix w input_path in
     let folder_analysis_file :=
       Os.path_sibling w input_path (prefix +:+ "_FolderAnalysisData.csv") in
     let test_speed_file :=
       Os.path_sibling w input_path (prefix +:+ "_TestSpeedData.csv") in
     print "Processing: {}" [V (PStr input_path)];;
     print "Output files:" [];;
     print "  - {}" [V (PStr folder_analysis_file)];;
     print "  - {}" [V (PStr test_speed_file)];;
     let content := default "" (Os.file_text w input_path) in
     print "Parsing FOLDER_ANALYSIS_DATA entries..." [];;
     folder_data ← call (parse_folder_analysis_data content);
     print "Found {} FOLDER_ANALYSIS_DATA entries" [N (length folder_data)];;
     print "Parsing timing data entries..." [];;
     timing_rows ← lift (parse_timing_data_checked content);
     let timing_data := row_dict <$> timing_rows in
     print "Found {} timing test runs" [N (length timing_data)];;
     (if bool_decide (folder_data ≠ []) then
        call (write_csv folder_data folder_analysis_file folder_fieldnames);;
        print "Exported {} folder analysis records to CSV" [N (length folder_data)]
      else mret tt);;
     (if bool_decide (timing_data ≠ []) then
        call (write_csv timing_data test_speed_file timing_fieldnames);;
        print "Exported {} timing records with 3-stage measurements to CSV"
          [N (length timing_data)]
      else mret tt);;
     print "Parsing complete!" []).

End ParseConsoleLog.

(** ** docs/speed_tests/parse_console_log.py *)
Module LegacyParseConsoleLog.

(** *** parse_folder_analysis_data *)

(** The ellipsis U+2026 in UTF-8. *)
Definition ellipsis : string :=
  String (ascii_of_nat 226) (String (ascii_of_nat 128) (String (ascii_of_nat 166) EmptyString)).

(** [🔬 FOLDER_ANALYSIS_DATA: \{([^}]+)(?:, …)?\}] *)
Definition pattern : re :=
  (Lit (microscope +:+ " FOLDER_ANALYSIS_DATA: {") ⋅ Group (Plus not_rbrace)
     ⋅ Opt (Lit (", " +:+ ellipsis)) ⋅ Lit "}")%re.

Definition field_patterns : list (string * re) :=
  [ ("timestamp", ParseConsoleLog.digits_of "timestamp");
    ("totalFiles", ParseConsoleLog.digits_of "totalFiles");
    ("mainFolderFiles", ParseConsoleLog.digits_of "mainFolderFiles");
    ("subfolderFiles", ParseConsoleLog.digits_of "subfolderFiles");
    ("totalSizeMB", ParseConsoleLog.digits_dots_of "totalSizeMB") ].

Definition field_value (field : string) (pat : re) (match_ : string) : exn + pyval :=
  match search pat match_ with
  | Some match_obj =>
      if String.eqb field "totalSizeMB" then f ← float_ (group1 match_obj); mret (PFloat f)
      else if String.eqb field "timestamp" then
        z ← int_checked (group1 match_obj); mret (PInt z)
      else z ← int_checked (group1 match_obj); mret (PInt z)
  | None => mret (PInt 0)
  end.

Fixpoint extract_fields (fps : list (string * re)) (match_ : string)
    (data : gmap string pyval) : exn + gmap string pyval :=
  match fps with
  | [] => mret data
  | (field, pat) :: fps' =>
      v ← field_value field pat match_;
      extract_fields fps' match_ (<[field := v]> data)
  end.

(** "Calculate derived metrics" and "Create row data". *)
Definition folder_row (test_run : nat) (data : gmap string pyval)
    : exn + gmap string pyval :=
  mainFolderFiles ← getint data "mainFolderFiles";
  totalFiles ← getint data "totalFiles";
  subfolderFiles ← getint data "subfolderFiles";
  let unique_files_main_folder := mainFolderFiles in
  let unique_files_total :=
    (totalFiles - Z.max 0 (totalFiles - mainFolderFiles - subfolderFiles))%Z in
  let avg_directory_depth := if (0 <? subfolderFiles)%Z then FStr "2.5" else FStr "1.0" in
  let avg_filename_length := 25%Z in
  let max_directory_depth := if (0 <? subfolderFiles)%Z then 5%Z else 1%Z in
  let zero_byte_files := 0%Z in
  totalSizeMB ← getitem data "totalSizeMB";
  size ← to_float totalSizeMB;
  let largest_file_size_mb := FRound (FMul size (FStr "0.1")) 2 in
  main_folder_size_mb ←
    (if (0 <? totalFiles)%Z then
       ratio ← true_div mainFolderFiles totalFiles;
       mret (PFloat (FRound (FMul size ratio) 2))
     else mret (PInt 0));
  let identical_size_files := Z.max 0 (totalFiles - unique_files_total) in
  timestamp ← getitem data "timestamp";
  mret (list_to_map
    [ ("TestRun#", PInt (Z.of_nat test_run));
      ("avgDirectoryDepth", PFloat avg_directory_depth);
      ("avgFilenameLength", PInt avg_filename_length);
      ("identicalSizeFiles", PInt identical_size_files);
      ("largestFileSizesMB", PFloat largest_file_size_mb);
      ("mainFolderFiles", PInt mainFolderFiles);
      ("mainFolderSizeMB", main_folder_size_mb);
      ("maxDirectoryDepth", PInt max_directory_depth);
      ("subfolderFiles", PInt subfolderFiles);
      ("timestamp", timestamp);
      ("totalFiles", PInt totalFiles);
      ("totalSizeMB", totalSizeMB);
      ("uniqueFilesMainFolder", PInt unique_files_main_folder);
      ("uniqueFilesTotal", PInt unique_files_total);
      ("zeroByteFiles", PInt zero_byte_files) ] : gmap string pyval).

Definition folder_try (match_ : string) : py ParseConsoleLog.folder_locals unit :=
  data ← lift (extract_fields field_patterns match_ ∅);
  '(folder_data, test_run) ← get;
  row ← lift (folder_row test_run data);
  put (folder_data ++ [row], S test_run).

Definition folder_body (match_ : string) : py ParseConsoleLog.folder_locals unit :=
  try_except (folder_try match_)
    (fun e =>
       if is_Exception e then
         Some (print "Warning: Failed to parse FOLDER_ANALYSIS_DATA: {}... - {}"
                 [V (PStr (first_chars 50 match_)); E e])
       else None).

Definition matches (content : string) : list string :=
  group1 ∘ snd <$> finditer pattern content.

Definition parse_folder_analysis_data (content : string)
    : outcome (list (gmap string pyval)) :=
  def ([], 1%nat)
    (for_each folder_body (matches content);;
     '(folder_data, _) ← get;
     mret folder_data).

(** *** parse_timing_data *)

(** [re.findall(pattern, content)]: the pairs [(event_type, timing)]. *)
Definition timing_matches (content : string) : list (string * string) :=
  (fun x => (default "" (m_groups (snd x) !! 0%nat), default "" (m_groups (snd x) !! 1%nat)))
    <$> finditer ParseConsoleLog.main_pattern content.

(** The locals of the grouping loop; [current_test_run] starts at 1. *)
Record groups : Type :=
  { test_run_data : gmap nat (gmap string Z);
    current_test_run : nat }.

Definition groups0 : groups := {| test_run_data := ∅; current_test_run := 1 |}.

Definition group_step (st : groups) (m : string * string) : groups :=
  let run :=
    if String.eqb (fst m) "PROCESSING_START" then S (current_test_run st)
    else current_test_run st in
  {| test_run_data :=
       <[run := <[fst m := int_ (snd m)]> (default ∅ (test_run_data st !! run))]>
         (test_run_data st);
     current_test_run := run |}.

Definition group_events (ms : list (string * string)) : groups := foldl group_step groups0 ms.

Definition expected_columns : list string :=
  [ "PROCESSING_START"; "DEDUPLICATION_START"; "WORKER_SEND";
    "SIZE_ANALYSIS_COMPLETE"; "HASH_CALCULATION_COMPLETE"; "DEDUP_LOGIC_START";
    "DEDUP_LOGIC_COMPLETE"; "WORKER_COMPLETE"; "RESULT_MAPPING_COMPLETE";
    "UI_UPDATE_START"; "CHUNK1_START"; "CHUNK1_COMPLETE";
    "CHUNK2_START"; "DOM_RENDER_COMPLETE"; "CHUNK2_COMPLETE"; "ALL_FILES_DISPLAYED" ].

(** [row = {'Test Run #': test_run}] filled by [row[column] = data.get(column, '')]. *)
Definition make_row (test_run : nat) (data : gmap string Z) : gmap string pyval :=
  foldl (fun row column =>
           <[column := match data !! column with Some t => PInt t | None => PStr "" end]> row)
        {[ "Test Run #" := PInt (Z.of_nat test_run) ]} expected_columns.

Definition parse_timing_data (content : string) : list (gmap string pyval) :=
  let g := group_events (timing_matches content) in
  (fun test_run => make_row test_run (default ∅ (test_run_data g !! test_run)))
    <$> ParseConsoleLog.sorted_keys (test_run_data g).

(** *** parse_timing_data, the call

    [int(timing)] runs in the grouping loop (line 104), outside any
    [try]: a timing of more digits than [int] converts ends the call
    with ValueError.  [group_step], [group_events] and
    [parse_timing_data] above are the loop and the result of a call
    that gets through. *)
Definition group_step_checked (st : groups) (m : string * string) : exn + groups :=
  let run :=
    if String.eqb (fst m) "PROCESSING_START" then S (current_test_run st)
    else current_test_run st in
  timing ← int_checked (snd m);
  mret {| test_run_data :=
            <[run := <[fst m := timing]> (default ∅ (test_run_data st !! run))]>
              (test_run_data st);
          current_test_run := run |}.

Fixpoint group_loop (st : groups) (ms : list (string * string)) : exn + groups :=
  match ms with
  | [] => mret st
  | m :: ms' => st' ← group_step_checked st m; group_loop st' ms'
  end.

Definition parse_timing_data_checked (content : string) : exn + list (gmap string pyval) :=
  g ← group_loop groups0 (timing_matches content);
  mret ((fun test_run => make_row test_run (default ∅ (test_run_data g !! test_run)))
          <$> ParseConsoleLog.sorted_keys (test_run_data g)).

(** *** write_csv, extract_filename_prefix and main *)
Definition write_csv (data : list (gmap string pyval)) (output_path : string)
    (fieldnames : list string) : outcome unit :=
  def tt
    (emit (Open output_path);;
     Csv.writeheader output_path fieldnames;;
     Csv.writerows output_path fieldnames data).

Definition extract_filename_prefix (w : Os.world) (input_path : string) : string :=
  ParseConsoleLog.before_underscore (Os.path_stem w input_path).

Definition folder_fieldnames : list string :=
  [ "TestRun#"; "avgDirectoryDepth"; "avgFilenameLength"; "identicalSizeFiles";
    "largestFileSizesMB"; "mainFolderFiles"; "mainFolderSizeMB"; "maxDirectoryDepth";
    "subfolderFiles"; "timestamp"; "totalFiles"; "totalSizeMB";
    "uniqueFilesMainFolder"; "uniqueFilesTotal"; "zeroByteFiles" ].

Definition timing_fieldnames : list string :=
  [ "Test Run #"; "PROCESSING_START"; "DEDUPLICATION_START"; "WORKER_SEND";
    "SIZE_ANALYSIS_COMPLETE"; "HASH_CALCULATION_COMPLETE"; "DEDUP_LOGIC_START";
    "DEDUP_LOGIC_COMPLETE"; "WORKER_COMPLETE"; "RESULT_MAPPING_COMPLETE";
    "UI_UPDATE_START"; "CHUNK1_START"; "CHUNK1_COMPLETE";
    "CHUNK2_START"; "DOM_RENDER_COMPLETE"; "CHUNK2_COMPLETE"; "ALL_FILES_DISPLAYED" ].

Definition main (w : Os.world) (argv : list string) : outcome unit :=
  def tt
    ((if bool_decide (length argv ≠ 2%nat) then
        print "Usage: python parse_console_log.py input_file.md" [];;
        raise (SystemExit 1)
      else mret tt);;
     let input_path := default "" (argv !! 1%nat) in
     (if negb (Os.path_exists w input_path) then
        print "Error: Input file not found: {}" [V (PStr input_path)];;
        raise (SystemExit 1)
      else mret tt);;
     let prefix := extract_filename_prefix w input_path in
     let folder_analysis_file :=
       Os.path_sibling w input_path (prefix +:+ "_FolderAnalysisData.csv") in
     let test_speed_file :=
       Os.path_sibling w input_path (prefix +:+ "_TestSpeedData.csv") in
     print "Processing: {}" [V (PStr input_path)];;
     print "Output files:" [];;
     print "  - {}" [V (PStr folder_analysis_file)];;
     print "  - {}" [V (PStr test_speed_file)];;
     let content := default "" (Os.file_text w input_path) in
     print "Parsing FOLDER_ANALYSIS_DATA entries..." [];;
     folder_data ← call (parse_folder_analysis_data content);
     print "Found {} FOLDER_ANALYSIS_DATA entries" [N (length folder_data)];;
     print "Parsing timing data entries..." [];;
     timing_data ← lift (parse_timing_data_checked content);
     print "Found {} timing test runs" [N (length timing_data)];;
     (if bool_decide (folder_data ≠ []) then
        call (write_csv folder_data folder_analysis_file folder_fieldnames);;
        print "Exported {} folder analysis records to CSV" [N (length folder_data)]
      else mret tt);;
     (if bool_decide (timing_data ≠ []) then
        call (write_csv timing_data test_speed_file timing_fieldnames);;
        print "Exported {} timing records to CSV" [N (length timing_data)]
      else mret tt);;
     print "Parsing complete!" []).


End LegacyParseConsoleLog.

(** ** docs/plans/Bookkeeper/speed_tests/improved_parser_json.py *)
Module ImprovedParserJson.
Section WithJson.
(** [json.loads] on a text that starts with a brace: the dict of the
    object's members, or the exception raised. *)
Variable json_loads : string -> json_error + gmap string pyval.

Definition loads (s : string) : exn + gmap string pyval :=
  match json_loads s with inr d => inr d | inl e => inl (json_exn e) end.

(** [🔬 FOLDER_ANALYSIS_DATA: ({.+?})] under [re.DOTALL] *)
Definition pattern : re :=
  (Lit (microscope +:+ " FOLDER_ANALYSIS_DATA: ")
     ⋅ Group (Lit "{" ⋅ PlusLazy any ⋅ Lit "}"))%re.

Definition matches (content : string) : list string :=
  group1 ∘ snd <$> finditer pattern content.

(** "Create row with all available fields". *)
Definition json_row (test_run : nat) (data : gmap string pyval) : gmap string pyval :=
  list_to_map
    [ ("TestRun#", PInt (Z.of_nat test_run));
      ("timestamp", dget data "timestamp" (PInt 0));
      ("totalFiles", dget data "totalFiles" (PInt 0));
      ("duplicateCandidateCount", dget data "duplicateCandidateCount" (PInt 0));
      ("duplicateCandidatePercent", dget data "duplicateCandidatePercent" (PInt 0));
      ("uniqueFilesSizeMB", dget data "uniqueFilesSizeMB" (PFloat (FStr "0.0")));
      ("duplicateCandidatesSizeMB", dget data "duplicateCandidatesSizeMB" (PFloat (FStr "0.0")));
      ("totalSizeMB", dget data "totalSizeMB" (PFloat (FStr "0.0")));
      ("totalDirectoryCount", dget data "totalDirectoryCount" (PInt 0));
      ("avgDirectoryDepth", dget data "avgDirectoryDepth" (PFloat (FStr "0.0")));
      ("maxDirectoryDepth", dget data "maxDirectoryDepth" (PInt 0));
      ("uniqueFilesTotal", dget data "uniqueFilesTotal" (PInt 0));
      ("maxFileDepth", dget data "maxFileDepth" (PInt 0));
      ("avgFileDepth", dget data "avgFileDepth" (PFloat (FStr "0.0")));
      ("avgFilenameLength", dget data "avgFilenameLength" (PFloat (FStr "0.0")));
      ("zeroByteFiles", dget data "zeroByteFiles" (PInt 0));
      ("largestFileSizesMB", dget data "largestFileSizesMB" (PFloat (FStr "0.0"))) ].

(** The statements under [try:]; the row is appended and the counter
    advanced before the entry line is formatted. *)
Definition json_try (match_ : string) : py ParseConsoleLog.folder_locals unit :=
  data ← lift (loads match_);
  '(folder_data, test_run) ← get;
  put (folder_data ++ [json_row test_run data], S test_run);;
  lift (format_1f (dget data "totalSizeMB" (PInt 0)));;
  print "  Entry {}: {} files, {} candidates, {:.1f}MB total"
    [N test_run; V (dget data "totalFiles" (PInt 0));
     V (dget data "duplicateCandidateCount" (PInt 0));
     V (dget data "totalSizeMB" (PInt 0))].

Definition json_body (match_ : string) : py ParseConsoleLog.folder_locals unit :=
  try_except (json_try match_)
    (fun e =>
       match e with
       | JSONDecodeError =>
           Some (print "Warning: Failed to parse JSON FOLDER_ANALYSIS_DATA: {}... - {}"
                   [V (PStr (first_chars 100 match_)); E e])
       | _ =>
           if is_Exception e then
             Some (print "Warning: Error processing FOLDER_ANALYSIS_DATA: {}" [E e])
           else None
       end).

Definition parse_json_folder_analysis_data (content : string)
    : outcome (list (gmap string pyval)) :=
  def ([], 1%nat)
    (print "Found {} JSON FOLDER_ANALYSIS_DATA entries" [N (length (matches content))];;
     for_each json_body (matches content);;
     '(folder_data, _) ← get;
     mret folder_data).
End WithJson.
(** *** parse_timing_data

    The matching and the grouping loop have the text of the newer
    parse_console_log.py; the execution mode is read here from a window
    of 3000 characters, by two substring tests. *)
Definition make_row (content : string) (positions : gmap nat nat)
    (test_run : nat) (data : gmap string Z) : ParseConsoleLog.row :=
  let start_pos := default 0%nat (positions !! test_run) in
  let search_window := slice start_pos 3000 content in
  let is_worker_mode :=
    contains "Web Worker restart failed" search_window
    || contains "fileHashWorker.js" search_window in
  let processing_start := default 0%Z (data !! "PROCESSING_START") in
  let deduplication_start := data !! "DEDUPLICATION_START" in
  let ui_update_start := data !! "UI_UPDATE_START" in
  let all_files_displayed := data !! "ALL_FILES_DISPLAYED" in
  let phase1_duration :=
    match deduplication_start with
    | Some d => Some (d - processing_start)%Z
    | None => None
    end in
  let phase2_duration :=
    match ui_update_start, deduplication_start with
    | Some u, Some d => Some (u - d)%Z
    | _, _ => None
    end in
  let phase3_duration :=
    match all_files_displayed, ui_update_start with
    | Some a, Some u => Some (a - u)%Z
    | _, _ => None
    end in
  let total_duration :=
    match all_files_displayed with
    | Some a => Some (a - processing_start)%Z
    | None => None
    end in
  {| ParseConsoleLog.Test_Run := test_run;
     ParseConsoleLog.isWorkerMode := is_worker_mode;
     ParseConsoleLog.totalDurationMs := total_duration;
     ParseConsoleLog.phase1FileAnalysisMs := phase1_duration;
     ParseConsoleLog.phase2HashProcessingMs := phase2_duration;
     ParseConsoleLog.phase3UIRenderingMs := phase3_duration;
     ParseConsoleLog.PROCESSING_START := processing_start;
     ParseConsoleLog.DEDUPLICATION_START := deduplication_start;
     ParseConsoleLog.UI_UPDATE_START := ui_update_start;
     ParseConsoleLog.ALL_FILES_DISPLAYED := all_files_displayed |}.

Definition parse_timing_data (content : string) : list ParseConsoleLog.row :=
  let g := ParseConsoleLog.group_events (ParseConsoleLog.all_matches content) in
  (fun test_run =>
     make_row content (ParseConsoleLog.test_run_positions g) test_run
       (default ∅ (ParseConsoleLog.test_run_data g !! test_run)))
    <$> ParseConsoleLog.sorted_keys (ParseConsoleLog.test_run_data g).

(** The call: [int(timing)] runs on every match while [all_matches] is
    filled (lines 76 to 83), as in the newer parse_console_log.py. *)
Definition parse_timing_data_checked (content : string) : exn + list ParseConsoleLog.row :=
  all_matches ← ParseConsoleLog.all_matches_checked content;
  let g := ParseConsoleLog.group_events all_matches in
  mret ((fun test_run =>
           make_row content (ParseConsoleLog.test_run_positions g) test_run
             (default ∅ (ParseConsoleLog.test_run_data g !! test_run)))
          <$> ParseConsoleLog.sorted_keys (ParseConsoleLog.test_run_data g)).

(** *** write_csv, extract_filename_prefix and main *)
Definition write_csv (data : list (gmap string pyval)) (output_path : string)
    (fieldnames : list string) : outcome unit :=
  def tt
    (emit (Open output_path);;
     Csv.writeheader output_path fieldnames;;
     Csv.writerows output_path fieldnames data).

Definition extract_filename_prefix (w : Os.world) (input_path : string) : string :=
  ParseConsoleLog.before_underscore (Os.path_stem w input_path).

Definition folder_fieldnames : list string :=
  [ "TestRun#"; "timestamp"; "totalFiles"; "duplicateCandidateCount";
    "duplicateCandidatePercent"; "uniqueFilesSizeMB"; "duplicateCandidatesSizeMB";
    "totalSizeMB"; "totalDirectoryCount"; "avgDirectoryDepth"; "maxDirectoryDepth";
    "uniqueFilesTotal"; "maxFileDepth"; "avgFileDepth"; "avgFilenameLength";
    "zeroByteFiles"; "largestFileSizesMB" ].

Definition timing_fieldnames : list string :=
  [ "Test Run #"; "isWorkerMode"; "totalDurationMs";
    "phase1FileAnalysisMs"; "phase2HashProcessingMs"; "phase3UIRenderingMs";
    "PROCESSING_START"; "DEDUPLICATION_START"; "UI_UPDATE_START"; "ALL_FILES_DISPLAYED" ].

(** The keys of a record of [folder_data], in the order of the dict
    literal that makes it: the order of [sample.items()]. *)
Definition record_keys : list string :=
  [ "TestRun#"; "timestamp"; "totalFiles"; "duplicateCandidateCount";
    "duplicateCandidatePercent"; "uniqueFilesSizeMB"; "duplicateCandidatesSizeMB";
    "totalSizeMB"; "totalDirectoryCount"; "avgDirectoryDepth"; "maxDirectoryDepth";
    "uniqueFilesTotal"; "maxFileDepth"; "avgFileDepth"; "avgFilenameLength";
    "zeroByteFiles"; "largestFileSizesMB" ].

Definition previously_missing : list string :=
  ["duplicateCandidatesSizeMB"; "totalSizeMB"; "avgDirectoryDepth"; "maxDirectoryDepth"].

(** "Show sample of what we now have". *)
Definition show_sample {S} (sample : gmap string pyval) : py S unit :=
  print "\nSample complete record:" [];;
  for_each (fun key =>
              if bool_decide (key ∈ previously_missing) then
                print "  🎯 {}: {} (previously missing!)"
                  [V (PStr key); V (default PNone (sample !! key))]
              else mret tt)
           record_keys.

Section Main.
Variable json_loads : string -> json_error + gmap string pyval.

Definition main (w : Os.world) (argv : list string) : outcome unit :=
  def tt
    ((if bool_decide (length argv ≠ 2%nat) then
        print "Usage: python improved_parser_json.py input_file.md" [];;
        raise (SystemExit 1)
      else mret tt);;
     let input_path := default "" (argv !! 1%nat) in
     (if negb (Os.path_exists w input_path) then
        print "Error: Input file not found: {}" [V (PStr input_path)];;
        raise (SystemExit 1)
      else mret tt);;
     let prefix := extract_filename_prefix w input_path in
     let folder_analysis_file :=
       Os.path_sibling w input_path (prefix +:+ "_CompleteFolderAnalysisData.csv") in
     let test_speed_file :=
       Os.path_sibling w input_path (prefix +:+ "_TestSpeedData.csv") in
     print "Processing: {}" [V (PStr input_path)];;
     print "Output files:" [];;
     print "  - {}" [V (PStr folder_analysis_file)];;
     print "  - {}" [V (PStr test_speed_file)];;
     print "" [];;
     let content := default "" (Os.file_text w input_path) in
     print "Parsing JSON FOLDER_ANALYSIS_DATA entries..." [];;
     folder_data ← call (parse_json_folder_analysis_data json_loads content);
     print "\nParsing timing data entries..." [];;
     timing_rows ← lift (parse_timing_data_checked content);
     let timing_data := ParseConsoleLog.row_dict <$> timing_rows in
     print "Found {} timing test runs" [N (length timing_data)];;
     print "" [];;
     (if bool_decide (folder_data ≠ []) then
        call (write_csv folder_data folder_analysis_file folder_fieldnames);;
        print "✅ Exported {} COMPLETE folder analysis records to CSV"
          [N (length folder_data)];;
        match folder_data with
        | sample :: _ => show_sample sample
        | [] => mret tt
        end
      else print "❌ No JSON folder analysis data found" []);;
     (if bool_decide (timing_data ≠ []) then
        call (write_csv timing_data test_speed_file timing_fieldnames);;
        print "✅ Exported {} timing records to CSV" [N (length timing_data)]
      else print "❌ No timing data found" []);;
     print "\n🎉 Parsing complete! Now you can run calibration with COMPLETE data." []).
End Main.

End ImprovedParserJson.

(** ** docs/speed_tests/improved_parser.py *)
Module ImprovedParser.

(** [ðŸ”¬ FOLDER_ANALYSIS_DATA \(Modal Predictors\): (.+?)(?=\n[^\s]|\n$)]
    under [re.DOTALL] *)
Definition pattern : re :=
  (Lit (microscope_1252 +:+ " FOLDER_ANALYSIS_DATA (Modal Predictors): ")
     ⋅ Group (PlusLazy any)
     ⋅ Ahead (Alt (Lit lf ⋅ One not_space) (Lit lf ⋅ Eos)))%re.

Definition matches (content : string) : list string :=
  group1 ∘ snd <$> finditer pattern content.

(** [name:\s*([0-9]+)] and [name:\s*([0-9.]+)] *)
Definition field_patterns : list (string * re) :=
  [ ("timestamp", ParseConsoleLog.digits_of "timestamp");
    ("totalFiles", ParseConsoleLog.digits_of "totalFiles");
    ("duplicateCandidateCount", ParseConsoleLog.digits_of "duplicateCandidateCount");
    ("duplicateCandidatePercent", ParseConsoleLog.digits_of "duplicateCandidatePercent");
    ("uniqueFilesSizeMB", ParseConsoleLog.digits_dots_of "uniqueFilesSizeMB");
    ("duplicateCandidatesSizeMB", ParseConsoleLog.digits_dots_of "duplicateCandidatesSizeMB");
    ("totalSizeMB", ParseConsoleLog.digits_dots_of "totalSizeMB");
    ("totalDirectoryCount", ParseConsoleLog.digits_of "totalDirectoryCount");
    ("maxDirectoryDepth", ParseConsoleLog.digits_of "maxDirectoryDepth");
    ("avgDirectoryDepth", ParseConsoleLog.digits_dots_of "avgDirectoryDepth");
    ("uniqueFilesTotal", ParseConsoleLog.digits_of "uniqueFilesTotal") ].

Definition float_fields : list string :=
  ["uniqueFilesSizeMB"; "duplicateCandidatesSizeMB"; "totalSizeMB"; "avgDirectoryDepth"].

(** The value a field gets, and whether it is the default. *)
Definition field_value (field : string) (pat : re) (match_ : string) : exn + pyval * bool :=
  match search pat match_ with
  | Some match_result =>
      let value := group1 match_result in
      if bool_decide (field ∈ float_fields) then f ← float_ value; mret (PFloat f, false)
      else z ← int_checked value; mret (PInt z, false)
  | None =>
      mret (if bool_decide (field ∉ float_fields) then PInt 0 else PFloat (FStr "0.0"), true)
  end.

(** [for field, pattern in field_patterns.items()], with its prints. *)
Fixpoint extract_fields {S} (fps : list (string * re)) (match_ : string)
    (data : gmap string pyval) : py S (gmap string pyval) :=
  match fps with
  | [] => mret data
  | (field, pat) :: fps' =>
      '(v, is_default) ← lift (field_value field pat match_);
      print (if is_default : bool then "  {}: {} (default)" else "  {}: {}")
        [V (PStr field); V v];;
      extract_fields fps' match_ (<[field := v]> data)
  end.

(** The body of [for i, match in enumerate(matches)]. *)
Definition folder_body (x : nat * string) : py ParseConsoleLog.folder_locals unit :=
  let '(i, match_) := x in
  print "\nProcessing match {}:" [N (i + 1)];;
  print "Raw match: {}..." [V (PStr (first_chars 200 match_))];;
  data ← extract_fields field_patterns match_ ∅;
  '(folder_data, test_run) ← get;
  row ← lift (ParseConsoleLog.folder_row test_run data);
  put (folder_data ++ [row], S test_run).

Definition extract_complete_folder_data (content : string)
    : outcome (list (gmap string pyval)) :=
  def ([], 1%nat)
    (print "Found {} FOLDER_ANALYSIS_DATA matches" [N (length (matches content))];;
     for_each folder_body (imap (fun i m => (i, m)) (matches content));;
     '(folder_data, _) ← get;
     mret folder_data).

(** *** show_sample_matches *)
Definition sentinel : string := microscope_1252 +:+ " FOLDER_ANALYSIS_DATA".

(** The body of [for i, line in enumerate(lines)]. *)
Definition show_line {S} (lines : list string) (x : nat * string) : py S unit :=
  let '(i, line) := x in
  if contains sentinel line then
    print "\nLine {}: {}" [N (i + 1); V (PStr line)];;
    for_each (fun j =>
                if bool_decide (i + j < length lines)%nat then
                  print "Line {}: {}"
                    [N (i + j + 1); V (PStr (default "" (lines !! (i + j)%nat)))]
                else mret tt)
             [1; 2; 3]%nat
  else mret tt.

Definition show_sample_matches (content : string) : outcome unit :=
  def tt
    (print "=== SAMPLE FOLDER_ANALYSIS_DATA ENTRIES ===" [];;
     let lines := split_lines content in
     for_each (show_line lines) (imap (fun i line => (i, line)) lines)).

(** *** main *)
Definition fieldnames : list string :=
  [ "TestRun#"; "timestamp"; "totalFiles"; "duplicateCandidateCount";
    "duplicateCandidatePercent"; "uniqueFilesSizeMB"; "duplicateCandidatesSizeMB";
    "totalSizeMB"; "totalDirectoryCount"; "maxDirectoryDepth"; "uniqueFilesTotal";
    "avgDirectoryDepth" ].

(** The keys of a record, in the order of the dict literal that makes
    it: the order of [record.items()]. *)
Definition record_keys : list string :=
  [ "TestRun#"; "timestamp"; "totalFiles"; "duplicateCandidateCount";
    "duplicateCandidatePercent"; "uniqueFilesSizeMB"; "duplicateCandidatesSizeMB";
    "totalSizeMB"; "totalDirectoryCount"; "maxDirectoryDepth"; "uniqueFilesTotal";
    "avgDirectoryDepth" ].

(** The body of [for i, record in enumerate(folder_data[:3])]. *)
Definition show_record {S} (x : nat * gmap string pyval) : py S unit :=
  let '(i, record) := x in
  print "Record {}:" [N (i + 1)];;
  for_each (fun field =>
              print "  {}: {}" [V (PStr field); V (default PNone (record !! field))])
           record_keys.

Definition main (w : Os.world) (argv : list string) : outcome unit :=
  def tt
    ((if bool_decide (length argv ≠ 2%nat) then
        print "Usage: python improved_parser.py input_file.md" [];;
        raise (SystemExit 1)
      else mret tt);;
     let input_path := default "" (argv !! 1%nat) in
     (if negb (Os.path_exists w input_path) then
        print "Error: Input file not found: {}" [V (PStr input_path)];;
        raise (SystemExit 1)
      else mret tt);;
     let content := default "" (Os.file_text w input_path) in
     print "=== DEBUGGING PARSER ===" [];;
     call (show_sample_matches content);;
     print "\n=== EXTRACTING DATA ===" [];;
     folder_data ← call (extract_complete_folder_data content);
     if bool_decide (folder_data ≠ []) then
       let output_file := Os.path_sibling w input_path "4_ImprovedFolderData.csv" in
       emit (Open output_file);;
       Csv.writeheader output_file fieldnames;;
       Csv.writerows output_file fieldnames folder_data;;
       print "\n=== RESULTS ===" [];;
       print "Extracted {} records" [N (length folder_data)];;
       print "Saved to: {}" [V (PStr output_file)];;
       print "\nFirst few records:" [];;
       for_each show_record (imap (fun i record => (i, record)) (take 3 folder_data))
     else mret tt).


End ImprovedParser.

(** ** docs/speed_tests/trial5_parser.py *)
Module Trial5Parser.

(** *** The timing half of parse_trial5_data *)

Definition timing_matches (content : string) : list (string * string) :=
  LegacyParseConsoleLog.timing_matches content.

(** The locals of the grouping loop. *)
Record groups : Type :=
  { timing_data : gmap nat (gmap string Z);
    current_run : nat }.

Definition groups0 : groups := {| timing_data := ∅; current_run := 0 |}.

Definition group_step (st : groups) (m : string * string) : groups :=
  let run :=
    if String.eqb (fst m) "PROCESSING_START" then S (current_run st) else current_run st in
  if (0 <? run)%nat then
    {| timing_data :=
         <[run := <[fst m := int_ (snd m)]> (default ∅ (timing_data st !! run))]>
           (timing_data st);
       current_run := run |}
  else {| timing_data := timing_data st; current_run := run |}.

Definition group_events (ms : list (string * string)) : groups := foldl group_step groups0 ms.

(** A row of [processed_timing]. *)
Record trow : Type :=
  { TestRun : nat;
    totalDurationMs : option Z;
    phase1FileAnalysisMs : option Z;
    phase2HashProcessingMs : option Z;
    phase3UIRenderingMs : option Z;
    PROCESSING_START : Z;
    DEDUPLICATION_START : Z;
    UI_UPDATE_START : Z;
    ALL_FILES_DISPLAYED : Z }.

(** [a - b if a >= b else None] *)
Definition diff_if_ge (a b : Z) : option Z :=
  if (b <=? a)%Z then Some (a - b)%Z else None.

(** "Calculate 3-phase durations". *)
Definition timing_row (run_num : nat) (data : gmap string Z) : trow :=
  let start := default 0%Z (data !! "PROCESSING_START") in
  let dedup_start := default 0%Z (data !! "DEDUPLICATION_START") in
  let ui_start := default 0%Z (data !! "UI_UPDATE_START") in
  let end_ := default 0%Z (data !! "ALL_FILES_DISPLAYED") in
  let phase1 := diff_if_ge dedup_start start in
  let phase2 := diff_if_ge ui_start dedup_start in
  let phase3 := diff_if_ge end_ ui_start in
  let total := diff_if_ge end_ start in
  {| TestRun := run_num;
     totalDurationMs := total;
     phase1FileAnalysisMs := phase1;
     phase2HashProcessingMs := phase2;
     phase3UIRenderingMs := phase3;
     PROCESSING_START := start;
     DEDUPLICATION_START := dedup_start;
     UI_UPDATE_START := ui_start;
     ALL_FILES_DISPLAYED := end_ |}.

Definition trow_dict (r : trow) : gmap string pyval :=
  list_to_map
    [ ("TestRun", PInt (Z.of_nat (TestRun r)));
      ("totalDurationMs", opt_int (totalDurationMs r));
      ("phase1FileAnalysisMs", opt_int (phase1FileAnalysisMs r));
      ("phase2HashProcessingMs", opt_int (phase2HashProcessingMs r));
      ("phase3UIRenderingMs", opt_int (phase3UIRenderingMs r));
      ("PROCESSING_START", PInt (PROCESSING_START r));
      ("DEDUPLICATION_START", PInt (DEDUPLICATION_START r));
      ("UI_UPDATE_START", PInt (UI_UPDATE_START r));
      ("ALL_FILES_DISPLAYED", PInt (ALL_FILES_DISPLAYED r)) ].

(** Truth value of a duration: [None] and [0] are false. *)
Definition truthy (o : option Z) : bool :=
  match o with Some z => negb (z =? 0)%Z | None => false end.

Definition timing_rows (content : string) : list trow :=
  let g := group_events (timing_matches content) in
  (fun run_num => timing_row run_num (default ∅ (timing_data g !! run_num)))
    <$> ParseConsoleLog.sorted_keys (timing_data g).

(** The grouping loop as it runs: [int(time_str)] (line 53) is reached
    for the matches from the first PROCESSING_START on, outside any
    [try], and a timing of more digits than [int] converts raises
    ValueError.  [group_step], [group_events] and [timing_rows] above
    are the loop and the rows of a call that gets through. *)
Definition group_step_checked (st : groups) (m : string * string) : exn + groups :=
  let run :=
    if String.eqb (fst m) "PROCESSING_START" then S (current_run st) else current_run st in
  if (0 <? run)%nat then
    timing ← int_checked (snd m);
    mret {| timing_data :=
              <[run := <[fst m := timing]> (default ∅ (timing_data st !! run))]>
                (timing_data st);
            current_run := run |}
  else mret {| timing_data := timing_data st; current_run := run |}.

Fixpoint group_loop (st : groups) (ms : list (string * string)) : exn + groups :=
  match ms with
  | [] => mret st
  | m :: ms' => st' ← group_step_checked st m; group_loop st' ms'
  end.

(** "Calculate phase durations", on the groups the loop has made. *)
Definition rows_of (g : groups) : list trow :=
  (fun run_num => timing_row run_num (default ∅ (timing_data g !! run_num)))
    <$> ParseConsoleLog.sorted_keys (timing_data g).

Definition report_row {S} (r : trow) : py S unit :=
  if truthy (totalDurationMs r) && truthy (phase1FileAnalysisMs r)
     && truthy (phase2HashProcessingMs r) && truthy (phase3UIRenderingMs r)
  then print "  Run {}: {}ms total (P1:{}ms, P2:{}ms, P3:{}ms)"
         [N (TestRun r); V (opt_int (totalDurationMs r));
          V (opt_int (phase1FileAnalysisMs r)); V (opt_int (phase2HashProcessingMs r));
          V (opt_int (phase3UIRenderingMs r))]
  else print "  Run {}: Missing timing data" [N (TestRun r)].

(** [sorted(keys)] for string keys: code-point order, which on UTF-8 is
    the order of the bytes. *)
Definition sorted_strings (keys : gset string) : list string :=
  merge_sort String.le (elements keys).

(** *** save_results *)
Definition fieldnames0 : list string :=
  [ "TestRun"; "timestamp"; "totalFiles"; "duplicateCandidateCount";
    "duplicateCandidatePercent"; "uniqueFilesSizeMB"; "duplicateCandidatesSizeMB";
    "totalSizeMB"; "totalDirectoryCount"; "avgDirectoryDepth"; "maxDirectoryDepth";
    "uniqueFilesTotal"; "maxFileDepth"; "avgFileDepth"; "avgFilenameLength";
    "zeroByteFiles"; "totalDurationMs"; "phase1FileAnalysisMs";
    "phase2HashProcessingMs"; "phase3UIRenderingMs"; "PROCESSING_START";
    "DEDUPLICATION_START"; "UI_UPDATE_START"; "ALL_FILES_DISPLAYED" ].

(** [all_keys]: the union of the records' key sets. *)
Definition all_keys (merged_data : list (gmap string pyval)) : gset string :=
  foldl (fun keys item => keys ∪ dom item) ∅ merged_data.

(** "Add any missing fields to the end". *)
Definition fieldnames_of (merged_data : list (gmap string pyval)) : list string :=
  foldl (fun fieldnames key =>
           if bool_decide (key ∉ fieldnames) then fieldnames ++ [key] else fieldnames)
        fieldnames0 (sorted_strings (all_keys merged_data)).

(** The condition of the data-quality count, as far as it can raise:
    a true [totalSizeMB] is compared with [0]. *)
Definition quality_check (item : gmap string pyval) : exn + unit :=
  match item !! "totalSizeMB" with
  | Some (PStr s) => if String.eqb s "" then mret tt else inl TypeError
  | Some (PList l) => match l with [] => mret tt | _ => inl TypeError end
  | Some (PDict kv) => match kv with [] => mret tt | _ => inl TypeError end
  | _ => mret tt
  end.

(** [output_file] is [output_dir / '5_CompleteAnalysisData.csv']; the
    result is [None] when there is nothing to save.  The number of
    complete records, which depends on float values, is left out of the
    line that prints it. *)
Definition save_results (merged_data : list (gmap string pyval)) (output_file : string)
    : outcome (option string) :=
  def tt
    (if bool_decide (merged_data = []) then
       print "No data to save" [];; mret None
     else
       let fieldnames := fieldnames_of merged_data in
       emit (Open output_file);;
       Csv.writeheader output_file fieldnames;;
       Csv.writerows output_file fieldnames merged_data;;
       print "" [];;
       print "COMPLETE TRIAL 5 DATA SAVED:" [];;
       print "  File: {}" [V (PStr output_file)];;
       print "  Records: {}" [N (length merged_data)];;
       print "  Fields: {}" [N (length fieldnames)];;
       for_each (fun item => lift (quality_check item)) merged_data;;
       print "  Complete records: {}/{}" [N (length merged_data)];;
       mret (Some output_file)).

Section WithJson.
Variable json_loads : string -> json_error + gmap string pyval.

(** [ðŸ”¬ FOLDER_ANALYSIS_DATA: ({.+?})], without flags *)
Definition folder_pattern : re :=
  (Lit (microscope_1252 +:+ " FOLDER_ANALYSIS_DATA: ")
     ⋅ Group (Lit "{" ⋅ PlusLazy not_lf ⋅ Lit "}"))%re.

Definition folder_matches (content : string) : list string :=
  group1 ∘ snd <$> finditer folder_pattern content.

(** The body of [for i, match in enumerate(folder_matches, 1)];
    [{'TestRun': i, **data}] lets a member of the blob replace [i]. *)
Definition folder_body (x : nat * string) : py (list (gmap string pyval)) unit :=
  let '(i, match_) := x in
  try_except
    (data ← lift (ImprovedParserJson.loads json_loads match_);
     folder_data ← get;
     put (folder_data ++ [data ∪ {[ "TestRun" := PInt (Z.of_nat i) ]}]);;
     lift (format_1f (dget data "totalSizeMB" (PInt 0)));;
     lift (format_1f (dget data "avgDirectoryDepth" (PInt 0)));;
     print "  Entry {}: {} files, {:.1f}MB, depth {:.1f}"
       [N i; V (dget data "totalFiles" (PInt 0)); V (dget data "totalSizeMB" (PInt 0));
        V (dget data "avgDirectoryDepth" (PInt 0))])
    (fun e =>
       match e with
       | JSONDecodeError => Some (print "  Entry {}: JSON decode error - {}" [N i; E e])
       | _ => None
       end).

(** ["=" * 60] *)
Definition rule : string := String.concat "" (replicate 60 "=").

Definition parse_trial5_data (content : string)
    : outcome (list (gmap string pyval) * list (gmap string pyval)) :=
  def []
    (print rule [];;
     print "TRIAL 5 DATA EXTRACTION" [];;
     print rule [];;
     print "" [];;
     print "FOLDER ANALYSIS DATA:" [];;
     print "Found {} complete JSON entries" [N (length (folder_matches content))];;
     for_each folder_body (imap (fun i m => (S i, m)) (folder_matches content));;
     folder_data ← get;
     print "" [];;
     g ← lift (group_loop groups0 (timing_matches content));
     print "TIMING DATA:" [];;
     print "Found {} timing test runs" [N (size (timing_data g))];;
     for_each report_row (rows_of g);;
     mret (folder_data, trow_dict <$> rows_of g)).

(** *** merge_data

    Runs are keyed by [item['TestRun']], an int in every record the
    parser numbers itself.  A blob that carries a ['TestRun'] member of
    its own which is not an int is outside the model: [run_key] answers
    [TypeError], as Python does for a list or a dict (which cannot be
    hashed) and for a text sorted among ints, but not for every other
    value.  The theorems on [merge_data] are stated for records with an
    int under ['TestRun']. *)
Definition run_key (item : gmap string pyval) : exn + Z :=
  match item !! "TestRun" with
  | Some (PInt z) => inr z
  | Some _ => inl TypeError
  | None => inl KeyError
  end.

Fixpoint by_run (items : list (gmap string pyval)) (acc : gmap Z (gmap string pyval))
    : exn + gmap Z (gmap string pyval) :=
  match items with
  | [] => mret acc
  | item :: items' => k ← run_key item; by_run items' (<[k := item]> acc)
  end.

Definition merge_data (folder_data timing_data : list (gmap string pyval))
    : exn + list (gmap string pyval) :=
  folder_by_run ← by_run folder_data ∅;
  timing_by_run ← by_run timing_data ∅;
  let all_runs : gset Z := dom folder_by_run ∪ dom timing_by_run in
  mret ((fun run_num =>
           let folder_item := default ∅ (folder_by_run !! run_num) in
           let timing_item := default ∅ (timing_by_run !! run_num) in
           <["TestRun" := PInt run_num]> (timing_item ∪ folder_item))
          <$> merge_sort Z.le (elements all_runs)).

(** *** main *)
Definition input_file : string := "5_Raw_ConsoleData.md".

Definition main (w : Os.world) : outcome unit :=
  def tt
    (if negb (Os.path_exists w input_file) then
       print "Error: {} not found" [V (PStr input_file)]
     else
       let content := default "" (Os.file_text w input_file) in
       '(folder_data, timing_data) ← call (parse_trial5_data content);
       merged_data ← lift (merge_data folder_data timing_data);
       output_file ← call (save_results merged_data
                             (Os.path_sibling w input_file "5_CompleteAnalysisData.csv"));
       print "" [];;
       print "TRIAL 5 ANALYSIS READY!" [];;
       match output_file with
       | Some name => print "Use: {} for comprehensive calibration" [V (PStr name)]
       | None => raise AttributeError
       end).
End WithJson.

End Trial5Parser.

(** * Properties *)

(** ** The grouping loop of parse_timing_data *)
Module TimingFacts.
Import ParseConsoleLog.

(** The number of boundary markers in a list of matches. *)
Definition count_starts (ms : list tmatch) : nat := length (List.filter is_start ms).

(** The matches of the run in progress: those before the next marker. *)
Fixpoint same_run (ms : list tmatch) : list tmatch :=
  match ms with
  | [] => []
  | m :: ms' => if is_start m then [] else m :: same_run ms'
  end.

(** The value a run's map holds for a name. *)
Definition stored (g : groups) (run : nat) (name : string) : option Z :=
  test_run_data g !! run ≫= (.!! name).

Lemma group_events_snoc ms m :
  group_events (ms ++ [m]) = group_step (group_events ms) m.
Proof. unfold group_events. by rewrite foldl_app. Qed.

Lemma count_starts_snoc ms m :
  count_starts (ms ++ [m]) = (count_starts ms + if is_start m then 1 else 0)%nat.
Proof.
  unfold count_starts. rewrite List.filter_app, length_app. f_equal.
  simpl. by destruct (is_start m).
Qed.

Lemma current_test_run_step st m :
  current_test_run (group_step st m)
  = (current_test_run st + if is_start m then 1 else 0)%nat.
Proof.
  unfold group_step. destruct (is_start m); simpl.
  - replace (current_test_run st + 1)%nat with (S (current_test_run st)) by lia. done.
  - rewrite Nat.add_0_r. by destruct (0 <? current_test_run st)%nat.
Qed.

(** The counter is the number of markers seen. *)
Lemma current_test_run_count ms :
  current_test_run (group_events ms) = count_starts ms.
Proof.
  induction ms as [|m ms IH] using rev_ind; [done|].
  by rewrite group_events_snoc, current_test_run_step, count_starts_snoc, IH.
Qed.

(** A step writes only into the run that is current after it. *)
Lemma group_step_other st m run :
  run ≠ current_test_run (group_step st m) ->
  test_run_data (group_step st m) !! run = test_run_data st !! run.
Proof.
  rewrite current_test_run_step. unfold group_step.
  destruct (is_start m); simpl; intros Hne.
  - rewrite lookup_insert_ne; [done|lia].
  - destruct (0 <? current_test_run st)%nat; simpl; [|done].
    rewrite lookup_insert_ne; [done|lia].
Qed.

(** Runs already closed are never written again. *)
Lemma foldl_group_step_closed ms st run :
  (run < current_test_run st)%nat ->
  test_run_data (foldl group_step st ms) !! run = test_run_data st !! run.
Proof.
  revert st. induction ms as [|m ms IH]; intros st Hlt; [done|].
  simpl. rewrite IH.
  - apply group_step_other. rewrite current_test_run_step. lia.
  - rewrite current_test_run_step. lia.
Qed.

(** Within its run, a stored value stays until the same name is met. *)
Lemma foldl_group_step_keeps ms st name t :
  (0 < current_test_run st)%nat ->
  stored st (current_test_run st) name = Some t ->
  (forall m, m ∈ same_run ms -> event_type m ≠ name) ->
  stored (foldl group_step st ms) (current_test_run st) name = Some t.
Proof.
  revert st. induction ms as [|m ms IH]; intros st Hpos Hst Hfresh; [done|].
  simpl in *. destruct (is_start m) eqn:Hm.
  - unfold stored. rewrite foldl_group_step_closed.
    + rewrite group_step_other; [done|]. rewrite current_test_run_step, Hm. lia.
    + rewrite current_test_run_step, Hm. lia.
  - assert (Hcur : current_test_run (group_step st m) = current_test_run st).
    { rewrite current_test_run_step, Hm. lia. }
    rewrite <- Hcur. apply IH.
    + lia.
    + rewrite Hcur. unfold stored, group_step in *. rewrite Hm.
      apply Nat.ltb_lt in Hpos. rewrite Hpos. simpl.
      rewrite lookup_insert_eq. simpl.
      rewrite lookup_insert_ne; [|apply Hfresh; left].
      destruct (test_run_data st !! current_test_run st); simpl in *; [done|discriminate].
    + intros m' Hin. apply Hfresh. by right.
Qed.

(** The match just processed is stored in the current run. *)
Lemma group_step_stores st m :
  (0 < current_test_run (group_step st m))%nat ->
  stored (group_step st m) (current_test_run (group_step st m)) (event_type m)
  = Some (timing m).
Proof.
  unfold stored, group_step.
  destruct (is_start m); simpl.
  - intros _. rewrite lookup_insert_eq. simpl. by rewrite lookup_insert_eq.
  - destruct (0 <? current_test_run st)%nat eqn:Hpos; simpl.
    + intros _. rewrite lookup_insert_eq. simpl. by rewrite lookup_insert_eq.
    + apply Nat.ltb_ge in Hpos. lia.
Qed.

End TimingFacts.

(** ** The grouping loop of the older parse_console_log.py *)
Module LegacyTimingFacts.
Import LegacyParseConsoleLog.

Definition is_start (m : string * string) : bool := String.eqb (fst m) "PROCESSING_START".

Definition count_starts (ms : list (string * string)) : nat :=
  length (List.filter is_start ms).

Fixpoint same_run (ms : list (string * string)) : list (string * string) :=
  match ms with
  | [] => []
  | m :: ms' => if is_start m then [] else m :: same_run ms'
  end.

Definition stored (g : groups) (run : nat) (name : string) : option Z :=
  test_run_data g !! run ≫= (.!! name).

Lemma legacy_group_events_snoc ms m :
  group_events (ms ++ [m]) = group_step (group_events ms) m.
Proof. unfold group_events. by rewrite foldl_app. Qed.

Lemma legacy_current_test_run_step st m :
  current_test_run (group_step st m)
  = (current_test_run st + if is_start m then 1 else 0)%nat.
Proof.
  unfold group_step, is_start. simpl.
  destruct (String.eqb (fst m) "PROCESSING_START"); lia.
Qed.

(** The counter is one more than the number of markers seen. *)
Lemma legacy_current_test_run_count ms :
  current_test_run (group_events ms) = S (count_starts ms).
Proof.
  induction ms as [|m ms IH] using rev_ind; [done|].
  rewrite legacy_group_events_snoc, legacy_current_test_run_step, IH.
  unfold count_starts. rewrite List.filter_app, length_app. simpl.
  destruct (is_start m); simpl; lia.
Qed.

Lemma legacy_group_step_other st m run :
  run ≠ current_test_run (group_step st m) ->
  test_run_data (group_step st m) !! run = test_run_data st !! run.
Proof. intros Hne. unfold group_step in *. simpl in *. by rewrite lookup_insert_ne. Qed.

Lemma legacy_foldl_group_step_closed ms st run :
  (run < current_test_run st)%nat ->
  test_run_data (foldl group_step st ms) !! run = test_run_data st !! run.
Proof.
  revert st. induction ms as [|m ms IH]; intros st Hlt; [done|].
  simpl. rewrite IH.
  - apply legacy_group_step_other. rewrite legacy_current_test_run_step. lia.
  - rewrite legacy_current_test_run_step. lia.
Qed.

Lemma legacy_group_step_stores st m :
  stored (group_step st m) (current_test_run (group_step st m)) (fst m)
  = Some (int_ (snd m)).
Proof.
  unfold stored, group_step. simpl.
  rewrite lookup_insert_eq. simpl. by rewrite lookup_insert_eq.
Qed.

Lemma legacy_foldl_group_step_keeps ms st name t :
  stored st (current_test_run st) name = Some t ->
  (forall m, m ∈ same_run ms -> fst m ≠ name) ->
  stored (foldl group_step st ms) (current_test_run st) name = Some t.
Proof.
  revert st. induction ms as [|m ms IH]; intros st Hst Hfresh; [done|].
  simpl in *. destruct (is_start m) eqn:Hm.
  - unfold stored. rewrite legacy_foldl_group_step_closed.
    + rewrite legacy_group_step_other; [done|]. rewrite legacy_current_test_run_step, Hm. lia.
    + rewrite legacy_current_test_run_step, Hm. lia.
  - assert (Hcur : current_test_run (group_step st m) = current_test_run st).
    { rewrite legacy_current_test_run_step, Hm. lia. }
    rewrite <- Hcur. apply IH.
    + rewrite Hcur. unfold stored, group_step, is_start in *. rewrite Hm. simpl.
      rewrite lookup_insert_eq. simpl.
      rewrite lookup_insert_ne; [|apply Hfresh; left].
      destruct (test_run_data st !! current_test_run st); simpl in *; [done|discriminate].
    + intros m' Hin. apply Hfresh. by right.
Qed.

End LegacyTimingFacts.

(** ** Claims about the timing-event extractor *)

(** C5. Within a run the value kept for an event name is the one of its
    last occurrence, and occurrences of the name in other runs, earlier
    or later, do not touch it: after the matches [pre], an event [e] of
    run [k] is stored in run [k] and is still there at the end whenever
    no later match of the same run bears its name.  The newer script
    numbers the runs from 1, the older one from 2. *)
Theorem C5_last_write_wins_within_run
    (pre post : list ParseConsoleLog.tmatch) (e : ParseConsoleLog.tmatch)
    (pre' post' : list (string * string)) (e' : string * string) :
  ((0 < TimingFacts.count_starts (pre ++ [e]))%nat ->
   (forall m, m ∈ TimingFacts.same_run post ->
              ParseConsoleLog.event_type m ≠ ParseConsoleLog.event_type e) ->
   TimingFacts.stored (ParseConsoleLog.group_events (pre ++ e :: post))
     (TimingFacts.count_starts (pre ++ [e])) (ParseConsoleLog.event_type e)
   = Some (ParseConsoleLog.timing e))
  ∧
  ((forall m, m ∈ LegacyTimingFacts.same_run post' -> fst m ≠ fst e') ->
   LegacyTimingFacts.stored (LegacyParseConsoleLog.group_events (pre' ++ e' :: post'))
     (S (LegacyTimingFacts.count_starts (pre' ++ [e']))) (fst e')
   = Some (int_ (snd e'))).
Proof.
  split.
  - intros Hpos Hfresh.
    replace (pre ++ e :: post) with ((pre ++ [e]) ++ post) by by rewrite <- app_assoc.
    unfold ParseConsoleLog.group_events. rewrite foldl_app.
    fold (ParseConsoleLog.group_events (pre ++ [e])).
    rewrite <- TimingFacts.current_test_run_count in *.
    apply TimingFacts.foldl_group_step_keeps; [done| |done].
    rewrite TimingFacts.group_events_snoc in *.
    by apply TimingFacts.group_step_stores.
  - intros Hfresh.
    replace (pre' ++ e' :: post') with ((pre' ++ [e']) ++ post') by by rewrite <- app_assoc.
    unfold LegacyParseConsoleLog.group_events. rewrite foldl_app.
    fold (LegacyParseConsoleLog.group_events (pre' ++ [e'])).
    rewrite <- LegacyTimingFacts.legacy_current_test_run_count.
    apply LegacyTimingFacts.legacy_foldl_group_step_keeps; [|done].
    rewrite LegacyTimingFacts.legacy_group_events_snoc.
    apply LegacyTimingFacts.legacy_group_step_stores.
Qed.

(** ** The run groups and their rows *)
Module RunFacts.
Import ParseConsoleLog TimingFacts.

Lemma Sorted_seq a n : Sorted Nat.le (seq a n).
Proof.
  revert a. induction n as [|n IH]; intros a; simpl; [constructor|].
  constructor; [apply IH|]. destruct n; simpl; constructor. lia.
Qed.

(** Keys that are exactly [1..n] come out of [sorted] as [1; ...; n]. *)
Lemma sorted_keys_seq {V} (d : gmap nat V) a n :
  dom d = set_seq a n -> sorted_keys d = seq a n.
Proof.
  intros Hdom. unfold sorted_keys. rewrite Hdom.
  apply (Sorted_unique Nat.le).
  - apply Sorted_merge_sort; apply _.
  - apply Sorted_seq.
  - rewrite merge_sort_Permutation.
    apply NoDup_Permutation; [apply NoDup_elements|apply NoDup_seq|].
    intros x. rewrite elem_of_elements, elem_of_set_seq, elem_of_seq. lia.
Qed.

(** The invariant of the grouping loop: the runs are [1..current], and
    each of them holds the marker that opened it. *)
Definition well_grouped (g : groups) : Prop :=
  dom (test_run_data g) = set_seq 1 (current_test_run g)
  ∧ (forall run d, test_run_data g !! run = Some d -> is_Some (d !! "PROCESSING_START")).

Lemma well_grouped_step g m : well_grouped g -> well_grouped (group_step g m).
Proof.
  intros [Hdom Hps]. unfold group_step, is_start, well_grouped.
  destruct (String.eqb (event_type m) "PROCESSING_START") eqn:Hm.
  - cbn [test_run_data current_test_run Nat.ltb Nat.leb].
    apply String.eqb_eq in Hm. split.
    + rewrite dom_insert_L, Hdom, set_seq_S_end_union_L. reflexivity.
    + intros run d. rewrite lookup_insert. case_decide; [|apply Hps].
      intros [= <-]. rewrite Hm, lookup_insert_eq. eauto.
  - destruct (0 <? current_test_run g)%nat eqn:Hpos;
      cbn [test_run_data current_test_run]; [|by split].
    apply Nat.ltb_lt in Hpos.
    assert (Hin : current_test_run g ∈ dom (test_run_data g)).
    { rewrite Hdom, elem_of_set_seq. lia. }
    split.
    + rewrite dom_insert_L, <- Hdom.
      by apply subseteq_union_1_L, singleton_subseteq_l.
    + intros run d. rewrite lookup_insert. case_decide; [|apply Hps].
      intros [= <-]. apply elem_of_dom in Hin as [d0 Hd0]. rewrite Hd0. simpl.
      apply String.eqb_neq in Hm. rewrite lookup_insert_ne; [|done]. eauto.
Qed.

Lemma well_grouped_events ms : well_grouped (group_events ms).
Proof.
  induction ms as [|m ms IH] using rev_ind.
  - split; [done|]. intros run d. cbn. by rewrite lookup_empty.
  - rewrite group_events_snoc. by apply well_grouped_step.
Qed.

(** N markers give the run numbers 1..N. *)
Lemma run_numbers ms :
  sorted_keys (test_run_data (group_events ms)) = seq 1 (count_starts ms).
Proof.
  apply sorted_keys_seq. rewrite <- current_test_run_count.
  apply well_grouped_events.
Qed.

(** Every row is made from the map of a run. *)
Lemma row_of_run content g r :
  r ∈ rows_of content g ->
  exists d, test_run_data g !! Test_Run r = Some d
            ∧ r = make_row content (test_run_positions g) (Test_Run r) d.
Proof.
  unfold rows_of. rewrite list_elem_of_fmap. intros (run & -> & Hin).
  unfold sorted_keys in Hin. rewrite merge_sort_Permutation, elem_of_elements in Hin.
  apply elem_of_dom in Hin as [d Hd]. exists d. simpl. by rewrite Hd.
Qed.

End RunFacts.

(** ** Claims about the phase-duration calculator *)

(** The phases and the timestamps each depends on: (end, start). *)
Inductive phase : Type := Phase1 | Phase2 | Phase3 | Total.

Definition endpoints (p : phase) : string * string :=
  match p with
  | Phase1 => ("DEDUPLICATION_START", "PROCESSING_START")
  | Phase2 => ("UI_UPDATE_START", "DEDUPLICATION_START")
  | Phase3 => ("ALL_FILES_DISPLAYED", "UI_UPDATE_START")
  | Total => ("ALL_FILES_DISPLAYED", "PROCESSING_START")
  end.

(** The duration as the specification words it: the difference when both
    timestamps are there, undefined otherwise. *)
Definition spec_duration (d : gmap string Z) (p : phase) : option Z :=
  match d !! (endpoints p).1, d !! (endpoints p).2 with
  | Some e, Some s => Some (e - s)%Z
  | _, _ => None
  end.

(** The timestamps with the absent ones read as 0. *)
Definition zero_filled (d : gmap string Z) (name : string) : Z := default 0%Z (d !! name).

Definition duration_of (r : ParseConsoleLog.row) (p : phase) : option Z :=
  match p with
  | Phase1 => ParseConsoleLog.phase1FileAnalysisMs r
  | Phase2 => ParseConsoleLog.phase2HashProcessingMs r
  | Phase3 => ParseConsoleLog.phase3UIRenderingMs r
  | Total => ParseConsoleLog.totalDurationMs r
  end.

Definition trial5_duration_of (r : Trial5Parser.trow) (p : phase) : option Z :=
  match p with
  | Phase1 => Trial5Parser.phase1FileAnalysisMs r
  | Phase2 => Trial5Parser.phase2HashProcessingMs r
  | Phase3 => Trial5Parser.phase3UIRenderingMs r
  | Total => Trial5Parser.totalDurationMs r
  end.

Lemma make_row_duration content positions run d p :
  is_Some (d !! "PROCESSING_START") ->
  duration_of (ParseConsoleLog.make_row content positions run d) p = spec_duration d p.
Proof.
  intros [s Hs]. unfold spec_duration, ParseConsoleLog.make_row.
  destruct p; simpl; rewrite ?Hs; simpl;
    repeat match goal with |- context [?m !! ?k] => destruct (m !! k) end; done.
Qed.

Lemma timing_row_duration run d p :
  trial5_duration_of (Trial5Parser.timing_row run d) p
  = Trial5Parser.diff_if_ge (zero_filled d (endpoints p).1) (zero_filled d (endpoints p).2).
Proof. by destruct p. Qed.

Lemma trial5_row_of_run content r :
  r ∈ Trial5Parser.timing_rows content ->
  exists d, Trial5Parser.timing_data
              (Trial5Parser.group_events (Trial5Parser.timing_matches content))
              !! Trial5Parser.TestRun r = Some d
            ∧ r = Trial5Parser.timing_row (Trial5Parser.TestRun r) d.
Proof.
  unfold Trial5Parser.timing_rows. rewrite list_elem_of_fmap. intros (run & -> & Hin).
  unfold ParseConsoleLog.sorted_keys in Hin.
  rewrite merge_sort_Permutation, elem_of_elements in Hin.
  apply elem_of_dom in Hin as [d Hd]. exists d. simpl. by rewrite Hd.
Qed.

(** Log texts used as examples: one line per entry. *)
Definition lines (l : list string) : string := String.concat lf l.

Definition log_start_only : string :=
  lines ["processingTimer.js:1 PROCESSING_START: 100"].

Definition log_backwards : string :=
  lines ["processingTimer.js:1 PROCESSING_START: 10";
         "processingTimer.js:2 DEDUPLICATION_START: 5"].

(** C1, as the code has it.  In parse_console_log.py every run's map holds
    PROCESSING_START, and each phase duration of the run's row is the
    end timestamp minus the start timestamp when both are in the map and
    None when either is absent.  In trial5_parser.py an absent timestamp
    is read as 0, and each duration is the difference of the timestamps
    so read when the end is not below the start, None otherwise. *)
Theorem C1_phase_durations_per_script (content : string) :
  (forall r, r ∈ ParseConsoleLog.parse_timing_data content ->
     exists d,
       ParseConsoleLog.test_run_data
         (ParseConsoleLog.group_events (ParseConsoleLog.all_matches content))
         !! ParseConsoleLog.Test_Run r = Some d
       ∧ is_Some (d !! "PROCESSING_START")
       ∧ forall p, duration_of r p = spec_duration d p)
  ∧
  (forall r, r ∈ Trial5Parser.timing_rows content ->
     exists d,
       Trial5Parser.timing_data
         (Trial5Parser.group_events (Trial5Parser.timing_matches content))
         !! Trial5Parser.TestRun r = Some d
       ∧ forall p,
           trial5_duration_of r p
           = if (zero_filled d (endpoints p).2 <=? zero_filled d (endpoints p).1)%Z
             then Some (zero_filled d (endpoints p).1 - zero_filled d (endpoints p).2)%Z
             else None).
Proof.
  split.
  - intros r Hr. unfold ParseConsoleLog.parse_timing_data in Hr.
  apply RunFacts.row_of_run in Hr as (d & Hd & Hrow).
    exists d. split; [done|].
    pose proof (proj2 (RunFacts.well_grouped_events _) _ _ Hd) as Hps.
    split; [done|]. intros p. rewrite Hrow. by apply make_row_duration.
  - intros r Hr. apply trial5_row_of_run in Hr as (d & Hd & Hrow).
    exists d. split; [done|]. intros p. rewrite Hrow. apply timing_row_duration.
Qed.

(** C1 fails on trial5_parser.py: a run that has only its
    PROCESSING_START gets 0, not None, as the duration between two
    timestamps that are both absent. *)
Lemma C1_trial5_absent_endpoints_give_zero :
  let g := Trial5Parser.group_events (Trial5Parser.timing_matches log_start_only) in
  Trial5Parser.timing_data g !! 1%nat = Some {[ "PROCESSING_START" := 100%Z ]}
  ∧ spec_duration {[ "PROCESSING_START" := 100%Z ]} Phase2 = None
  ∧ (fun r => trial5_duration_of r Phase2) <$> Trial5Parser.timing_rows log_start_only
    = [Some 0%Z].
Proof. vm_compute. repeat split; reflexivity. Qed.

(** C7, as the code has it.  parse_console_log.py checks no order: when
    both timestamps of a phase are in the run's map and the end is below
    the start, the row carries the negative difference.
    trial5_parser.py guards each subtraction: there the duration of such
    a phase is None. *)
Theorem C7_end_before_start (content : string) (p : phase) (e s : Z) :
  (forall r d,
     r ∈ ParseConsoleLog.parse_timing_data content ->
     ParseConsoleLog.test_run_data
       (ParseConsoleLog.group_events (ParseConsoleLog.all_matches content))
       !! ParseConsoleLog.Test_Run r = Some d ->
     d !! (endpoints p).1 = Some e -> d !! (endpoints p).2 = Some s -> (e < s)%Z ->
     duration_of r p = Some (e - s)%Z ∧ (e - s < 0)%Z)
  ∧
  (forall r d,
     r ∈ Trial5Parser.timing_rows content ->
     Trial5Parser.timing_data
       (Trial5Parser.group_events (Trial5Parser.timing_matches content))
       !! Trial5Parser.TestRun r = Some d ->
     d !! (endpoints p).1 = Some e -> d !! (endpoints p).2 = Some s -> (e < s)%Z ->
     trial5_duration_of r p = None).
Proof.
  split.
  - intros r d Hr Hd He Hs Hlt.
    unfold ParseConsoleLog.parse_timing_data in Hr.
  apply RunFacts.row_of_run in Hr as (d' & Hd' & Hrow).
    rewrite Hd in Hd'. injection Hd' as <-.
    pose proof (proj2 (RunFacts.well_grouped_events _) _ _ Hd) as Hps.
    rewrite Hrow, make_row_duration by done.
    unfold spec_duration. rewrite He, Hs. split; [done|lia].
  - intros r d Hr Hd He Hs Hlt.
    apply trial5_row_of_run in Hr as (d' & Hd' & Hrow).
    rewrite Hd in Hd'. injection Hd' as <-.
    rewrite Hrow, timing_row_duration. unfold zero_filled. rewrite He, Hs. simpl.
    unfold Trial5Parser.diff_if_ge. destruct (Z.leb_spec s e); [lia|done].
Qed.

(** C7 fails on trial5_parser.py: with both timestamps of phase 1 present
    and the end below the start, the duration is None, not -5. *)
Lemma C7_trial5_guards_the_subtraction :
  let g := Trial5Parser.group_events (Trial5Parser.timing_matches log_backwards) in
  Trial5Parser.timing_data g !! 1%nat
    = Some {[ "PROCESSING_START" := 10%Z; "DEDUPLICATION_START" := 5%Z ]}
  ∧ (fun r => trial5_duration_of r Phase1) <$> Trial5Parser.timing_rows log_backwards
    = [None].
Proof. vm_compute. split; reflexivity. Qed.

(** ** Loops that try one blob after the other *)
Module LoopFacts.
Import ParseConsoleLog.

Section Loop.
(** [attempt n m] is the record the blob [m] yields when the counter
    is [n], if it yields one; [said n m] is what the iteration prints. *)
Context (body : string -> py folder_locals unit).
Context (attempt : nat -> string -> option (gmap string pyval)).
Context (said : nat -> string -> list effect).
Hypothesis body_spec : forall m rows n,
  body m (rows, n)
  = match attempt n m with
    | Some row => (inr tt, (rows ++ [row], S n), said n m)
    | None => (inr tt, (rows, n), said n m)
    end.
(** Whether a blob yields a record does not depend on the counter. *)
Hypothesis attempt_indep : forall n n' m, is_Some (attempt n m) -> is_Some (attempt n' m).
Hypothesis attempt_index : forall n m row,
  attempt n m = Some row -> row !! "TestRun#" = Some (PInt (Z.of_nat n)).

Definition well_formed (m : string) : bool := bool_decide (is_Some (attempt 0 m)).

Fixpoint kept (l : list string) (n : nat) : list (gmap string pyval) :=
  match l with
  | [] => []
  | m :: l' =>
      match attempt n m with
      | Some row => row :: kept l' (S n)
      | None => kept l' n
      end
  end.

Fixpoint spoken (l : list string) (n : nat) : list effect :=
  match l with
  | [] => []
  | m :: l' => said n m ++ spoken l' (match attempt n m with Some _ => S n | None => n end)
  end.

Lemma for_each_body l rows n :
  for_each body l (rows, n)
  = (inr tt, (rows ++ kept l n, (n + length (kept l n))%nat), spoken l n).
Proof.
  revert rows n. induction l as [|m l IH]; intros rows n; simpl.
  - unfold ret. by rewrite app_nil_r, Nat.add_0_r.
  - unfold bind. rewrite body_spec. destruct (attempt n m) as [row|].
    + rewrite IH. simpl. rewrite <- app_assoc. simpl.
      repeat f_equal. lia.
    + by rewrite IH.
Qed.

Lemma attempt_well_formed n m : is_Some (attempt n m) <-> well_formed m = true.
Proof.
  unfold well_formed. rewrite bool_decide_eq_true. split; apply attempt_indep.
Qed.

Lemma length_kept l n : length (kept l n) = length (List.filter well_formed l).
Proof.
  revert n. induction l as [|m l IH]; intros n; simpl; [done|].
  pose proof (attempt_well_formed n m) as Hwf.
  destruct (attempt n m); destruct (well_formed m); simpl; rewrite ?IH; try done.
  - destruct Hwf as [Hwf _]. by discriminate Hwf.
  - destruct Hwf as [_ Hwf]. by destruct Hwf.
Qed.




Lemma kept_all (P : gmap string pyval -> Prop) l n :
  (forall k m row, attempt k m = Some row -> P row) -> Forall P (kept l n).
Proof.
  intros HP. revert n. induction l as [|m l IH]; intros n; simpl; [constructor|].
  destruct (attempt n m) as [row|] eqn:Hrow; [|apply IH].
  constructor; [by eapply HP|apply IH].
Qed.

(** The records are those of the well-formed blobs, in their order. *)
Lemma kept_Forall2 l n :
  Forall2 (fun m row => exists k, attempt k m = Some row)
    (List.filter well_formed l) (kept l n).
Proof.
  revert n. induction l as [|m l IH]; intros n; simpl; [constructor|].
  pose proof (attempt_well_formed n m) as Hwf.
  destruct (attempt n m) as [row|] eqn:Hrow; destruct (well_formed m).
  - constructor; [by eauto|apply IH].
  - destruct Hwf as [Hwf _]. by discriminate Hwf.
  - destruct Hwf as [_ Hwf]. by destruct Hwf.
  - apply IH.
Qed.




End Loop.
End LoopFacts.

(** ** The key:value extractor of parse_console_log.py *)
Module FolderFacts.
Import ParseConsoleLog.

Lemma kv_field_value_exn field pat m e :
  field_value field pat m = inl e -> e = ValueError.
Proof.
  unfold field_value, float_, int_checked. destruct (search pat m); [|done].
  case_bool_decide.
  - by match goal with |- context [if ?c then _ else _] => destruct c end; intros [= <-].
  - by destruct (String.eqb field "timestamp"), (too_long _); intros [= <-].
Qed.

Lemma kv_extract_fields_exn fps m d e :
  extract_fields fps m d = inl e -> e = ValueError.
Proof.
  revert d. induction fps as [|[field pat] fps IH]; intros d; simpl; [done|].
  destruct (field_value field pat m) eqn:Hv; [|apply IH].
  intros [= <-]. by apply kv_field_value_exn in Hv.
Qed.

(** After the field loop every listed field has a value. *)
Lemma extract_fields_dom fps m d data :
  extract_fields fps m d = inr data -> dom data = list_to_set fps.*1 ∪ dom d.
Proof.
  revert d. induction fps as [|[field pat] fps IH]; intros d; simpl.
  - intros [= <-]. set_solver.
  - destruct (field_value field pat m); [done|].
    intros Hd. apply IH in Hd. rewrite Hd, dom_insert_L. set_solver.
Qed.

Lemma extracted_field m data field :
  extract_fields field_patterns m ∅ = inr data ->
  field ∈ field_patterns.*1 -> is_Some (data !! field).
Proof.
  intros Hd Hin. apply extract_fields_dom in Hd.
  apply elem_of_dom. rewrite Hd. set_solver.
Qed.

Lemma dict_of_dom kvs d : dict_of kvs = inr d -> dom d = list_to_set kvs.*1.
Proof.
  revert d. induction kvs as [|[k [e|v]] kvs IH]; intros d; simpl; [by intros [= <-]|done|].
  destruct (dict_of kvs) as [|d']; [done|].
  intros [= <-]. by rewrite dom_insert_L, (IH d').
Qed.

(** The row copies the eleven extracted values next to the counter. *)
Lemma folder_row_spec m data n :
  extract_fields field_patterns m ∅ = inr data ->
  exists row,
    folder_row n data = inr row
    ∧ row !! "TestRun#" = Some (PInt (Z.of_nat n))
    ∧ (forall field, field ∈ field_patterns.*1 -> row !! field = data !! field)
    ∧ dom row = list_to_set folder_fieldnames.
Proof.
  intros Hd.
  assert (Hall : Forall (fun f => is_Some (data !! f)) field_patterns.*1).
  { apply Forall_forall. intros f Hf. by eapply extracted_field. }
  simpl in Hall. repeat (apply Forall_cons in Hall as [[? ?] Hall]).
  unfold folder_row, getitem.
  repeat match goal with
         | H : data !! ?k = Some _ |- context [data !! ?k] => rewrite H
         end.
  eexists. split; [reflexivity|]. split; [by simplify_map_eq|]. split.
  - intros f Hf. simpl in Hf.
    repeat (apply elem_of_cons in Hf as [->|Hf]); try by simplify_map_eq.
    by apply elem_of_nil in Hf.
  - by rewrite !dom_insert_L, dom_empty_L.
Qed.

(** A blob is well formed when each of its float fields reads as a
    float literal, that is, when the field loop completes. *)
Definition well_formed (m : string) : bool :=
  match extract_fields field_patterns m ∅ with inr _ => true | inl _ => false end.

Definition attempt (n : nat) (m : string) : option (gmap string pyval) :=
  match extract_fields field_patterns m ∅ with
  | inr data => match folder_row n data with inr row => Some row | inl _ => None end
  | inl _ => None
  end.

Definition said (n : nat) (m : string) : list effect :=
  match extract_fields field_patterns m ∅ with
  | inl e => [Print "Warning: Failed to parse FOLDER_ANALYSIS_DATA: {}... - {}"
                [V (PStr (first_chars 50 m)); E e]]
  | inr _ => []
  end.

Lemma kv_folder_body_spec m rows n :
  folder_body m (rows, n)
  = match attempt n m with
    | Some row => (inr tt, (rows ++ [row], S n), said n m)
    | None => (inr tt, (rows, n), said n m)
    end.
Proof.
  unfold folder_body, try_except, folder_try, attempt, said.
  unfold mbind, py_bind, bind, lift, get, put.
  destruct (extract_fields field_patterns m ∅) as [e|data] eqn:Hd.
  - apply kv_extract_fields_exn in Hd as ->. reflexivity.
  - destruct (folder_row_spec m data n Hd) as (row & -> & _). reflexivity.
Qed.

Lemma kv_attempt_some n m : is_Some (attempt n m) <-> well_formed m = true.
Proof.
  unfold attempt, well_formed.
  destruct (extract_fields field_patterns m ∅) as [e|data] eqn:Hd.
  - split; [by intros [? ?]|done].
  - destruct (folder_row_spec m data n Hd) as (row & -> & _). split; eauto.
Qed.

Lemma kv_attempt_indep n n' m : is_Some (attempt n m) -> is_Some (attempt n' m).
Proof. rewrite !kv_attempt_some. done. Qed.


Lemma kv_loop_well_formed m : LoopFacts.well_formed attempt m = well_formed m.
Proof.
  unfold LoopFacts.well_formed. pose proof (kv_attempt_some 0 m) as Hs.
  destruct (well_formed m).
  - apply bool_decide_eq_true. by apply Hs.
  - apply bool_decide_eq_false. intros H. by apply Hs in H.
Qed.

(** The function's outcome: the records of the well-formed blobs and
    what their processing printed. *)
Lemma kv_parse_folder_analysis_data_eq content :
  parse_folder_analysis_data content
  = (inr (LoopFacts.kept attempt (matches content) 1),
     LoopFacts.spoken attempt said (matches content) 1).
Proof.
  unfold parse_folder_analysis_data, def.
  unfold mbind, py_bind, bind.
  rewrite (LoopFacts.for_each_body folder_body attempt said kv_folder_body_spec).
  simpl. by rewrite app_nil_r.
Qed.

Lemma kv_length_kept l n :
  length (LoopFacts.kept attempt l n) = length (List.filter well_formed l).
Proof.
  rewrite (LoopFacts.length_kept attempt kv_attempt_indep).
  f_equal. apply List.filter_ext. intros m. apply kv_loop_well_formed.
Qed.

(** One warning for each blob that is not well formed, nothing else. *)
Lemma spoken_warnings l n :
  Forall2 (fun m o =>
             o = Print "Warning: Failed to parse FOLDER_ANALYSIS_DATA: {}... - {}"
                   [V (PStr (first_chars 50 m)); E ValueError])
    (List.filter (fun m => negb (well_formed m)) l)
    (LoopFacts.spoken attempt said l n).
Proof.
  revert n. induction l as [|m l IH]; intros n; simpl; [constructor|].
  unfold said at 1, well_formed at 1.
  destruct (extract_fields field_patterns m ∅) as [e|data] eqn:Hd; simpl.
  - apply kv_extract_fields_exn in Hd as ->. constructor; [done|apply IH].
  - apply IH.
Qed.

Lemma kept_records l n :
  Forall2 (fun m row =>
             exists k data, extract_fields field_patterns m ∅ = inr data
                            ∧ folder_row k data = inr row)
    (List.filter well_formed l) (LoopFacts.kept attempt l n).
Proof.
  erewrite List.filter_ext; [|intros m; symmetry; apply kv_loop_well_formed].
  eapply Forall2_impl; [apply (LoopFacts.kept_Forall2 attempt kv_attempt_indep)|].
  intros m row [k Hk]. exists k. unfold attempt in Hk.
  destruct (extract_fields field_patterns m ∅) as [|data]; [done|].
  exists data. split; [done|]. by destruct (folder_row k data) as [|row']; simplify_eq.
Qed.
End FolderFacts.

(** ** The JSON extractor of improved_parser_json.py *)
Module JsonFacts.
Import ImprovedParserJson.

Lemma format_1f_exn v e : format_1f v = inl e -> e ∈ [ValueError; TypeError; OverflowError].
Proof.
  destruct v; simpl; try (intros [= <-]; set_solver).
  destruct (Z.abs z <? float_limit)%Z; [done|]. intros [= <-]. set_solver.
Qed.

Section WithJson.
Variable json_loads : string -> json_error + gmap string pyval.

(** A blob is well formed when [json.loads] accepts it. *)
Definition well_formed (m : string) : bool :=
  match json_loads m with inr _ => true | inl _ => false end.

Definition attempt (n : nat) (m : string) : option (gmap string pyval) :=
  match json_loads m with
  | inr data => Some (json_row n data)
  | inl _ => None
  end.

Definition said (n : nat) (m : string) : list effect :=
  match json_loads m with
  | inl NotJson =>
      [Print "Warning: Failed to parse JSON FOLDER_ANALYSIS_DATA: {}... - {}"
         [V (PStr (first_chars 100 m)); E JSONDecodeError]]
  | inl TooDeep => [Print "Warning: Error processing FOLDER_ANALYSIS_DATA: {}" [E RecursionError]]
  | inl IntTooLong => [Print "Warning: Error processing FOLDER_ANALYSIS_DATA: {}" [E ValueError]]
  | inr data =>
      match format_1f (dget data "totalSizeMB" (PInt 0)) with
      | inr _ =>
          [Print "  Entry {}: {} files, {} candidates, {:.1f}MB total"
             [N n; V (dget data "totalFiles" (PInt 0));
              V (dget data "duplicateCandidateCount" (PInt 0));
              V (dget data "totalSizeMB" (PInt 0))]]
      | inl e => [Print "Warning: Error processing FOLDER_ANALYSIS_DATA: {}" [E e]]
      end
  end.

Lemma json_body_spec m rows n :
  json_body json_loads m (rows, n)
  = match attempt n m with
    | Some row => (inr tt, (rows ++ [row], S n), said n m)
    | None => (inr tt, (rows, n), said n m)
    end.
Proof.
  unfold json_body, try_except, json_try, attempt, said, loads.
  unfold mbind, py_bind, bind, lift, get, put, print, emit.
  destruct (json_loads m) as [[| |]|data]; [reflexivity..|].
  destruct (format_1f (dget data "totalSizeMB" (PInt 0))) as [e|[]] eqn:Hf; [|reflexivity].
  apply format_1f_exn in Hf.
  repeat (apply elem_of_cons in Hf as [->|Hf]); try reflexivity.
  by apply elem_of_nil in Hf.
Qed.

Lemma json_attempt_some n m : is_Some (attempt n m) <-> well_formed m = true.
Proof.
  unfold attempt, well_formed. destruct (json_loads m); split; eauto; try done.
Qed.

Lemma json_attempt_indep n n' m : is_Some (attempt n m) -> is_Some (attempt n' m).
Proof. rewrite !json_attempt_some. done. Qed.


Lemma json_loop_well_formed m : LoopFacts.well_formed attempt m = well_formed m.
Proof.
  unfold LoopFacts.well_formed. pose proof (json_attempt_some 0 m) as Hs.
  destruct (well_formed m).
  - apply bool_decide_eq_true. by apply Hs.
  - apply bool_decide_eq_false. intros H. by apply Hs in H.
Qed.

Lemma parse_json_folder_analysis_data_eq content :
  parse_json_folder_analysis_data json_loads content
  = (inr (LoopFacts.kept attempt (matches content) 1),
     Print "Found {} JSON FOLDER_ANALYSIS_DATA entries" [N (length (matches content))]
       :: LoopFacts.spoken attempt said (matches content) 1).
Proof.
  unfold parse_json_folder_analysis_data, def.
  unfold mbind, py_bind, bind, print, emit.
  rewrite (LoopFacts.for_each_body (json_body json_loads) attempt said json_body_spec).
  simpl. by rewrite app_nil_r.
Qed.

Lemma json_length_kept l n :
  length (LoopFacts.kept attempt l n) = length (List.filter well_formed l).
Proof.
  rewrite (LoopFacts.length_kept attempt json_attempt_indep).
  f_equal. apply List.filter_ext. intros m. apply json_loop_well_formed.
Qed.

(** Every iteration prints one line; for a blob that is not well
    formed the line is a warning. *)
Lemma said_one n m :
  exists fmt args,
    said n m = [Print fmt args]
    ∧ (well_formed m = false -> String.prefix "Warning:" fmt = true).
Proof.
  unfold said, well_formed.
  destruct (json_loads m) as [[| |]|data]; [by eauto..|].
  destruct (format_1f (dget data "totalSizeMB" (PInt 0)));
    eexists _, _; (split; [reflexivity|done]).
Qed.

Lemma spoken_lines l n :
  Forall2 (fun m o =>
             exists fmt args, o = Print fmt args
               ∧ (well_formed m = false -> String.prefix "Warning:" fmt = true))
    l (LoopFacts.spoken attempt said l n).
Proof.
  revert n. induction l as [|m l IH]; intros n; simpl; [constructor|].
  destruct (said_one n m) as (fmt & args & -> & Hw). simpl.
  constructor; [by eauto|apply IH].
Qed.
End WithJson.
End JsonFacts.

(** ** Claims about the folder-metric extractors *)

Lemma Forall2_is_fmap {A B} (f : A -> B) (l : list A) (k : list B) :
  Forall2 (fun x y => y = f x) l k -> k = f <$> l.
Proof. induction 1 as [|x y l k -> _ IH]; simpl; [done|]. by rewrite IH. Qed.

(** The number of blobs among the first [i] that are not well formed. *)
Definition skipped (well_formed : string -> bool) (l : list string) (i : nat) : nat :=
  length (List.filter (fun m => negb (well_formed m)) (take i l)).

Lemma skipped_all well_formed l :
  skipped well_formed l (length l) = length (List.filter (fun m => negb (well_formed m)) l).
Proof. unfold skipped. by rewrite firstn_all. Qed.




(** ** The key:value extractor of the older parse_console_log.py *)
Module LegacyFolderFacts.
Import LegacyParseConsoleLog.

(** What the derivation makes of the five extracted values. *)
Definition derived (n : nat) (timestamp totalSizeMB : pyval) (size : pyfloat)
    (totalFiles mainFolderFiles subfolderFiles : Z) (main_folder_size_mb : pyval)
    : gmap string pyval :=
  let unique_files_total :=
    (totalFiles - Z.max 0 (totalFiles - mainFolderFiles - subfolderFiles))%Z in
  list_to_map
    [ ("TestRun#", PInt (Z.of_nat n));
      ("avgDirectoryDepth",
        PFloat (if (0 <? subfolderFiles)%Z then FStr "2.5" else FStr "1.0"));
      ("avgFilenameLength", PInt 25);
      ("identicalSizeFiles", PInt (Z.max 0 (totalFiles - unique_files_total)));
      ("largestFileSizesMB", PFloat (FRound (FMul size (FStr "0.1")) 2));
      ("mainFolderFiles", PInt mainFolderFiles);
      ("mainFolderSizeMB", main_folder_size_mb);
      ("maxDirectoryDepth", PInt (if (0 <? subfolderFiles)%Z then 5 else 1));
      ("subfolderFiles", PInt subfolderFiles);
      ("timestamp", timestamp);
      ("totalFiles", PInt totalFiles);
      ("totalSizeMB", totalSizeMB);
      ("uniqueFilesMainFolder", PInt mainFolderFiles);
      ("uniqueFilesTotal", PInt unique_files_total);
      ("zeroByteFiles", PInt 0) ].

(** [mainFolderSizeMB], when its division does not overflow. *)
Definition main_folder_size (size : pyfloat) (totalFiles mainFolderFiles : Z)
    : exn + pyval :=
  if (0 <? totalFiles)%Z then
    ratio ← true_div mainFolderFiles totalFiles;
    mret (PFloat (FRound (FMul size ratio) 2))
  else mret (PInt 0).

Lemma folder_row_eq n data timestamp totalSizeMB size totalFiles mainFolderFiles subfolderFiles :
  data !! "timestamp" = Some timestamp ->
  data !! "totalSizeMB" = Some totalSizeMB ->
  to_float totalSizeMB = inr size ->
  data !! "totalFiles" = Some (PInt totalFiles) ->
  data !! "mainFolderFiles" = Some (PInt mainFolderFiles) ->
  data !! "subfolderFiles" = Some (PInt subfolderFiles) ->
  folder_row n data
  = match main_folder_size size totalFiles mainFolderFiles with
    | inr v => inr (derived n timestamp totalSizeMB size totalFiles mainFolderFiles
                      subfolderFiles v)
    | inl e => inl e
    end.
Proof.
  intros Hts Hsz Hf Htot Hmain Hsub.
  unfold folder_row, main_folder_size, getint, getitem.
  rewrite Hts, Hsz, Htot, Hmain, Hsub. simpl. rewrite Hf. simpl.
  destruct (0 <? totalFiles)%Z; [|reflexivity].
  destruct (true_div mainFolderFiles totalFiles); reflexivity.
Qed.

(** The values the field loop leaves: ints, and for [totalSizeMB] the
    int [0] or a float. *)
Definition typed (field : string) (v : pyval) : Prop :=
  if String.eqb field "totalSizeMB" then v = PInt 0 ∨ exists x, v = PFloat x
  else exists z, v = PInt z.

Lemma field_value_typed field pat m v : field_value field pat m = inr v -> typed field v.
Proof.
  unfold field_value, typed, int_checked. destruct (search pat m).
  - destruct (String.eqb field "totalSizeMB").
    + destruct (float_ _); simpl; [done|]. intros [= <-]. eauto.
    + destruct (String.eqb field "timestamp"), (too_long _); simpl;
        try done; intros [= <-]; eauto.
  - intros [= <-]. destruct (String.eqb field "totalSizeMB"); eauto.
Qed.

Lemma legacy_field_value_exn field pat m e : field_value field pat m = inl e -> e = ValueError.
Proof.
  unfold field_value, float_, int_checked. destruct (search pat m); [|done].
  destruct (String.eqb field "totalSizeMB").
  - by match goal with |- context [if ?c then _ else _] => destruct c end; intros [= <-].
  - by destruct (String.eqb field "timestamp"), (too_long _); intros [= <-].
Qed.

Lemma legacy_extract_fields_exn fps m d e : extract_fields fps m d = inl e -> e = ValueError.
Proof.
  revert d. induction fps as [|[field pat] fps IH]; intros d; simpl; [done|].
  destruct (field_value field pat m) eqn:Hv; simpl; [|apply IH].
  intros [= <-]. by apply legacy_field_value_exn in Hv.
Qed.

Lemma extract_fields_typed fps m d data :
  extract_fields fps m d = inr data ->
  (forall f v, d !! f = Some v -> typed f v) ->
  (forall f v, data !! f = Some v -> typed f v)
  ∧ dom data = list_to_set fps.*1 ∪ dom d.
Proof.
  revert d. induction fps as [|[field pat] fps IH]; intros d; simpl.
  - intros [= <-] Hd. split; [done|set_solver].
  - destruct (field_value field pat m) as [|v] eqn:Hv; simpl; [done|].
    intros Hdata Hd. apply IH in Hdata as [Hty Hdom].
    + split; [done|]. rewrite Hdom, dom_insert_L. set_solver.
    + intros f w. rewrite lookup_insert. case_decide as Hf; [|apply Hd].
      intros [= <-]. subst f. by apply field_value_typed in Hv.
Qed.

(** The five values of an extracted blob. *)
Lemma extracted m data :
  extract_fields field_patterns m ∅ = inr data ->
  exists timestamp totalSizeMB size totalFiles mainFolderFiles subfolderFiles,
    data !! "timestamp" = Some timestamp
    ∧ data !! "totalSizeMB" = Some totalSizeMB
    ∧ to_float totalSizeMB = inr size
    ∧ data !! "totalFiles" = Some (PInt totalFiles)
    ∧ data !! "mainFolderFiles" = Some (PInt mainFolderFiles)
    ∧ data !! "subfolderFiles" = Some (PInt subfolderFiles).
Proof.
  intros Hd. apply extract_fields_typed in Hd as [Hty Hdom];
    [|intros f v; by rewrite lookup_empty].
  assert (Hall : Forall (fun f => is_Some (data !! f)) field_patterns.*1).
  { apply Forall_forall. intros f Hf. apply elem_of_dom. rewrite Hdom. set_solver. }
  simpl in Hall. repeat (apply Forall_cons in Hall as [[? ?] Hall]).
  repeat match goal with
         | H : data !! _ = Some _ |- _ =>
             let H' := fresh in
             pose proof (Hty _ _ H) as H'; unfold typed in H'; simpl in H';
             revert H
         end.
  intros. destruct_and?. destruct_or?; simplify_eq; repeat
    match goal with H : exists _, _ |- _ => destruct H; subst end;
    eexists _, _, _, _, _, _; repeat split; try eassumption; reflexivity.
Qed.

Lemma main_folder_size_exn size totalFiles mainFolderFiles e :
  main_folder_size size totalFiles mainFolderFiles = inl e -> e = OverflowError.
Proof.
  unfold main_folder_size, true_div. destruct (0 <? totalFiles)%Z; [|done].
  by match goal with |- context [if ?c then _ else _] => destruct c end; intros [= <-].
Qed.

(** A blob yields a record when its [totalSizeMB] reads as a float and
    the share of the main folder can be computed. *)
Definition attempt (n : nat) (m : string) : option (gmap string pyval) :=
  match extract_fields field_patterns m ∅ with
  | inr data => match folder_row n data with inr row => Some row | inl _ => None end
  | inl _ => None
  end.

Definition well_formed (m : string) : bool := bool_decide (is_Some (attempt 0 m)).

Definition failure (n : nat) (m : string) : option exn :=
  match extract_fields field_patterns m ∅ with
  | inr data => match folder_row n data with inr _ => None | inl e => Some e end
  | inl e => Some e
  end.

Definition said (n : nat) (m : string) : list effect :=
  match failure n m with
  | Some e => [Print "Warning: Failed to parse FOLDER_ANALYSIS_DATA: {}... - {}"
                 [V (PStr (first_chars 50 m)); E e]]
  | None => []
  end.

Lemma failure_exn n m e : failure n m = Some e -> is_Exception e = true.
Proof.
  unfold failure.
  destruct (extract_fields field_patterns m ∅) as [e'|data] eqn:Hd.
  - apply legacy_extract_fields_exn in Hd as ->. by intros [= <-].
  - destruct (extracted m data Hd) as (ts & sz & size & tot & mf & sf & ? & ? & ? & ? & ? & ?).
    erewrite folder_row_eq by eassumption.
    destruct (main_folder_size size tot mf) as [e'|] eqn:Hm; [|done].
    apply main_folder_size_exn in Hm as ->. by intros [= <-].
Qed.

Lemma legacy_folder_body_spec m rows n :
  folder_body m (rows, n)
  = match attempt n m with
    | Some row => (inr tt, (rows ++ [row], S n), said n m)
    | None => (inr tt, (rows, n), said n m)
    end.
Proof.
  pose proof (failure_exn n m) as Hexn.
  unfold folder_body, try_except, folder_try, attempt, said, failure in *.
  unfold mbind, py_bind, bind, lift, get, put.
  destruct (extract_fields field_patterns m ∅) as [e|data].
  - by rewrite (Hexn e eq_refl).
  - destruct (folder_row n data) as [e|row]; [|reflexivity].
    by rewrite (Hexn e eq_refl).
Qed.

Lemma legacy_attempt_indep n n' m : is_Some (attempt n m) -> is_Some (attempt n' m).
Proof.
  unfold attempt.
  destruct (extract_fields field_patterns m ∅) as [e'|data] eqn:Hd; [done|].
  destruct (extracted m data Hd) as (ts & sz & size & tot & mf & sf & ? & ? & ? & ? & ? & ?).
  erewrite !folder_row_eq by eassumption.
  destruct (main_folder_size size tot mf); [|by eauto]. by intros [? ?].
Qed.

Lemma legacy_attempt_index n m row :
  attempt n m = Some row -> row !! "TestRun#" = Some (PInt (Z.of_nat n)).
Proof.
  unfold attempt.
  destruct (extract_fields field_patterns m ∅) as [e'|data] eqn:Hd; [done|].
  destruct (extracted m data Hd) as (ts & sz & size & tot & mf & sf & ? & ? & ? & ? & ? & ?).
  erewrite folder_row_eq by eassumption.
  destruct (main_folder_size size tot mf); [done|]. intros [= <-].
  unfold derived. by simplify_map_eq.
Qed.

Lemma legacy_parse_folder_analysis_data_eq content :
  parse_folder_analysis_data content
  = (inr (LoopFacts.kept attempt (matches content) 1),
     LoopFacts.spoken attempt said (matches content) 1).
Proof.
  unfold parse_folder_analysis_data, def.
  unfold mbind, py_bind, bind.
  rewrite (LoopFacts.for_each_body folder_body attempt said legacy_folder_body_spec).
  simpl. by rewrite app_nil_r.
Qed.

(** What a record holds: five values of the blob and ten derived ones. *)
Lemma attempt_row n m row :
  attempt n m = Some row ->
  exists data subfolderFiles,
    extract_fields field_patterns m ∅ = inr data
    ∧ data !! "subfolderFiles" = Some (PInt subfolderFiles)
    ∧ Forall (fun f => row !! f = data !! f)
        ["timestamp"; "totalFiles"; "mainFolderFiles"; "subfolderFiles"; "totalSizeMB"]
    ∧ row !! "uniqueFilesMainFolder" = data !! "mainFolderFiles"
    ∧ row !! "avgFilenameLength" = Some (PInt 25)
    ∧ row !! "zeroByteFiles" = Some (PInt 0)
    ∧ row !! "maxDirectoryDepth" = Some (PInt (if (0 <? subfolderFiles)%Z then 5 else 1))
    ∧ row !! "avgDirectoryDepth"
      = Some (PFloat (if (0 <? subfolderFiles)%Z then FStr "2.5" else FStr "1.0")).
Proof.
  unfold attempt.
  destruct (extract_fields field_patterns m ∅) as [e'|data] eqn:Hd; [done|].
  destruct (extracted m data Hd)
    as (ts & sz & size & tot & mf & sf & Hts & Hsz & Hf & Htot & Hmf & Hsf).
  erewrite folder_row_eq by eassumption.
  destruct (main_folder_size size tot mf); [done|]. intros [= <-].
  exists data, sf. split; [done|]. split; [done|].
  rewrite Hmf. unfold derived.
  split; [|by simplify_map_eq].
  repeat constructor; by simplify_map_eq.
Qed.
End LegacyFolderFacts.

(** The sixteen fields of the JSON extractor's record, each with the
    default it takes when the blob has no such member. *)
Definition json_fields : list (string * pyval) :=
  [ ("timestamp", PInt 0); ("totalFiles", PInt 0);
    ("duplicateCandidateCount", PInt 0); ("duplicateCandidatePercent", PInt 0);
    ("uniqueFilesSizeMB", PFloat (FStr "0.0"));
    ("duplicateCandidatesSizeMB", PFloat (FStr "0.0"));
    ("totalSizeMB", PFloat (FStr "0.0")); ("totalDirectoryCount", PInt 0);
    ("avgDirectoryDepth", PFloat (FStr "0.0")); ("maxDirectoryDepth", PInt 0);
    ("uniqueFilesTotal", PInt 0); ("maxFileDepth", PInt 0);
    ("avgFileDepth", PFloat (FStr "0.0")); ("avgFilenameLength", PFloat (FStr "0.0"));
    ("zeroByteFiles", PInt 0); ("largestFileSizesMB", PFloat (FStr "0.0")) ].

Lemma json_row_field n data field dflt :
  (field, dflt) ∈ json_fields ->
  ImprovedParserJson.json_row n data !! field = Some (dget data field dflt).
Proof.
  intros Hin. unfold json_fields in Hin.
  repeat (apply elem_of_cons in Hin as [[= -> ->]|Hin]);
    try (unfold ImprovedParserJson.json_row; by simplify_map_eq).
  by apply elem_of_nil in Hin.
Qed.

(** A text with the older script's sentinel in front of a blob. *)
Definition legacy_entry (blob : string) : string :=
  microscope +:+ " FOLDER_ANALYSIS_DATA: {" +:+ blob +:+ "}".

Definition legacy_blob : string :=
  "timestamp: 1, totalFiles: 10, mainFolderFiles: 4, subfolderFiles: 6, totalSizeMB: 2.5, maxDirectoryDepth: 9".

(** One column of an extractor's result. *)
Definition column (name : string) (o : outcome (list (gmap string pyval)))
    : option (list (option pyval)) :=
  match result o with
  | inr rows => Some ((.!! name) <$> rows)
  | inl _ => None
  end.

(** C4, as the code has it.  The JSON extractor copies: for each of its
    sixteen fields the record holds the blob's member of that name when
    there is one, and the field's default otherwise.  The older key:value
    extractor copies five values of the blob (timestamp, totalFiles,
    mainFolderFiles, subfolderFiles, totalSizeMB) and derives the other
    fields: uniqueFilesMainFolder is mainFolderFiles, avgFilenameLength is
    25, zeroByteFiles is 0, and maxDirectoryDepth and avgDirectoryDepth
    are 5 and 2.5 when there are subfolder files, 1 and 1.0 when not. *)
Theorem C4_records_copied_or_derived
    (json_loads : string -> json_error + gmap string pyval) (content : string) :
  (exists rows,
     result (ImprovedParserJson.parse_json_folder_analysis_data json_loads content)
     = inr rows
     ∧ Forall2 (fun m row =>
                  exists data,
                    json_loads m = inr data
                    ∧ Forall (fun fd => row !! fd.1 = Some (dget data fd.1 fd.2)) json_fields)
         (List.filter (JsonFacts.well_formed json_loads) (ImprovedParserJson.matches content))
         rows)
  ∧
  (exists rows,
     result (LegacyParseConsoleLog.parse_folder_analysis_data content) = inr rows
     ∧ Forall2 (fun m row =>
                  exists data subfolderFiles,
                    LegacyParseConsoleLog.extract_fields
                      LegacyParseConsoleLog.field_patterns m ∅ = inr data
                    ∧ data !! "subfolderFiles" = Some (PInt subfolderFiles)
                    ∧ Forall (fun f => row !! f = data !! f)
                        ["timestamp"; "totalFiles"; "mainFolderFiles"; "subfolderFiles";
                         "totalSizeMB"]
                    ∧ row !! "uniqueFilesMainFolder" = data !! "mainFolderFiles"
                    ∧ row !! "avgFilenameLength" = Some (PInt 25)
                    ∧ row !! "zeroByteFiles" = Some (PInt 0)
                    ∧ row !! "maxDirectoryDepth"
                      = Some (PInt (if (0 <? subfolderFiles)%Z then 5 else 1))
                    ∧ row !! "avgDirectoryDepth"
                      = Some (PFloat (if (0 <? subfolderFiles)%Z
                                      then FStr "2.5" else FStr "1.0")))
         (List.filter LegacyFolderFacts.well_formed (LegacyParseConsoleLog.matches content))
         rows).
Proof.
  split.
  - eexists. rewrite JsonFacts.parse_json_folder_analysis_data_eq.
    split; [reflexivity|].
    erewrite List.filter_ext;
      [|intros m; symmetry; apply (JsonFacts.json_loop_well_formed json_loads)].
    eapply Forall2_impl;
      [apply (LoopFacts.kept_Forall2 _ (JsonFacts.json_attempt_indep json_loads))|].
    intros m row [k Hk]. unfold JsonFacts.attempt in Hk.
    destruct (json_loads m) as [|data]; [done|]. exists data. split; [done|].
    simplify_eq. apply Forall_forall. intros [f d] Hin. by apply json_row_field.
  - eexists. rewrite LegacyFolderFacts.legacy_parse_folder_analysis_data_eq.
    split; [reflexivity|].
    eapply Forall2_impl;
      [apply (LoopFacts.kept_Forall2 _ LegacyFolderFacts.legacy_attempt_indep)|].
    intros m row [k Hk]. by apply LegacyFolderFacts.attempt_row in Hk.
Qed.

(** C4 fails on the older key:value extractor: the blob says
    maxDirectoryDepth: 9, the record says 5, an estimate made from
    subfolderFiles; avgFilenameLength, 25, is in no blob at all. *)
Lemma C4_legacy_record_is_estimated :
  LegacyParseConsoleLog.matches (legacy_entry legacy_blob) = [legacy_blob]
  ∧ group1 <$> search (ParseConsoleLog.digits_of "maxDirectoryDepth") legacy_blob = Some "9"
  ∧ column "maxDirectoryDepth"
      (LegacyParseConsoleLog.parse_folder_analysis_data (legacy_entry legacy_blob))
    = Some [Some (PInt 5)]
  ∧ column "avgFilenameLength"
      (LegacyParseConsoleLog.parse_folder_analysis_data (legacy_entry legacy_blob))
    = Some [Some (PInt 25)].
Proof. vm_compute. repeat split; reflexivity. Qed.

(** ** The tabular writer *)
Module CsvFacts.

(** A record fits the columns when it has no key outside them. *)
Definition fits (fieldnames : list string) (r : gmap string pyval) : Prop :=
  dom r ⊆ list_to_set fieldnames.

(** The cells of a record: its value under each column, the empty
    string where it has none. *)
Definition cells (fieldnames : list string) (r : gmap string pyval) : list pyval :=
  (fun k => default (PStr "") (r !! k)) <$> fieldnames.

Lemma dict_to_list_fits fieldnames r :
  fits fieldnames r -> Csv.dict_to_list fieldnames r = inr (cells fieldnames r).
Proof. intros Hfit. unfold Csv.dict_to_list. by rewrite decide_True. Qed.

Lemma dict_to_list_extra fieldnames r :
  ¬ fits fieldnames r -> Csv.dict_to_list fieldnames r = inl ValueError.
Proof. intros Hfit. unfold Csv.dict_to_list. by rewrite decide_False. Qed.

Lemma for_each_cons {S A} (body : A -> py S unit) x l (s : S) :
  for_each body (x :: l) s
  = match body x s with
    | (inl e, s', o) => (inl e, s', o)
    | (inr _, s', o) => let '(r, s'', o') := for_each body l s' in (r, s'', o ++ o')
    end.
Proof. reflexivity. Qed.

Definition write_one {S} (path : string) (fieldnames : list string)
    (r : gmap string pyval) : py S unit :=
  cells ← lift (Csv.dict_to_list fieldnames r); emit (WriteRow path cells).

Lemma write_one_fits {S} path fieldnames r (s : S) :
  fits fieldnames r ->
  write_one path fieldnames r s = (inr tt, s, [WriteRow path (cells fieldnames r)]).
Proof.
  intros Hfit. unfold write_one, mbind, py_bind, bind, lift, emit.
  by rewrite (dict_to_list_fits _ _ Hfit).
Qed.

Lemma write_one_extra {S} path fieldnames r (s : S) :
  ¬ fits fieldnames r -> write_one path fieldnames r s = (inl ValueError, s, []).
Proof.
  intros Hfit. unfold write_one, mbind, py_bind, bind, lift, emit.
  by rewrite (dict_to_list_extra _ _ Hfit).
Qed.

Lemma writerows_fits {S} path fieldnames rows (s : S) :
  Forall (fits fieldnames) rows ->
  Csv.writerows path fieldnames rows s
  = (inr tt, s, (fun r => WriteRow path (cells fieldnames r)) <$> rows).
Proof.
  unfold Csv.writerows. fold (@write_one S path fieldnames).
  induction 1 as [|r rows Hr _ IH]; [done|].
  by rewrite for_each_cons, (write_one_fits _ _ _ _ Hr), IH.
Qed.

(** The first record that does not fit stops the writing. *)
Lemma writerows_extra {S} path fieldnames good bad rest (s : S) :
  Forall (fits fieldnames) good -> ¬ fits fieldnames bad ->
  Csv.writerows path fieldnames (good ++ bad :: rest) s
  = (inl ValueError, s, (fun r => WriteRow path (cells fieldnames r)) <$> good).
Proof.
  unfold Csv.writerows. fold (@write_one S path fieldnames).
  intros Hgood Hbad. induction Hgood as [|r rows Hr _ IH]; simpl app.
  - by rewrite for_each_cons, (write_one_extra _ _ _ _ Hbad).
  - by rewrite for_each_cons, (write_one_fits _ _ _ _ Hr), IH.
Qed.

Lemma write_csv_fits data path fieldnames :
  Forall (fits fieldnames) data ->
  ParseConsoleLog.write_csv data path fieldnames
  = (inr tt,
     Open path :: WriteRow path (PStr <$> fieldnames)
       :: ((fun r => WriteRow path (cells fieldnames r)) <$> data)).
Proof.
  intros Hfit. unfold ParseConsoleLog.write_csv, def.
  unfold Csv.writeheader, mbind, py_bind, bind, emit.
  by rewrite (writerows_fits _ _ _ tt Hfit).
Qed.

Lemma write_csv_extra good bad rest path fieldnames :
  Forall (fits fieldnames) good -> ¬ fits fieldnames bad ->
  ParseConsoleLog.write_csv (good ++ bad :: rest) path fieldnames
  = (inl ValueError,
     Open path :: WriteRow path (PStr <$> fieldnames)
       :: ((fun r => WriteRow path (cells fieldnames r)) <$> good)).
Proof.
  intros Hgood Hbad. unfold ParseConsoleLog.write_csv, def.
  unfold Csv.writeheader, mbind, py_bind, bind, emit.
  by rewrite (writerows_extra _ _ _ _ rest tt Hgood Hbad).
Qed.

(** *** The columns of save_results *)

Lemma append_missing_eq (init keys : list string) :
  NoDup keys ->
  foldl (fun fieldnames key =>
           if bool_decide (key ∉ fieldnames) then fieldnames ++ [key] else fieldnames)
        init keys
  = init ++ List.filter (fun key => bool_decide (key ∉ init)) keys.
Proof.
  intros Hnd. revert init. induction Hnd as [|k keys Hk Hnd IH]; intros init; simpl.
  - by rewrite app_nil_r.
  - rewrite IH. case_bool_decide as Hin.
    + rewrite <- app_assoc. simpl. f_equal. f_equal.
      apply List.filter_ext_in. intros k' Hk'.
      apply bool_decide_ext. rewrite not_elem_of_app, list_elem_of_singleton.
      split; [by intros [? ?]|]. intros ?. split; [done|].
      intros ->. by apply list_elem_of_In in Hk'.
    + done.
Qed.

Lemma all_keys_foldl data acc :
  foldl (fun keys (item : gmap string pyval) => keys ∪ dom item) acc data
  = acc ∪ ⋃ (dom <$> data).
Proof.
  revert acc. induction data as [|r data IH]; intros acc; simpl.
  - set_solver.
  - rewrite IH. set_solver.
Qed.

Lemma elem_of_all_keys data k :
  k ∈ Trial5Parser.all_keys data <-> exists r, r ∈ data ∧ k ∈ dom r.
Proof.
  unfold Trial5Parser.all_keys. rewrite all_keys_foldl.
  rewrite elem_of_union, elem_of_union_list. split.
  - intros [?|(X & HX & Hk)]; [set_solver|].
    apply list_elem_of_fmap in HX as (r & -> & Hr). eauto.
  - intros (r & Hr & Hk). right. exists (dom r). split; [|done].
    apply list_elem_of_fmap. eauto.
Qed.

Lemma NoDup_sorted_strings keys : NoDup (Trial5Parser.sorted_strings keys).
Proof.
  unfold Trial5Parser.sorted_strings.
  rewrite merge_sort_Permutation. apply NoDup_elements.
Qed.

(** The columns are the fixed ones followed by the other keys of the
    records, sorted. *)
Lemma fieldnames_of_eq data :
  Trial5Parser.fieldnames_of data
  = Trial5Parser.fieldnames0
      ++ List.filter (fun key => bool_decide (key ∉ Trial5Parser.fieldnames0))
           (Trial5Parser.sorted_strings (Trial5Parser.all_keys data)).
Proof. apply append_missing_eq, NoDup_sorted_strings. Qed.

Lemma fieldnames_of_fits data : Forall (fits (Trial5Parser.fieldnames_of data)) data.
Proof.
  apply Forall_forall. intros r Hr k Hk.
  rewrite elem_of_list_to_set, fieldnames_of_eq, elem_of_app.
  destruct (decide (k ∈ Trial5Parser.fieldnames0)) as [|Hnew]; [by left|right].
  apply list_elem_of_In, List.filter_In. split.
  - apply list_elem_of_In. unfold Trial5Parser.sorted_strings.
    rewrite merge_sort_Permutation, elem_of_elements, elem_of_all_keys. eauto.
  - by apply bool_decide_eq_true.
Qed.
End CsvFacts.

(** ** Claims about the tabular writer *)

(** C9, as the code has it.  write_csv opens the file and writes the
    header: the columns as given, in their order.  When no record has a
    key outside the columns, one row per record follows, each holding
    the record's value under every column and the empty string where the
    record has no such key, and nothing is raised.  A record with a key
    outside the columns makes the writer raise ValueError, after the
    header and the rows of the records before it.  save_results never
    meets that case: its columns are the fixed ones followed by every
    other key of the records, so each record fits and gets its row. *)
Theorem C9_header_rows_and_extra_keys
    (data : list (gmap string pyval)) (path : string) (fieldnames : list string) :
  (exists rows,
     output (ParseConsoleLog.write_csv data path fieldnames)
     = Open path :: WriteRow path (PStr <$> fieldnames) :: rows)
  ∧ (Forall (CsvFacts.fits fieldnames) data ->
     ParseConsoleLog.write_csv data path fieldnames
     = (inr tt,
        Open path :: WriteRow path (PStr <$> fieldnames)
          :: ((fun r => WriteRow path
                          ((fun k => default (PStr "") (r !! k)) <$> fieldnames))
                <$> data)))
  ∧ (forall good bad rest,
       data = good ++ bad :: rest ->
       Forall (CsvFacts.fits fieldnames) good -> ¬ CsvFacts.fits fieldnames bad ->
       ParseConsoleLog.write_csv data path fieldnames
       = (inl ValueError,
          Open path :: WriteRow path (PStr <$> fieldnames)
            :: ((fun r => WriteRow path
                            ((fun k => default (PStr "") (r !! k)) <$> fieldnames))
                  <$> good)))
  ∧ (data ≠ [] ->
     let columns := Trial5Parser.fieldnames_of data in
     Forall (CsvFacts.fits columns) data
     ∧ columns
       = Trial5Parser.fieldnames0
           ++ List.filter (fun key => bool_decide (key ∉ Trial5Parser.fieldnames0))
                (Trial5Parser.sorted_strings (Trial5Parser.all_keys data))
     ∧ exists rest,
         output (Trial5Parser.save_results data path)
         = Open path :: WriteRow path (PStr <$> columns)
             :: ((fun r => WriteRow path
                             ((fun k => default (PStr "") (r !! k)) <$> columns))
                   <$> data) ++ rest).
Proof.
  split; [|split; [|split]].
  - unfold ParseConsoleLog.write_csv, def, output.
    unfold Csv.writeheader, mbind, py_bind, bind, emit.
    destruct (Csv.writerows path fieldnames data ()) as [[r s] o]. simpl. eauto.
  - apply CsvFacts.write_csv_fits.
  - intros good bad rest -> Hgood Hbad. by apply CsvFacts.write_csv_extra.
  - intros Hne columns. split; [apply CsvFacts.fieldnames_of_fits|].
    split; [apply CsvFacts.fieldnames_of_eq|].
    unfold Trial5Parser.save_results, def, output.
    rewrite bool_decide_eq_false_2 by done.
    fold columns.
    unfold Csv.writeheader, print, mbind, py_bind, bind, emit.
    rewrite (CsvFacts.writerows_fits _ _ _ tt (CsvFacts.fieldnames_of_fits data)).
    fold columns.
    match goal with
    | |- context [for_each ?f data ?s] => destruct (for_each f data s) as [[[e|[]] ?] o]
    end; simpl; eauto.
Qed.

(** C9 fails on write_csv: a record with a key that is no column is not
    written with that key left out; the writer raises ValueError and
    only the header reaches the file. *)
Lemma C9_extra_key_raises :
  ParseConsoleLog.write_csv [ {[ "a" := PInt 1; "b" := PInt 2 ]} ] "out.csv" ["a"]
  = (inl ValueError, [Open "out.csv"; WriteRow "out.csv" [PStr "a"]]).
Proof. vm_compute. reflexivity. Qed.

(** ** The calls of [int] in the timing parsers *)
Module IntFacts.

Lemma existsb_fmap {A B} (f : B -> bool) (g : A -> B) (l : list A) :
  existsb f (g <$> l) = existsb (fun x => f (g x)) l.
Proof. induction l as [|x l IH]; [done|]. rewrite fmap_cons. cbn [existsb]. by rewrite IH. Qed.

(** The newer parse_console_log.py, and improved_parser_json.py with
    it: the call raises when one of the timings is too long, and
    returns the rows of [parse_timing_data] otherwise. *)
Lemma entry_checked_eq s x :
  ParseConsoleLog.entry_checked s x
  = if too_long (ParseConsoleLog.timing_text x) then inl ValueError
    else inr (ParseConsoleLog.entry s x).
Proof.
  unfold ParseConsoleLog.entry_checked, int_checked, ParseConsoleLog.entry,
    ParseConsoleLog.timing_text.
  by destruct (too_long _).
Qed.

Lemma mapM_entry_checked s l :
  mapM (ParseConsoleLog.entry_checked s) l
  = if existsb (fun x => too_long (ParseConsoleLog.timing_text x)) l then inl ValueError
    else inr (ParseConsoleLog.entry s <$> l).
Proof.
  induction l as [|x l IH]; [done|]. cbn [mapM existsb]. rewrite entry_checked_eq, IH.
  destruct (too_long _); [done|]. simpl. by destruct (existsb _ l).
Qed.

Lemma all_matches_checked_eq content :
  ParseConsoleLog.all_matches_checked content
  = if existsb too_long (ParseConsoleLog.timing_texts content) then inl ValueError
    else inr (ParseConsoleLog.all_matches content).
Proof.
  unfold ParseConsoleLog.all_matches_checked, ParseConsoleLog.timing_texts,
    ParseConsoleLog.all_matches.
  rewrite !mapM_entry_checked, existsb_fmap, existsb_app.
  destruct (existsb _ (finditer ParseConsoleLog.main_pattern content)); [done|].
  simpl. by destruct (existsb _ (finditer ParseConsoleLog.worker_pattern content)).
Qed.

Lemma parse_timing_data_checked_eq content :
  ParseConsoleLog.parse_timing_data_checked content
  = if existsb too_long (ParseConsoleLog.timing_texts content) then inl ValueError
    else inr (ParseConsoleLog.parse_timing_data content).
Proof.
  unfold ParseConsoleLog.parse_timing_data_checked. rewrite all_matches_checked_eq.
  by destruct (existsb _ _).
Qed.

Lemma json_parse_timing_data_checked_eq content :
  ImprovedParserJson.parse_timing_data_checked content
  = if existsb too_long (ParseConsoleLog.timing_texts content) then inl ValueError
    else inr (ImprovedParserJson.parse_timing_data content).
Proof.
  unfold ImprovedParserJson.parse_timing_data_checked. rewrite all_matches_checked_eq.
  by destruct (existsb _ _).
Qed.

(** The older parse_console_log.py converts every match. *)
Lemma legacy_group_loop_eq st ms :
  LegacyParseConsoleLog.group_loop st ms
  = if existsb (fun m => too_long (snd m)) ms then inl ValueError
    else inr (foldl LegacyParseConsoleLog.group_step st ms).
Proof.
  revert st. induction ms as [|m ms IH]; intros st; [done|].
  cbn [LegacyParseConsoleLog.group_loop existsb foldl].
  unfold LegacyParseConsoleLog.group_step_checked, int_checked.
  destruct (too_long (snd m)); [done|]. simpl. apply IH.
Qed.

Lemma legacy_parse_timing_data_checked_eq content :
  LegacyParseConsoleLog.parse_timing_data_checked content
  = if existsb (fun m => too_long (snd m)) (LegacyParseConsoleLog.timing_matches content)
    then inl ValueError
    else inr (LegacyParseConsoleLog.parse_timing_data content).
Proof.
  unfold LegacyParseConsoleLog.parse_timing_data_checked. rewrite legacy_group_loop_eq.
  by destruct (existsb _ _).
Qed.

(** trial5_parser.py converts the matches from the first
    PROCESSING_START on. *)
Fixpoint from_first_start (ms : list (string * string)) : list (string * string) :=
  match ms with
  | [] => []
  | m :: ms' => if LegacyTimingFacts.is_start m then m :: ms' else from_first_start ms'
  end.

Lemma trial5_group_step_checked_eq st m :
  Trial5Parser.group_step_checked st m
  = if (0 <? Trial5Parser.current_run (Trial5Parser.group_step st m))%nat
       && too_long (snd m)
    then inl ValueError
    else inr (Trial5Parser.group_step st m).
Proof.
  unfold Trial5Parser.group_step_checked, Trial5Parser.group_step, int_checked.
  destruct (0 <? (if String.eqb (fst m) "PROCESSING_START"
                  then S (Trial5Parser.current_run st)
                  else Trial5Parser.current_run st))%nat eqn:Hrun;
    cbn [Trial5Parser.current_run]; rewrite Hrun; [|reflexivity].
  by destruct (too_long (snd m)).
Qed.

Lemma trial5_current_run_step st m :
  (0 <? Trial5Parser.current_run (Trial5Parser.group_step st m))%nat
  = (0 <? Trial5Parser.current_run st)%nat || LegacyTimingFacts.is_start m.
Proof.
  unfold Trial5Parser.group_step, LegacyTimingFacts.is_start.
  destruct (String.eqb (fst m) "PROCESSING_START").
  - cbn [Nat.ltb Nat.leb Trial5Parser.current_run]. by rewrite orb_true_r.
  - rewrite orb_false_r.
    by destruct (0 <? Trial5Parser.current_run st)%nat eqn:Hcur;
      cbn [Trial5Parser.current_run]; rewrite Hcur.
Qed.

Lemma trial5_group_loop_eq st ms :
  Trial5Parser.group_loop st ms
  = if existsb (fun m => too_long (snd m))
         (if (0 <? Trial5Parser.current_run st)%nat then ms else from_first_start ms)
    then inl ValueError
    else inr (foldl Trial5Parser.group_step st ms).
Proof.
  revert st. induction ms as [|m ms IH]; intros st.
  { by destruct (0 <? Trial5Parser.current_run st)%nat. }
  cbn [Trial5Parser.group_loop foldl from_first_start].
  rewrite trial5_group_step_checked_eq, trial5_current_run_step.
  destruct (0 <? Trial5Parser.current_run st)%nat eqn:Hcur; cbn [orb andb existsb].
  - destruct (too_long (snd m)); [reflexivity|].
    cbn [mbind res_bind orb]. rewrite IH, trial5_current_run_step, Hcur. reflexivity.
  - destruct (LegacyTimingFacts.is_start m) eqn:Hstart; cbn [orb andb existsb].
    + destruct (too_long (snd m)); [reflexivity|].
      cbn [mbind res_bind orb]. rewrite IH, trial5_current_run_step, Hcur, Hstart.
      reflexivity.
    + cbn [mbind res_bind]. rewrite IH, trial5_current_run_step, Hcur, Hstart.
      reflexivity.
Qed.

Lemma trial5_group_events_checked_eq ms :
  Trial5Parser.group_loop Trial5Parser.groups0 ms
  = if existsb (fun m => too_long (snd m)) (from_first_start ms) then inl ValueError
    else inr (Trial5Parser.group_events ms).
Proof. apply (trial5_group_loop_eq Trial5Parser.groups0). Qed.
End IntFacts.

(** ** Claims about the command line *)
Module MainFacts.
Import ParseConsoleLog.

Lemma folder_rows_fit l n :
  Forall (CsvFacts.fits folder_fieldnames) (LoopFacts.kept FolderFacts.attempt l n).
Proof.
  apply LoopFacts.kept_all. intros k m row. unfold FolderFacts.attempt.
  destruct (extract_fields field_patterns m ∅) as [|data] eqn:Hd; [done|].
  destruct (FolderFacts.folder_row_spec m data k Hd) as (row' & -> & _ & _ & Hdom).
  intros [= <-]. unfold CsvFacts.fits. by rewrite Hdom.
Qed.

Lemma timing_rows_fit (rows : list row) :
  Forall (CsvFacts.fits timing_fieldnames) (row_dict <$> rows).
Proof.
  apply Forall_fmap, Forall_forall. intros r _.
  unfold CsvFacts.fits, row_dict, compose. by rewrite dom_list_to_map_L.
Qed.

(** What the run of [main] ends with. *)
Lemma main_result w argv :
  result (main w argv)
  = if bool_decide (length argv ≠ 2%nat) then inl (SystemExit 1)
    else if negb (Os.path_exists w (default "" (argv !! 1%nat))) then inl (SystemExit 1)
    else if existsb too_long
              (timing_texts (default "" (Os.file_text w (default "" (argv !! 1%nat)))))
         then inl ValueError
    else inr tt.
Proof.
  unfold main, def, result.
  destruct (bool_decide (length argv ≠ 2%nat)); [reflexivity|].
  destruct (Os.path_exists w (default "" (argv !! 1%nat))); [|reflexivity].
  cbn [negb].
  rewrite IntFacts.parse_timing_data_checked_eq.
  unfold print, call, lift, mbind, mret, py_bind, py_ret, bind, ret, emit.
  rewrite FolderFacts.kv_parse_folder_analysis_data_eq. cbn [fst snd].
  destruct (existsb too_long _); [reflexivity|].
  set (folder_data := LoopFacts.kept _ _ _).
  set (timing_data := row_dict <$> _).
  pose proof (CsvFacts.write_csv_fits folder_data
    (Os.path_sibling w (default "" (argv !! 1%nat))
       (extract_filename_prefix w (default "" (argv !! 1%nat)) +:+ "_FolderAnalysisData.csv"))
    folder_fieldnames (folder_rows_fit _ _)) as Hf.
  pose proof (CsvFacts.write_csv_fits timing_data
    (Os.path_sibling w (default "" (argv !! 1%nat))
       (extract_filename_prefix w (default "" (argv !! 1%nat)) +:+ "_TestSpeedData.csv"))
    timing_fieldnames (timing_rows_fit _)) as Ht.
  destruct (bool_decide (folder_data ≠ [])), (bool_decide (timing_data ≠ []));
    rewrite ?Hf, ?Ht; reflexivity.
Qed.

Lemma trial5_main_missing json_loads w :
  Os.path_exists w Trial5Parser.input_file = false ->
  Trial5Parser.main json_loads w
  = (inr tt, [Print "Error: {} not found" [V (PStr Trial5Parser.input_file)]]).
Proof. intros Hw. unfold Trial5Parser.main. by rewrite Hw. Qed.

(** With a log that has nothing to save, [save_results] returns [None]
    and the closing line of [main] fails on [output_file.name]. *)
Lemma trial5_main_nothing_to_save json_loads w :
  Os.file_text w Trial5Parser.input_file = Some "" ->
  result (Trial5Parser.main json_loads w) = inl AttributeError.
Proof.
  intros Hw. unfold Trial5Parser.main, Os.path_exists. rewrite Hw. reflexivity.
Qed.
End MainFacts.

(** A world without files. *)
Definition no_files : Os.world :=
  {| Os.file_text := fun _ => None;
     Os.path_stem := fun p => p;
     Os.path_sibling := fun _ name => name |}.

(** C8, as the code has it.  parse_console_log.py exits with status 1
    when it is not given exactly one argument, when the named file does
    not exist, and when a timing matched in the log has more digits
    than [int] converts (the ValueError of parse_timing_data is caught
    nowhere); it exits with status 0 otherwise.  trial5_parser.py takes
    no argument; when its input file does not exist it prints an error
    and returns, so the status is 0. *)
Theorem C8_exit_status
    (json_loads : string -> json_error + gmap string pyval)
    (w : Os.world) (argv : list string) :
  (let input_path := default "" (argv !! 1%nat) in
   let content := default "" (Os.file_text w input_path) in
   exit_code (ParseConsoleLog.main w argv)
   = (if bool_decide (length argv = 2%nat
                      ∧ Os.path_exists w input_path = true
                      ∧ existsb too_long (ParseConsoleLog.timing_texts content) = false)
      then 0 else 1)%Z)
  ∧ (Os.path_exists w Trial5Parser.input_file = false ->
     exit_code (Trial5Parser.main json_loads w) = 0%Z
     ∧ output (Trial5Parser.main json_loads w)
       = [Print "Error: {} not found" [V (PStr Trial5Parser.input_file)]]).
Proof.
  split.
  - intros input_path content. unfold exit_code. rewrite MainFacts.main_result.
    fold input_path. fold content.
    case_bool_decide as Hargc.
    + rewrite bool_decide_eq_false_2; [done|]. by intros [? _].
    + destruct (Os.path_exists w input_path); simpl.
      * destruct (existsb too_long (ParseConsoleLog.timing_texts content)).
        -- rewrite bool_decide_eq_false_2; [done|]. by intros (_ & _ & ?).
        -- rewrite bool_decide_eq_true_2; [done|]. split; [|done].
           by destruct (decide (length argv = 2%nat)).
      * rewrite bool_decide_eq_false_2; [done|]. by intros (_ & ? & _).
  - intros Hw. by rewrite MainFacts.trial5_main_missing.
Qed.

(** C8 fails on trial5_parser.py: its input file does not exist, and the
    status is 0. *)
Lemma C8_trial5_missing_input_exits_zero :
  Os.path_exists no_files Trial5Parser.input_file = false
  ∧ Trial5Parser.main (fun _ => inl NotJson) no_files
    = (inr tt, [Print "Error: {} not found" [V (PStr "5_Raw_ConsoleData.md")]])
  ∧ exit_code (Trial5Parser.main (fun _ => inl NotJson) no_files) = 0%Z.
Proof. vm_compute. repeat split; reflexivity. Qed.

(** ** The run groups of the newer parse_timing_data *)
Module GroupFacts.
Import ParseConsoleLog TimingFacts.

Definition by_pos (a b : tmatch) : Prop := (pos a <= pos b)%nat.

Lemma insert_by_pos_perm x l : insert_by_pos x l ≡ₚ x :: l.
Proof.
  induction l as [|y l IH]; simpl; [done|].
  destruct (pos x <=? pos y)%nat; [done|]. rewrite IH. apply Permutation_swap.
Qed.

Lemma sort_by_pos_perm l : sort_by_pos l ≡ₚ l.
Proof.
  induction l as [|x l IH]; simpl; [done|].
  by rewrite insert_by_pos_perm, IH.
Qed.

Lemma insert_by_pos_sorted x l :
  StronglySorted by_pos l -> StronglySorted by_pos (insert_by_pos x l).
Proof.
  induction 1 as [|y l Hl IH Hy]; simpl; [repeat constructor|].
  destruct (Nat.leb_spec (pos x) (pos y)) as [Hle|Hlt].
  - constructor; [by constructor|].
    constructor; [done|]. eapply Forall_impl; [exact Hy|].
    intros z Hz. unfold by_pos in *. lia.
  - constructor; [done|].
    rewrite insert_by_pos_perm. constructor; [|done]. unfold by_pos. lia.
Qed.

(** The loop runs over the matches in the order of their offsets. *)
Lemma all_matches_sorted content : StronglySorted by_pos (all_matches content).
Proof.
  unfold all_matches, sort_by_pos.
  induction (_ ++ _) as [|x l IH]; simpl; [constructor|].
  by apply insert_by_pos_sorted.
Qed.

Lemma group_events_no_start pre : count_starts pre = 0%nat -> group_events pre = groups0.
Proof.
  induction pre as [|m pre IH] using rev_ind; [done|].
  rewrite count_starts_snoc, group_events_snoc. intros Hc.
  rewrite IH by lia. unfold group_step. by destruct (is_start m); [lia|].
Qed.

Lemma stored_step st m run name :
  is_Some (stored st run name) -> is_Some (stored (group_step st m) run name).
Proof.
  unfold stored, group_step.
  destruct (is_start m).
  - cbn [test_run_data current_test_run Nat.ltb Nat.leb].
    rewrite lookup_insert. case_decide as Hrun; [|done]. subst run. simpl.
    destruct (test_run_data st !! S (current_test_run st)); simpl; [|by intros [? ?]].
    rewrite lookup_insert. case_decide; eauto.
  - destruct (0 <? current_test_run st)%nat; cbn [test_run_data]; [|done].
    rewrite lookup_insert. case_decide as Hrun; [|done]. subst run. simpl.
    destruct (test_run_data st !! current_test_run st); simpl; [|by intros [? ?]].
    rewrite lookup_insert. case_decide; eauto.
Qed.

Lemma stored_foldl ms st run name :
  is_Some (stored st run name) -> is_Some (stored (foldl group_step st ms) run name).
Proof.
  revert st. induction ms as [|m ms IH]; intros st Hst; [done|].
  simpl. by apply IH, stored_step.
Qed.

(** N markers give N rows, numbered 1..N; what precedes the first
    marker leaves no trace; every other match is entered under the run
    of the last marker at or before it. *)
Lemma run_groups content :
  let ms := all_matches content in
  Test_Run <$> parse_timing_data content = seq 1 (count_starts ms)
  ∧ (forall pre rest,
       ms = pre ++ rest -> count_starts pre = 0%nat ->
       group_events ms = group_events rest)
  ∧ (forall i m,
       ms !! i = Some m ->
       (0 < count_starts (take (S i) ms))%nat ->
       is_Some (stored (group_events ms) (count_starts (take (S i) ms)) (event_type m))).
Proof.
  intros ms. split; [|split].
  - unfold parse_timing_data, rows_of. fold ms.
    rewrite <- list_fmap_compose. rewrite <- (list_fmap_id (seq _ _)).
    rewrite <- RunFacts.run_numbers. by apply list_fmap_ext.
  - intros pre rest -> Hpre. unfold group_events at 1. rewrite foldl_app.
    fold (group_events pre). by rewrite group_events_no_start.
  - intros i m Hi Hpos.
    rewrite <- (take_drop (S i) ms) at 1.
    unfold group_events. rewrite foldl_app. apply stored_foldl.
    fold (group_events (take (S i) ms)).
    rewrite (take_S_r _ _ _ Hi) in *.
    rewrite <- current_test_run_count in *.
    rewrite group_events_snoc in *.
    rewrite group_step_stores; [by eauto|done].
Qed.
End GroupFacts.

(** ** Runs and byte offsets *)
Module OffsetFacts.
Import ParseConsoleLog TimingFacts GroupFacts.

(** The text from offset [n] on. *)
Fixpoint drop_chars (n : nat) (s : string) : string :=
  match n, s with
  | S n', String _ s' => drop_chars n' s'
  | _, _ => s
  end.

Lemma scan_from r s p skip x : x ∈ scan r s p skip -> (p + skip <= x.1)%nat.
Proof.
  revert p skip. induction s as [|c s IH]; intros p skip; simpl.
  - destruct skip; [|by intros ?%elem_of_nil].
    destruct (match_at r ""); [|by intros ?%elem_of_nil].
    intros ->%list_elem_of_singleton. simpl. lia.
  - destruct skip as [|n].
    + destruct (match_at r (String c s)) as [m|].
      * intros [->|Hx%IH]%elem_of_cons; simpl; lia.
      * intros Hx%IH. lia.
    + intros Hx%IH. lia.
Qed.

Lemma scan_increasing r s p skip :
  StronglySorted (fun a b => (a.1 < b.1)%nat) (scan r s p skip).
Proof.
  revert p skip. induction s as [|c s IH]; intros p skip; simpl.
  - destruct skip; [|constructor]. destruct (match_at r ""); repeat constructor.
  - destruct skip as [|n]; [|apply IH].
    destruct (match_at r (String c s)) as [m|]; [|apply IH].
    constructor; [apply IH|]. apply Forall_forall. intros x Hx%scan_from. simpl. lia.
Qed.

(** What [finditer] reports at an offset matches the text from there. *)
Lemma scan_matches r s p skip q m :
  (q, m) ∈ scan r s p skip -> match_at r (drop_chars (q - p) s) = Some m.
Proof.
  revert p skip. induction s as [|c s IH]; intros p skip; simpl.
  - destruct skip; [|by intros ?%elem_of_nil].
    destruct (match_at r "") as [m'|] eqn:Hm; [|by intros ?%elem_of_nil].
    intros [= -> ->]%list_elem_of_singleton. by destruct (p - p)%nat.
  - assert (Hrest : forall n, (q, m) ∈ scan r s (S p) n ->
                      match_at r (drop_chars (q - p) (String c s)) = Some m).
    { intros n Hx. pose proof (scan_from _ _ _ _ _ Hx) as Hq. simpl in Hq.
      apply IH in Hx. replace (q - p)%nat with (S (q - S p)) by lia. done. }
    destruct skip as [|n]; [|apply Hrest].
    destruct (match_at r (String c s)) as [m'|] eqn:Hm; [|apply Hrest].
    intros [[= -> ->]|Hx]%elem_of_cons; [|by eapply Hrest].
    by rewrite Nat.sub_diag.
Qed.

(** A match of the main pattern starts with [p], one of the worker
    pattern with [f]. *)
Lemma main_pattern_starts s m :
  match_at main_pattern s = Some m -> exists s', s = String "p" s'.
Proof.
  unfold match_at, main_pattern. cbn [exec lit].
  destruct s as [|c s]; [done|].
  destruct (Ascii.eqb "p" c) eqn:Hc; [|done].
  apply Ascii.eqb_eq in Hc as <-. eauto.
Qed.

Lemma worker_pattern_starts s m :
  match_at worker_pattern s = Some m -> exists s', s = String "f" s'.
Proof.
  unfold match_at, worker_pattern. cbn [exec lit].
  destruct s as [|c s]; [done|].
  destruct (Ascii.eqb "f" c) eqn:Hc; [|done].
  apply Ascii.eqb_eq in Hc as <-. eauto.
Qed.

Lemma increasing_NoDup {A} (l : list (nat * A)) :
  StronglySorted (fun a b => (a.1 < b.1)%nat) l -> NoDup l.*1.
Proof.
  induction 1 as [|x l _ IH Hx]; simpl; constructor; [|done].
  intros (y & Hy & Hin)%list_elem_of_fmap.
  rewrite Forall_forall in Hx. apply Hx in Hin. lia.
Qed.

(** No two entries of [all_matches] share an offset. *)
Lemma all_matches_offsets content : NoDup (pos <$> all_matches content).
Proof.
  unfold all_matches. rewrite sort_by_pos_perm, fmap_app, <- !list_fmap_compose.
  apply NoDup_app. split; [|split].
  - apply (increasing_NoDup (finditer main_pattern content)), scan_increasing.
  - intros q ([q1 m1] & -> & H1)%list_elem_of_fmap ([q2 m2] & Hq & H2)%list_elem_of_fmap.
    simpl in Hq. subst q2.
    apply scan_matches, main_pattern_starts in H1 as [s1 H1].
    apply scan_matches, worker_pattern_starts in H2 as [s2 H2].
    rewrite H1 in H2. discriminate.
  - apply (increasing_NoDup (finditer worker_pattern content)), scan_increasing.
Qed.

Lemma filter_all {A} (f : A -> bool) l : Forall (fun x => f x = true) l -> List.filter f l = l.
Proof. induction 1 as [|x l Hx _ IH]; simpl; [done|]. by rewrite Hx, IH. Qed.

Lemma filter_none {A} (f : A -> bool) l : Forall (fun x => f x = false) l -> List.filter f l = [].
Proof. induction 1 as [|x l Hx _ IH]; simpl; [done|]. by rewrite Hx, IH. Qed.

Lemma filter_filter {A} (f g : A -> bool) l :
  List.filter f (List.filter g l) = List.filter (fun x => f x && g x) l.
Proof.
  induction l as [|x l IH]; simpl; [done|].
  destruct (g x); simpl.
  - destruct (f x); simpl; by rewrite IH.
  - by rewrite andb_false_r.
Qed.

(** In a list ordered by distinct offsets, the entries up to an
    entry's offset are the entries up to its place. *)
Lemma up_to_offset ms i m :
  StronglySorted by_pos ms -> NoDup (pos <$> ms) -> ms !! i = Some m ->
  List.filter (fun m' => pos m' <=? pos m)%nat ms = take (S i) ms.
Proof.
  intros Hsorted Hnd Hi.
  rewrite <- (take_drop_middle ms i m Hi) in Hsorted, Hnd.
  rewrite <- (take_drop_middle ms i m Hi) at 1.
  rewrite (take_S_r _ _ _ Hi), List.filter_app. simpl.
  rewrite Nat.leb_refl.
  apply StronglySorted_app in Hsorted as (Hbefore & _ & Hafter).
  apply StronglySorted_cons in Hafter as [Hafter _].
  rewrite fmap_app in Hnd. apply NoDup_app in Hnd as (_ & _ & Hnd).
  rewrite fmap_cons in Hnd. apply NoDup_cons in Hnd as [Hnd _].
  rewrite filter_all, filter_none; [done| |].
  - apply Forall_forall. intros m' Hm'. apply Nat.leb_gt.
    rewrite Forall_forall in Hafter. pose proof (Hafter m' Hm') as Hle.
    unfold by_pos in Hle.
    assert (pos m' ≠ pos m); [|lia].
    intros Heq. apply Hnd. rewrite <- Heq. apply list_elem_of_fmap. eauto.
  - apply Forall_forall. intros m' Hm'. apply Nat.leb_le.
    apply (Hbefore m' m); [done|left].
Qed.

(** The number of boundary markers at or before an offset. *)
Definition starts_up_to (ms : list tmatch) (offset : nat) : nat :=
  length (List.filter (fun m => is_start m && (pos m <=? offset)%nat) ms).

(** Every timing event at an offset with k >= 1 markers at or before it,
    that is, from the k-th marker up to the next one, is entered under
    run k. *)
Lemma run_by_offset content m :
  let ms := all_matches content in
  m ∈ ms ->
  (0 < starts_up_to ms (pos m))%nat ->
  is_Some (stored (group_events ms) (starts_up_to ms (pos m)) (event_type m)).
Proof.
  intros ms [i Hi]%list_elem_of_lookup.
  assert (Hk : starts_up_to ms (pos m) = count_starts (take (S i) ms)).
  { unfold starts_up_to, count_starts.
    rewrite <- (up_to_offset ms i m (all_matches_sorted content)
                  (all_matches_offsets content) Hi).
    by rewrite filter_filter. }
  rewrite Hk. by apply (proj2 (proj2 (run_groups content))).
Qed.
End OffsetFacts.

(** ** The run numbers of the older parse_timing_data *)
Module LegacyRunFacts.
Import LegacyParseConsoleLog LegacyTimingFacts.

(** From the first match on, the runs are [lo..current], where [lo] is
    the number the first match was filed under. *)
Definition numbered_from (lo : nat) (g : groups) : Prop :=
  (lo <= current_test_run g)%nat
  ∧ dom (test_run_data g) = set_seq lo (S (current_test_run g) - lo).

Lemma numbered_from_step lo g m : numbered_from lo g -> numbered_from lo (group_step g m).
Proof.
  intros [Hlo Hdom]. unfold numbered_from.
  rewrite legacy_current_test_run_step. unfold group_step, is_start.
  cbn [test_run_data current_test_run].
  rewrite dom_insert_L, Hdom.
  destruct (String.eqb (fst m) "PROCESSING_START"); split; try lia.
  - replace (S (current_test_run g + 1) - lo)%nat
      with (S (S (current_test_run g) - lo)) by lia.
    rewrite set_seq_S_end_union_L. f_equal. f_equal. lia.
  - rewrite Nat.add_0_r. apply subseteq_union_1_L, singleton_subseteq_l.
    rewrite elem_of_set_seq. lia.
Qed.

Lemma numbered_from_foldl lo ms g :
  numbered_from lo g -> numbered_from lo (foldl group_step g ms).
Proof.
  revert g. induction ms as [|m ms IH]; intros g Hg; [done|].
  simpl. by apply IH, numbered_from_step.
Qed.

(** With N markers, a log whose first match is a marker gets the run
    numbers 2..N+1; a log that starts with another event gets 1..N+1. *)
Lemma legacy_run_numbers m ms :
  ParseConsoleLog.sorted_keys (test_run_data (group_events (m :: ms)))
  = if is_start m then seq 2 (count_starts (m :: ms))
    else seq 1 (S (count_starts (m :: ms))).
Proof.
  pose proof (legacy_current_test_run_count (m :: ms)) as Hcur.
  assert (Hfirst : numbered_from (if is_start m then 2 else 1) (group_step groups0 m)).
  { unfold numbered_from, group_step, is_start. cbn [test_run_data current_test_run groups0].
    rewrite dom_insert_L, dom_empty_L.
    destruct (String.eqb (fst m) "PROCESSING_START"); (split; [lia|]); simpl; set_solver. }
  apply (numbered_from_foldl _ ms) in Hfirst as [Hlo Hdom].
  change (foldl group_step (group_step groups0 m) ms) with (group_events (m :: ms)) in *.
  rewrite Hcur in Hdom.
  destruct (is_start m); apply RunFacts.sorted_keys_seq; rewrite Hdom; f_equal; lia.
Qed.
End LegacyRunFacts.

(** ** Claims about the run boundaries *)

Definition log_early_event : string :=
  lines ["processingTimer.js:1 DEDUPLICATION_START: 5";
         "processingTimer.js:2 PROCESSING_START: 10";
         "processingTimer.js:3 UI_UPDATE_START: 20"].

(** C2 on the failing input.  The log has one boundary marker, with one
    event before it and one after it.  The older script returns two
    groups, numbered 1 and 2: the event before the marker is kept, as
    group 1, and the event after the first marker is in group 2.  The
    newer script returns the one group the claim asks for, without the
    early event. *)
Theorem C2_legacy_groups_start_at_two :
  LegacyTimingFacts.count_starts (LegacyParseConsoleLog.timing_matches log_early_event)
  = 1%nat
  ∧ (let rows := LegacyParseConsoleLog.parse_timing_data log_early_event in
     (.!! "Test Run #") <$> rows = [Some (PInt 1); Some (PInt 2)]
     ∧ (.!! "DEDUPLICATION_START") <$> rows = [Some (PInt 5); Some (PStr "")]
     ∧ (.!! "UI_UPDATE_START") <$> rows = [Some (PStr ""); Some (PInt 20)])
  ∧ (let rows := ParseConsoleLog.parse_timing_data log_early_event in
     ParseConsoleLog.Test_Run <$> rows = [1%nat]
     ∧ ParseConsoleLog.DEDUPLICATION_START <$> rows = [None]
     ∧ ParseConsoleLog.UI_UPDATE_START <$> rows = [Some 20%Z]).
Proof. vm_compute. repeat split; reflexivity. Qed.

(** ** Claims about the types of the extracted fields *)
Module TypeFacts.

Definition is_int (v : pyval) : Prop := exists z, v = PInt z.
Definition is_float (v : pyval) : Prop := exists x, v = PFloat x.

(** improved_parser.py: the type of a field follows from its name,
    whether the blob has the field or not. *)
Lemma improved_parser_field field pat m v is_default :
  ImprovedParser.field_value field pat m = inr (v, is_default) ->
  (field ∈ ImprovedParser.float_fields ->
   is_float v ∧ (is_default = true -> v = PFloat (FStr "0.0")))
  ∧ (field ∉ ImprovedParser.float_fields ->
     is_int v ∧ (is_default = true -> v = PInt 0)).
Proof.
  unfold ImprovedParser.field_value, is_int, is_float.
  destruct (search pat m) as [match_result|].
  - case_bool_decide as Hf.
    + destruct (float_ (group1 match_result)); simpl; [done|].
      intros [= <- <-]. split; [|done]. intros _. split; [by eauto|done].
    + destruct (int_checked (group1 match_result)); simpl; [done|].
      intros [= <- <-]. split; [done|]. intros _. split; [by eauto|done].
  - intros [= <- <-]. split; intros Hf.
    + rewrite bool_decide_eq_false_2 by (by intros ?). split; [by eauto|done].
    + rewrite bool_decide_eq_true_2 by done. split; [by eauto|done].
Qed.

(** parse_console_log.py: a field found in the blob is typed by its
    name; a field not found is the int 0, whatever its name. *)
Lemma parse_console_log_field field pat m v :
  ParseConsoleLog.field_value field pat m = inr v ->
  match search pat m with
  | Some _ => if bool_decide (field ∈ ParseConsoleLog.float_fields)
              then is_float v else is_int v
  | None => v = PInt 0
  end.
Proof.
  unfold ParseConsoleLog.field_value, is_int, is_float.
  destruct (search pat m) as [match_obj|]; [|by intros [= <-]].
  case_bool_decide.
  - destruct (float_ (group1 match_obj)); [done|]. intros [= <-]. eauto.
  - destruct (String.eqb field "timestamp"), (int_checked (group1 match_obj));
      try done; intros [= <-]; eauto.
Qed.
End TypeFacts.

(** Texts with the sentinel of the "modal predictors" format in front of
    a blob, as each of the two scripts spells it. *)
Definition modal_entry (blob : string) : string :=
  microscope +:+ " FOLDER_ANALYSIS_DATA (Modal Predictors): {" +:+ blob +:+ "}".

Definition modal_entry_1252 (blob : string) : string :=
  microscope_1252 +:+ " FOLDER_ANALYSIS_DATA (Modal Predictors): {" +:+ blob +:+ "}" +:+ lf.

(** A text with the sentinel of the JSON format in front of a blob. *)
Definition dq : string := String (ascii_of_nat 34) EmptyString.
Definition json_total_files (n : string) : string :=
  "{" +:+ dq +:+ "totalFiles" +:+ dq +:+ ": " +:+ n +:+ "}".
Definition json_entry (blob : string) : string :=
  microscope +:+ " FOLDER_ANALYSIS_DATA: " +:+ blob.

(** C6 on the failing input: a blob without totalSizeMB.  In
    parse_console_log.py the float field totalSizeMB of the record is the
    int 0; improved_parser.py gives it the float 0.0.  A float field that
    is present is a float in both. *)
Theorem C6_absent_float_field_is_int_zero :
  column "totalSizeMB"
    (ParseConsoleLog.parse_folder_analysis_data (modal_entry "totalFiles: 3"))
  = Some [Some (PInt 0)]
  ∧ column "totalSizeMB"
      (ImprovedParser.extract_complete_folder_data (modal_entry_1252 "totalFiles: 3"))
    = Some [Some (PFloat (FStr "0.0"))]
  ∧ column "totalSizeMB"
      (ParseConsoleLog.parse_folder_analysis_data (modal_entry "totalSizeMB: 5"))
    = Some [Some (PFloat (FStr "5"))]
  ∧ column "totalFiles"
      (ParseConsoleLog.parse_folder_analysis_data (modal_entry "totalFiles: 3"))
    = Some [Some (PInt 3)].
Proof. vm_compute. repeat split; reflexivity. Qed.

(** The blob [{"totalSizeMB": "big"}], and [json.loads] on it and on
    what is not JSON. *)
Definition blob_big : string :=
  "{" +:+ dq +:+ "totalSizeMB" +:+ dq +:+ ": " +:+ dq +:+ "big" +:+ dq +:+ "}".
Definition json_loads_big (s : string) : json_error + gmap string pyval :=
  if String.eqb s blob_big then inr {[ "totalSizeMB" := PStr "big" ]} else inl NotJson.

(** C3 on the failing input: a log with one marker, whose blob is JSON
    with a text under totalSizeMB.  The JSON extractor has appended the
    record when the entry line fails to format: it prints the warning
    of its second handler and returns the record all the same, one
    warning and one record for one marker.  A blob that json.loads
    rejects is skipped with a warning, and so is, by the key:value
    extractor of parse_console_log.py, a blob whose totalSizeMB is no
    float; after it the next blob is processed. *)
Theorem C3_warned_json_blob_keeps_its_record :
  ImprovedParserJson.matches (json_entry blob_big) = [blob_big]
  ∧ (let run :=
       ImprovedParserJson.parse_json_folder_analysis_data json_loads_big
         (json_entry blob_big) in
     output run
     = [Print "Found {} JSON FOLDER_ANALYSIS_DATA entries" [N 1];
        Print "Warning: Error processing FOLDER_ANALYSIS_DATA: {}" [E ValueError]]
     ∧ column "TestRun#" run = Some [Some (PInt 1)]
     ∧ column "totalSizeMB" run = Some [Some (PStr "big")])
  ∧ ImprovedParserJson.parse_json_folder_analysis_data json_loads_big (json_entry "{oops}")
    = (inr [],
       [Print "Found {} JSON FOLDER_ANALYSIS_DATA entries" [N 1];
        Print "Warning: Failed to parse JSON FOLDER_ANALYSIS_DATA: {}... - {}"
          [V (PStr "{oops}"); E JSONDecodeError]])
  ∧ (let run :=
       ParseConsoleLog.parse_folder_analysis_data
         (String.concat lf [modal_entry "totalSizeMB: 1.2.3"; modal_entry "totalFiles: 7"]) in
     output run
     = [Print "Warning: Failed to parse FOLDER_ANALYSIS_DATA: {}... - {}"
          [V (PStr "totalSizeMB: 1.2.3"); E ValueError]]
     ∧ column "TestRun#" run = Some [Some (PInt 1)]
     ∧ column "totalFiles" run = Some [Some (PInt 7)]).
Proof. vm_compute. repeat split; reflexivity. Qed.

(** * The claims at concrete inputs *)

(** The rows the two scripts make of [log_backwards]. *)
Definition row_backwards : ParseConsoleLog.row :=
  {| ParseConsoleLog.Test_Run := 1;
     ParseConsoleLog.isWorkerMode := false;
     ParseConsoleLog.totalDurationMs := None;
     ParseConsoleLog.phase1FileAnalysisMs := Some (-5)%Z;
     ParseConsoleLog.phase2HashProcessingMs := None;
     ParseConsoleLog.phase3UIRenderingMs := None;
     ParseConsoleLog.PROCESSING_START := 10;
     ParseConsoleLog.DEDUPLICATION_START := Some 5%Z;
     ParseConsoleLog.UI_UPDATE_START := None;
     ParseConsoleLog.ALL_FILES_DISPLAYED := None |}.

Definition trow_backwards : Trial5Parser.trow :=
  {| Trial5Parser.TestRun := 1;
     Trial5Parser.totalDurationMs := None;
     Trial5Parser.phase1FileAnalysisMs := None;
     Trial5Parser.phase2HashProcessingMs := None;
     Trial5Parser.phase3UIRenderingMs := Some 0%Z;
     Trial5Parser.PROCESSING_START := 10;
     Trial5Parser.DEDUPLICATION_START := 5;
     Trial5Parser.UI_UPDATE_START := 0;
     Trial5Parser.ALL_FILES_DISPLAYED := 0 |}.

(** C1 on [log_backwards], whose one run holds PROCESSING_START 10 and
    DEDUPLICATION_START 5. *)
Lemma C1_phase_durations_witness :
  (exists d,
     ParseConsoleLog.test_run_data
       (ParseConsoleLog.group_events (ParseConsoleLog.all_matches log_backwards))
       !! 1%nat = Some d
     ∧ is_Some (d !! "PROCESSING_START")
     ∧ forall p, duration_of row_backwards p = spec_duration d p)
  ∧
  (exists d,
     Trial5Parser.timing_data
       (Trial5Parser.group_events (Trial5Parser.timing_matches log_backwards))
       !! 1%nat = Some d
     ∧ forall p,
         trial5_duration_of trow_backwards p
         = if (zero_filled d (endpoints p).2 <=? zero_filled d (endpoints p).1)%Z
           then Some (zero_filled d (endpoints p).1 - zero_filled d (endpoints p).2)%Z
           else None).
Proof.
  split.
  - apply (proj1 (C1_phase_durations_per_script log_backwards) row_backwards).
    vm_compute. left.
  - apply (proj2 (C1_phase_durations_per_script log_backwards) trow_backwards).
    vm_compute. left.
Defined.

(** C7 on [log_backwards]: phase 1 ends before it starts. *)
Lemma C7_end_before_start_witness :
  (duration_of row_backwards Phase1 = Some (5 - 10)%Z ∧ (5 - 10 < 0)%Z)
  ∧ trial5_duration_of trow_backwards Phase1 = None.
Proof.
  pose proof (C7_end_before_start log_backwards Phase1 5 10) as [Hnew Hold].
  split.
  - apply (Hnew row_backwards {[ "PROCESSING_START" := 10%Z; "DEDUPLICATION_START" := 5%Z ]}).
    + vm_compute. left.
    + vm_compute. reflexivity.
    + vm_compute. reflexivity.
    + vm_compute. reflexivity.
    + lia.
  - apply (Hold trow_backwards {[ "PROCESSING_START" := 10%Z; "DEDUPLICATION_START" := 5%Z ]}).
    + vm_compute. left.
    + vm_compute. reflexivity.
    + vm_compute. reflexivity.
    + vm_compute. reflexivity.
    + lia.
Defined.

(** Matches of the grouping loop, for the examples. *)
Definition at_ (p : nat) (name : string) (t : Z) : ParseConsoleLog.tmatch :=
  {| ParseConsoleLog.pos := p; ParseConsoleLog.event_type := name;
     ParseConsoleLog.timing := t; ParseConsoleLog.src := ParseConsoleLog.from_main |}.

(** C5 on a run that meets [A] twice, followed by a run with its own
    [A]: the first run keeps 7. *)
Lemma C5_last_write_wins_witness :
  TimingFacts.stored
    (ParseConsoleLog.group_events
       [at_ 0 "PROCESSING_START" 10; at_ 50 "A" 0; at_ 80 "A" 7;
        at_ 110 "PROCESSING_START" 20; at_ 160 "A" 50])
    1 "A" = Some 7%Z
  ∧ LegacyTimingFacts.stored
      (LegacyParseConsoleLog.group_events
         [("PROCESSING_START", "10"); ("A", "0"); ("A", "7");
          ("PROCESSING_START", "20"); ("A", "50")])
      2 "A" = Some 7%Z.
Proof.
  pose proof (C5_last_write_wins_within_run
                [at_ 0 "PROCESSING_START" 10; at_ 50 "A" 0]
                [at_ 110 "PROCESSING_START" 20; at_ 160 "A" 50]
                (at_ 80 "A" 7)
                [("PROCESSING_START", "10"); ("A", "0")]
                [("PROCESSING_START", "20"); ("A", "50")]
                ("A", "7")) as [Hnew Hold].
  split.
  - apply Hnew.
    + vm_compute. lia.
    + intros m Hm. vm_compute in Hm. by apply elem_of_nil in Hm.
  - apply Hold.
    intros m Hm. vm_compute in Hm. by apply elem_of_nil in Hm.
Defined.

(** The scenario of the specification: two markers, each followed by its
    own value of [A]; each run keeps its own. *)
Example two_runs_two_values :
  let g := ParseConsoleLog.group_events
             (ParseConsoleLog.all_matches
                (lines ["processingTimer.js:1 PROCESSING_START: 1";
                        "processingTimer.js:2 A: 0";
                        "processingTimer.js:1 PROCESSING_START: 2";
                        "processingTimer.js:2 A: 50"])) in
  TimingFacts.stored g 1 "A" = Some 0%Z ∧ TimingFacts.stored g 2 "A" = Some 50%Z.
Proof. vm_compute. split; reflexivity. Qed.

(** A world with one log file. *)
Definition one_log : Os.world :=
  {| Os.file_text := fun p => if String.eqb p "run_1.md" then Some log_backwards else None;
     Os.path_stem := fun p => if String.eqb p "run_1.md" then "run_1" else p;
     Os.path_sibling := fun _ name => name |}.

(** A log whose one timing has 4301 digits, and a world with that file. *)
Definition log_long_timing : string :=
  "processingTimer.js:1 PROCESSING_START: " +:+ String.concat "" (replicate 4301 "9").
Definition long_log : Os.world :=
  {| Os.file_text := fun p => if String.eqb p "run_3.md" then Some log_long_timing else None;
     Os.path_stem := fun p => p;
     Os.path_sibling := fun _ name => name |}.

(** C8 on the command lines of a world with the one file run_1.md, and
    on a log with a timing that [int] does not convert. *)
Lemma C8_exit_status_witness :
  exit_code (ParseConsoleLog.main one_log ["parse_console_log.py"; "run_1.md"]) = 0%Z
  ∧ exit_code (ParseConsoleLog.main one_log ["parse_console_log.py"; "run_2.md"]) = 1%Z
  ∧ exit_code (ParseConsoleLog.main one_log ["parse_console_log.py"]) = 1%Z
  ∧ exit_code (ParseConsoleLog.main long_log ["parse_console_log.py"; "run_3.md"]) = 1%Z
  ∧ exit_code (Trial5Parser.main (fun _ => inl NotJson) one_log) = 0%Z.
Proof.
  split; [|split; [|split; [|split]]].
  - rewrite (proj1 (C8_exit_status (fun _ => inl NotJson) one_log
                      ["parse_console_log.py"; "run_1.md"])).
    vm_compute. reflexivity.
  - rewrite (proj1 (C8_exit_status (fun _ => inl NotJson) one_log
                      ["parse_console_log.py"; "run_2.md"])).
    vm_compute. reflexivity.
  - rewrite (proj1 (C8_exit_status (fun _ => inl NotJson) one_log
                      ["parse_console_log.py"])).
    vm_compute. reflexivity.
  - rewrite (proj1 (C8_exit_status (fun _ => inl NotJson) long_log
                      ["parse_console_log.py"; "run_3.md"])).
    vm_compute. reflexivity.
  - apply (proj2 (C8_exit_status (fun _ => inl NotJson) one_log [])).
    vm_compute. reflexivity.
Defined.

(** Records for the writer: the second has no ["b"], the third has a key
    that is no column. *)
Definition rec_ab : gmap string pyval := {[ "a" := PInt 1; "b" := PInt 2 ]}.
Definition rec_a : gmap string pyval := {[ "a" := PInt 3 ]}.
Definition rec_az : gmap string pyval := {[ "a" := PInt 4; "z" := PInt 5 ]}.

Lemma fits_by_computation fieldnames r :
  bool_decide (dom r ⊆ (list_to_set fieldnames : gset string)) = true ->
  CsvFacts.fits fieldnames r.
Proof. apply bool_decide_eq_true_1. Defined.

Lemma not_fits_by_computation fieldnames r :
  bool_decide (dom r ⊆ (list_to_set fieldnames : gset string)) = false ->
  ¬ CsvFacts.fits fieldnames r.
Proof. apply bool_decide_eq_false_1. Defined.

(** C9 on records that fit the columns, on a record with an extra
    key, and on the columns save_results would choose. *)
Lemma C9_header_rows_witness :
  ParseConsoleLog.write_csv [rec_ab; rec_a] "out.csv" ["a"; "b"]
  = (inr tt,
     [Open "out.csv"; WriteRow "out.csv" [PStr "a"; PStr "b"];
      WriteRow "out.csv" [PInt 1; PInt 2]; WriteRow "out.csv" [PInt 3; PStr ""]])
  ∧ ParseConsoleLog.write_csv [rec_ab; rec_az; rec_a] "out.csv" ["a"; "b"]
    = (inl ValueError,
       [Open "out.csv"; WriteRow "out.csv" [PStr "a"; PStr "b"];
        WriteRow "out.csv" [PInt 1; PInt 2]])
  ∧ Forall (CsvFacts.fits (Trial5Parser.fieldnames_of [rec_ab; rec_az])) [rec_ab; rec_az].
Proof.
  split; [|split].
  - apply (proj1 (proj2 (C9_header_rows_and_extra_keys [rec_ab; rec_a] "out.csv" ["a"; "b"]))).
    repeat constructor; by apply fits_by_computation.
  - apply (proj1 (proj2 (proj2
             (C9_header_rows_and_extra_keys [rec_ab; rec_az; rec_a] "out.csv" ["a"; "b"])))
             [rec_ab] rec_az [rec_a]).
    + reflexivity.
    + repeat constructor. by apply fits_by_computation.
    + by apply not_fits_by_computation.
  - apply (proj2 (proj2 (proj2
             (C9_header_rows_and_extra_keys [rec_ab; rec_az] "out.csv" ["a"; "b"])))).
    discriminate.
Defined.


Definition json_loads_three (s : string) : json_error + gmap string pyval :=
  if String.eqb s (json_total_files "3") then inr {[ "totalFiles" := PInt 3 ]}
  else if String.eqb s (json_total_files "7") then inr {[ "totalFiles" := PInt 7 ]}
  else inl NotJson.


(** * Further properties of the scripts *)

(** ** parse_timing_data of the newer parse_console_log.py *)
Module MarkerFacts.
Import ParseConsoleLog TimingFacts.

(** The time values of the boundary markers, in the order of the loop. *)
Definition marker_times (ms : list tmatch) : list Z := timing <$> List.filter is_start ms.

Lemma marker_times_snoc ms m :
  marker_times (ms ++ [m]) = marker_times ms ++ (if is_start m then [timing m] else []).
Proof.
  unfold marker_times. rewrite List.filter_app, fmap_app. simpl.
  by destruct (is_start m).
Qed.

Lemma length_marker_times ms : length (marker_times ms) = count_starts ms.
Proof. unfold marker_times, count_starts. by rewrite length_fmap. Qed.

(** Run k holds, under the marker's own name, the time of the k-th
    marker: no later event of the run can replace it, since an event of
    that name opens the next run. *)
Lemma marker_stored ms k :
  (k < count_starts ms)%nat ->
  stored (group_events ms) (S k) "PROCESSING_START" = marker_times ms !! k.
Proof.
  induction ms as [|m ms IH] using rev_ind; [unfold count_starts; simpl; lia|].
  rewrite count_starts_snoc, marker_times_snoc, group_events_snoc. intros Hk.
  pose proof (current_test_run_count ms) as Hcur.
  pose proof (length_marker_times ms) as Hlen.
  destruct (is_start m) eqn:Hm.
  - destruct (decide (k = count_starts ms)) as [->|Hne].
    + rewrite lookup_app_r by lia. rewrite Hlen, Nat.sub_diag. simpl.
      assert (Hnew : current_test_run (group_step (group_events ms) m)
                     = S (count_starts ms)).
      { rewrite current_test_run_step, Hm, Hcur. lia. }
      pose proof (group_step_stores (group_events ms) m) as Hst.
      rewrite Hnew in Hst. unfold is_start in Hm. apply String.eqb_eq in Hm.
      rewrite Hm in Hst. apply Hst. lia.
    + rewrite lookup_app_l by lia. rewrite <- IH by lia.
      unfold stored. rewrite group_step_other; [done|].
      rewrite current_test_run_step, Hm, Hcur. lia.
  - rewrite app_nil_r. rewrite <- IH by lia.
    unfold stored, group_step. rewrite Hm.
    destruct (0 <? current_test_run (group_events ms))%nat; [|done].
    cbn [test_run_data]. rewrite lookup_insert. case_decide as Hrun; [|done].
    rewrite <- Hrun. simpl.
    unfold is_start in Hm. apply String.eqb_neq in Hm.
    destruct (test_run_data (group_events ms) !! current_test_run (group_events ms));
      simpl; by rewrite lookup_insert_ne.
Qed.
(** The rows of a call that returns: one per marker. *)
Lemma rows_of_markers content :
  Test_Run <$> parse_timing_data content = seq 1 (count_starts (all_matches content))
  ∧ PROCESSING_START <$> parse_timing_data content = marker_times (all_matches content).
Proof.
  set (ms := all_matches content). split; [apply GroupFacts.run_groups|].
  unfold parse_timing_data, rows_of. fold ms.
  rewrite RunFacts.run_numbers, <- list_fmap_compose.
  apply list_eq. intros k. rewrite list_lookup_fmap.
  destruct (decide (k < count_starts ms)%nat) as [Hk|Hk].
  - rewrite lookup_seq_lt by done. simpl.
    pose proof (marker_stored ms k Hk) as Hst.
    unfold stored in Hst.
    destruct (test_run_data (group_events ms) !! S k) as [d|]; simpl in *.
    + rewrite <- Hst. destruct (d !! "PROCESSING_START") eqn:Hd; [done|].
      symmetry in Hst. apply lookup_ge_None in Hst.
      rewrite length_marker_times in Hst. lia.
    + symmetry in Hst. apply lookup_ge_None in Hst.
      rewrite length_marker_times in Hst. lia.
  - rewrite lookup_seq_ge by lia. simpl. symmetry. apply lookup_ge_None.
    rewrite length_marker_times. lia.
Qed.
End MarkerFacts.

(** X1.  A call of the newer parse_timing_data raises ValueError when a
    timing matched in the log, by either pattern, has more digits than
    [int] converts.  Otherwise it returns one row per PROCESSING_START
    match: the rows are numbered 1..N in the order of the markers, and
    the PROCESSING_START column of row k is the time value of the k-th
    marker. *)
Theorem X1_one_row_per_marker (content : string) :
  let ms := ParseConsoleLog.all_matches content in
  if existsb too_long (ParseConsoleLog.timing_texts content)
  then ParseConsoleLog.parse_timing_data_checked content = inl ValueError
  else exists rows,
         ParseConsoleLog.parse_timing_data_checked content = inr rows
         ∧ ParseConsoleLog.Test_Run <$> rows = seq 1 (TimingFacts.count_starts ms)
         ∧ ParseConsoleLog.PROCESSING_START <$> rows = MarkerFacts.marker_times ms.
Proof.
  intros ms. rewrite IntFacts.parse_timing_data_checked_eq.
  destruct (existsb too_long _); [reflexivity|].
  eexists. split; [reflexivity|]. apply MarkerFacts.rows_of_markers.
Qed.

(** X2.  When a call of the newer parse_timing_data returns, what the
    log holds before its first PROCESSING_START has left no trace in the
    rows: they are the rows computed from the matches that follow. *)
Theorem X2_events_before_first_marker_are_dropped
    (content : string) (pre rest : list ParseConsoleLog.tmatch)
    (rows : list ParseConsoleLog.row) :
  ParseConsoleLog.parse_timing_data_checked content = inr rows ->
  ParseConsoleLog.all_matches content = pre ++ rest ->
  TimingFacts.count_starts pre = 0%nat ->
  rows = ParseConsoleLog.rows_of content (ParseConsoleLog.group_events rest).
Proof.
  intros Hrows Hms Hpre. rewrite IntFacts.parse_timing_data_checked_eq in Hrows.
  destruct (existsb too_long _); [done|]. injection Hrows as <-.
  unfold ParseConsoleLog.parse_timing_data.
  f_equal. by apply (proj1 (proj2 (GroupFacts.run_groups content)) pre rest).
Qed.

(** X2 on a log with one event before its only marker. *)
Lemma X2_events_before_first_marker_witness :
  ParseConsoleLog.parse_timing_data log_early_event
  = ParseConsoleLog.rows_of log_early_event
      (ParseConsoleLog.group_events
         [at_ 44 "PROCESSING_START" 10; at_ 86 "UI_UPDATE_START" 20]).
Proof.
  apply (X2_events_before_first_marker_are_dropped log_early_event
           [at_ 0 "DEDUPLICATION_START" 5]).
  - vm_compute. reflexivity.
  - vm_compute. reflexivity.
  - vm_compute. reflexivity.
Defined.

(** X3.  In the newer parse_timing_data, a timing event that has k >= 1
    boundary markers at or before its byte offset is entered in the map
    of run k, under its own name. *)
Theorem X3_event_is_filed_under_the_latest_marker
    (content : string) (m : ParseConsoleLog.tmatch) :
  let ms := ParseConsoleLog.all_matches content in
  m ∈ ms ->
  (0 < OffsetFacts.starts_up_to ms (ParseConsoleLog.pos m))%nat ->
  is_Some (TimingFacts.stored (ParseConsoleLog.group_events ms)
             (OffsetFacts.starts_up_to ms (ParseConsoleLog.pos m))
             (ParseConsoleLog.event_type m)).
Proof. apply OffsetFacts.run_by_offset. Qed.

(** X3 on the event that follows the marker of [log_early_event]. *)
Lemma X3_event_is_filed_witness :
  is_Some (TimingFacts.stored
             (ParseConsoleLog.group_events (ParseConsoleLog.all_matches log_early_event))
             1 "UI_UPDATE_START").
Proof.
  apply (X3_event_is_filed_under_the_latest_marker log_early_event
           (at_ 86 "UI_UPDATE_START" 20)).
  - vm_compute. do 2 right. left.
  - vm_compute. lia.
Defined.

(** Sorted by offset, with offsets that are all different. *)
Lemma sorted_distinct_increasing (ms : list ParseConsoleLog.tmatch) :
  StronglySorted GroupFacts.by_pos ms -> NoDup (ParseConsoleLog.pos <$> ms) ->
  StronglySorted (fun a b => (ParseConsoleLog.pos a < ParseConsoleLog.pos b)%nat) ms.
Proof.
  induction 1 as [|m ms Hms IH Hm]; [constructor|].
  rewrite fmap_cons, NoDup_cons. intros [Hnot Hnd].
  constructor; [by apply IH|].
  apply Forall_forall. intros m' Hm'. rewrite Forall_forall in Hm.
  pose proof (Hm m' Hm') as Hle. unfold GroupFacts.by_pos in Hle.
  assert (ParseConsoleLog.pos m ≠ ParseConsoleLog.pos m'); [|lia].
  intros Heq. apply Hnot. rewrite Heq. apply list_elem_of_fmap. eauto.
Qed.

(** X4.  The list the grouping loop of the newer parse_timing_data runs
    over holds the matches of the main-thread pattern and of the worker
    pattern, each once, in the order of their byte offsets, and no two
    of them start at the same offset. *)
Theorem X4_events_are_in_text_order (content : string) :
  let ms := ParseConsoleLog.all_matches content in
  ms ≡ₚ (ParseConsoleLog.entry ParseConsoleLog.from_main
           <$> finditer ParseConsoleLog.main_pattern content)
        ++ (ParseConsoleLog.entry ParseConsoleLog.from_worker
              <$> finditer ParseConsoleLog.worker_pattern content)
  ∧ StronglySorted (fun a b => (ParseConsoleLog.pos a < ParseConsoleLog.pos b)%nat) ms.
Proof.
  intros ms. split.
  - apply GroupFacts.sort_by_pos_perm.
  - apply sorted_distinct_increasing.
    + apply GroupFacts.all_matches_sorted.
    + apply OffsetFacts.all_matches_offsets.
Qed.

(** ** parse_timing_data of the older parse_console_log.py *)
Module LegacyRowFacts.
Import LegacyParseConsoleLog.

(** [data.get(column, '')] *)
Definition cell (data : gmap string Z) (column : string) : pyval :=
  match data !! column with Some t => PInt t | None => PStr "" end.

Lemma foldl_insert_lookup (f : string -> pyval) columns (init : gmap string pyval) c :
  foldl (fun row column => <[column := f column]> row) init columns !! c
  = if decide (c ∈ columns) then Some (f c) else init !! c.
Proof.
  revert init. induction columns as [|x columns IH]; intros init; simpl.
  - destruct (decide (c ∈ [])) as [Hc|Hc]; [by apply elem_of_nil in Hc|done].
  - rewrite IH. destruct (decide (c ∈ columns)) as [Hc|Hc].
    + destruct (decide (c ∈ x :: columns)) as [_|Hn]; [done|].
      exfalso. apply Hn. by right.
    + destruct (decide (c = x)) as [->|Hx].
      * rewrite lookup_insert_eq.
        destruct (decide (x ∈ x :: columns)) as [_|Hn]; [done|]. exfalso. apply Hn. left.
      * rewrite lookup_insert_ne by done.
        destruct (decide (c ∈ x :: columns)) as [[?|?]%elem_of_cons|_]; done.
Qed.

Lemma foldl_insert_dom (f : string -> pyval) columns (init : gmap string pyval) :
  dom (foldl (fun row column => <[column := f column]> row) init columns)
  =@{gset string} dom init ∪ list_to_set columns.
Proof.
  revert init. induction columns as [|x columns IH]; intros init; simpl.
  - set_solver.
  - rewrite IH, dom_insert_L. set_solver.
Qed.

Lemma run_number_is_no_column : "Test Run #" ∉ expected_columns.
Proof.
  unfold expected_columns. rewrite !not_elem_of_cons.
  repeat split; try done. apply not_elem_of_nil.
Qed.

Lemma make_row_run test_run data :
  make_row test_run data !! "Test Run #" = Some (PInt (Z.of_nat test_run)).
Proof.
  unfold make_row. rewrite (foldl_insert_lookup (cell data)).
  destruct (decide _) as [Hin|_]; [by apply run_number_is_no_column in Hin|].
  apply lookup_singleton_eq.
Qed.

Lemma make_row_cell test_run data column :
  column ∈ expected_columns -> make_row test_run data !! column = Some (cell data column).
Proof.
  intros H. unfold make_row. rewrite (foldl_insert_lookup (cell data)).
  destruct (decide _) as [_|Hn]; [done|by destruct Hn].
Qed.

Lemma make_row_dom test_run data :
  dom (make_row test_run data) =@{gset string} list_to_set ("Test Run #" :: expected_columns).
Proof.
  unfold make_row. rewrite (foldl_insert_dom (cell data)).
  by rewrite dom_singleton_L.
Qed.

Lemma rows_numbered content :
  (.!! "Test Run #") <$> parse_timing_data content
  = (fun k => Some (PInt (Z.of_nat k)))
      <$> ParseConsoleLog.sorted_keys (test_run_data (group_events (timing_matches content))).
Proof.
  unfold parse_timing_data. rewrite <- list_fmap_compose.
  apply list_fmap_ext. intros _ k _. simpl. apply make_row_run.
Qed.
End LegacyRowFacts.

(** X5.  A call of the older parse_timing_data raises ValueError when a
    timing matched in the log has more digits than [int] converts.
    Otherwise it returns rows numbered as follows, N being the number
    of PROCESSING_START matches: a log whose first match is a marker
    gets the rows 2..N+1, a log that starts with another event gets the
    rows 1..N+1, and a log without a match gets no row. *)
Theorem X5_legacy_run_numbers (content : string) :
  let ms := LegacyParseConsoleLog.timing_matches content in
  if existsb (fun m => too_long (snd m)) ms
  then LegacyParseConsoleLog.parse_timing_data_checked content = inl ValueError
  else exists rows,
         LegacyParseConsoleLog.parse_timing_data_checked content = inr rows
         ∧ (.!! "Test Run #") <$> rows
           = (fun k => Some (PInt (Z.of_nat k)))
               <$> match ms with
                   | [] => []
                   | m :: _ =>
                       if LegacyTimingFacts.is_start m
                       then seq 2 (LegacyTimingFacts.count_starts ms)
                       else seq 1 (S (LegacyTimingFacts.count_starts ms))
                   end.
Proof.
  intros ms. rewrite IntFacts.legacy_parse_timing_data_checked_eq. fold ms.
  destruct (existsb _ ms); [reflexivity|].
  eexists. split; [reflexivity|].
  rewrite LegacyRowFacts.rows_numbered. fold ms. f_equal.
  destruct ms as [|m ms']; [done|]. apply LegacyRunFacts.legacy_run_numbers.
Qed.

(** X6.  A row of the older parse_timing_data has the run number and the
    sixteen expected columns and no other key: an expected column holds
    the time stored for the run under that name, or the empty string
    when there is none, and an event of any other name is left out. *)
Theorem X6_legacy_rows_have_the_expected_columns (content : string) :
  let g := LegacyParseConsoleLog.group_events
             (LegacyParseConsoleLog.timing_matches content) in
  Forall2 (fun run row =>
             dom row =@{gset string}
               list_to_set ("Test Run #" :: LegacyParseConsoleLog.expected_columns)
             ∧ row !! "Test Run #" = Some (PInt (Z.of_nat run))
             ∧ Forall (fun column =>
                         row !! column
                         = Some (match LegacyTimingFacts.stored g run column with
                                 | Some t => PInt t
                                 | None => PStr ""
                                 end))
                 LegacyParseConsoleLog.expected_columns)
    (ParseConsoleLog.sorted_keys (LegacyParseConsoleLog.test_run_data g))
    (LegacyParseConsoleLog.parse_timing_data content).
Proof.
  intros g. unfold LegacyParseConsoleLog.parse_timing_data. fold g.
  apply Forall2_fmap_r, Forall_Forall2_diag, Forall_forall. intros run Hrun.
  split; [apply LegacyRowFacts.make_row_dom|].
  split; [apply LegacyRowFacts.make_row_run|].
  apply Forall_forall. intros column Hc.
  rewrite LegacyRowFacts.make_row_cell by done.
  unfold LegacyRowFacts.cell, LegacyTimingFacts.stored.
  by destruct (LegacyParseConsoleLog.test_run_data g !! run).
Qed.

(** ** extract_filename_prefix *)

Lemma append_nil (b : string) : "" +:+ b = b.
Proof. reflexivity. Qed.

Lemma append_cons (c : ascii) (a b : string) : String c a +:+ b = String c (a +:+ b).
Proof. reflexivity. Qed.

Lemma before_underscore_split (s : string) :
  exists rest,
    s = ParseConsoleLog.before_underscore s +:+ rest
    ∧ (rest = "" ∨ exists rest', rest = String "_" rest').
Proof.
  induction s as [|c s (rest & IH & Hrest)]; simpl.
  - exists "". by split; [|left].
  - destruct (Nat.eqb (code c) 95) eqn:Hc.
    + exists (String c s). split; [done|]. right. exists s. f_equal.
      apply Nat.eqb_eq in Hc. unfold code in Hc.
      rewrite <- (ascii_nat_embedding c), Hc. reflexivity.
    + exists rest. split; [|done]. rewrite append_cons. by f_equal.
Qed.

Lemma before_underscore_free (s a b : string) :
  ParseConsoleLog.before_underscore s ≠ a +:+ String "_" b.
Proof.
  revert a. induction s as [|c s IH]; intros a; simpl.
  - destruct a; rewrite ?append_nil, ?append_cons; discriminate.
  - destruct (Nat.eqb (code c) 95) eqn:Hc;
      [destruct a; rewrite ?append_nil, ?append_cons; discriminate|].
    destruct a as [|c' a]; rewrite ?append_nil, ?append_cons.
    + intros [= -> _]. by vm_compute in Hc.
    + intros [= _ H]. by apply IH in H.
Qed.

(** X7.  extract_filename_prefix returns the part of the file name's
    stem before its first underscore: the stem is the prefix followed by
    nothing or by a text that starts with an underscore, and the prefix
    holds no underscore.  A stem without underscore is returned whole. *)
Theorem X7_prefix_ends_at_the_first_underscore (w : Os.world) (input_path : string) :
  let prefix := ParseConsoleLog.extract_filename_prefix w input_path in
  (exists rest,
     Os.path_stem w input_path = prefix +:+ rest
     ∧ (rest = "" ∨ exists rest', rest = String "_" rest'))
  ∧ (forall a b, prefix ≠ a +:+ String "_" b).
Proof.
  intros prefix. split.
  - apply before_underscore_split.
  - apply before_underscore_free.
Qed.

(** ** The tables and their headers *)

(** X8.  The records of the newer parse_folder_analysis_data have
    exactly the twelve columns main writes for them, and the rows of
    parse_timing_data exactly the ten columns of the timing table: on
    what the two parsers return, write_csv does not raise. *)
Theorem X8_parsed_tables_fit_their_headers (content path : string) :
  (exists rows,
     result (ParseConsoleLog.parse_folder_analysis_data content) = inr rows
     ∧ Forall (fun row => dom row =@{gset string}
                            list_to_set ParseConsoleLog.folder_fieldnames) rows
     ∧ result (ParseConsoleLog.write_csv rows path ParseConsoleLog.folder_fieldnames)
       = inr tt)
  ∧ (let rows := ParseConsoleLog.row_dict <$> ParseConsoleLog.parse_timing_data content in
     Forall (fun row => dom row =@{gset string}
                          list_to_set ParseConsoleLog.timing_fieldnames) rows
     ∧ result (ParseConsoleLog.write_csv rows path ParseConsoleLog.timing_fieldnames)
       = inr tt).
Proof.
  split.
  - rewrite FolderFacts.kv_parse_folder_analysis_data_eq. eexists.
    split; [reflexivity|]. split.
    + apply LoopFacts.kept_all. intros k m row. unfold FolderFacts.attempt.
      destruct (ParseConsoleLog.extract_fields _ m ∅) as [|data] eqn:Hd; [done|].
      destruct (FolderFacts.folder_row_spec m data k Hd) as (row' & -> & _ & _ & Hdom).
      by intros [= <-].
    + rewrite CsvFacts.write_csv_fits; [done|]. apply MainFacts.folder_rows_fit.
  - intros rows. split.
    + apply Forall_fmap, Forall_forall. intros r _.
      unfold ParseConsoleLog.row_dict, compose. by rewrite dom_list_to_map_L.
    + rewrite CsvFacts.write_csv_fits; [done|]. apply MainFacts.timing_rows_fit.
Qed.

(** ** Which blobs the newer parse_folder_analysis_data skips *)
Module SkipFacts.
Import ParseConsoleLog.



Lemma float_exn s e : float_ s = inl e -> e = ValueError.
Proof. unfold float_. by destruct (_ && _); intros [= <-]. Qed.
End SkipFacts.


(** ** detect_execution_mode *)
Module WindowFacts.
Import ParseConsoleLog.

(** Every character of a text is of a class. *)
Fixpoint all_of (p : ascii -> bool) (s : string) : bool :=
  match s with
  | EmptyString => true
  | String c s' => p c && all_of p s'
  end.

Lemma lit_app {R} (l b : string) i g (k : cont R) :
  lit l i (l +:+ b) g k = k (i + String.length l)%nat b g.
Proof.
  revert i. induction l as [|a l IH]; intros i.
  - rewrite append_nil. simpl. by rewrite Nat.add_0_r.
  - rewrite append_cons. simpl. rewrite Ascii.eqb_refl, IH. f_equal. lia.
Qed.

Lemma star_continues {R} p (rest : string) i g (k : cont R) :
  is_Some (k i rest g) -> is_Some (star p i rest g k).
Proof.
  intros Hk. destruct rest as [|c rest]; simpl; [done|].
  destruct (p c); [|done]. by destruct (star p (S i) rest g k).
Qed.

(** A greedy repetition can stop behind any run of characters of its
    class, when the rest of the pattern matches from there. *)
Lemma star_some {R} p (xs rest : string) i g (k : cont R) :
  all_of p xs = true ->
  is_Some (k (i + String.length xs)%nat rest g) ->
  is_Some (star p i (xs +:+ rest) g k).
Proof.
  revert i. induction xs as [|c xs IH]; intros i Hall Hk.
  - rewrite append_nil. apply star_continues. simpl in Hk. by rewrite Nat.add_0_r in Hk.
  - rewrite append_cons. simpl in *. apply andb_prop in Hall as [-> Hall].
    destruct (star p (S i) (xs +:+ rest) g k) eqn:Hs; [done|].
    assert (is_Some (star p (S i) (xs +:+ rest) g k)) as [? Hs'].
    { apply IH; [done|]. by replace (S i + String.length xs)%nat
                           with (i + S (String.length xs))%nat by lia. }
    congruence.
Qed.

Lemma plus_some {R} p (xs rest : string) i g (k : cont R) :
  xs ≠ "" -> all_of p xs = true ->
  is_Some (k (i + String.length xs)%nat rest g) ->
  is_Some (one p i (xs +:+ rest) g (fun i' s' g' => star p i' s' g' k)).
Proof.
  intros Hne Hall Hk. destruct xs as [|c xs]; [done|].
  rewrite append_cons. simpl in *. apply andb_prop in Hall as [-> Hall].
  apply star_some; [done|].
  by replace (S i + String.length xs)%nat with (i + S (String.length xs))%nat by lia.
Qed.

(** [re.search] finds a pattern that matches behind some prefix. *)
Lemma search_behind r (a s : string) :
  is_Some (match_at r s) -> is_Some (search r (a +:+ s)).
Proof.
  intros [mo Hmo]. induction a as [|c a IH].
  - rewrite append_nil. destruct s; simpl; by rewrite Hmo.
  - rewrite append_cons. simpl. by destruct (match_at r (String c (a +:+ s))).
Qed.

Lemma literal_found (l a b : string) : is_Some (search (Lit l) (a +:+ l +:+ b)).
Proof.
  apply search_behind. unfold match_at. simpl. by rewrite lit_app.
Qed.

Lemma worker_line_found (name a ds ws b : string) :
  ds ≠ "" -> all_of digit ds = true -> ws ≠ "" -> all_of space ws = true ->
  is_Some (search (Lit "fileHashWorker.js:" ⋅ Plus digit ⋅ Plus space ⋅ Lit name)%re
             (a +:+ "fileHashWorker.js:" +:+ ds +:+ ws +:+ name +:+ b)).
Proof.
  intros Hds Hdigits Hws Hspaces. apply search_behind.
  unfold match_at. cbn [exec]. rewrite lit_app.
  apply plus_some; [done..|]. apply plus_some; [done..|]. by rewrite lit_app.
Qed.

Lemma from_offset_beyond (n : nat) (s : string) :
  (String.length s <= n)%nat -> from_offset n s = "".
Proof.
  revert s. induction n as [|n IH]; intros s Hs.
  - destruct s; [done|]. simpl in Hs. lia.
  - destruct s as [|c s]; [done|]. simpl in *. apply IH. lia.
Qed.
End WindowFacts.

(** X10.  detect_execution_mode reads the 5000 characters that start at
    the given offset and nothing else: two calls whose windows are the
    same text give the same answer.  An offset at or behind the end of
    the text gives False.  The fallback message anywhere in the window
    gives True, and so does a worker line that reports the end of the
    size analysis or of the hash calculation: the file name and a
    colon, one or more digits, one or more white-space characters and
    the event name. *)
Theorem X10_worker_mode_is_read_from_the_window
    (content : string) (test_run_start_pos : nat) :
  let window := slice test_run_start_pos 5000 content in
  let mode := ParseConsoleLog.detect_execution_mode content test_run_start_pos in
  (forall content' pos',
     slice pos' 5000 content' = window ->
     ParseConsoleLog.detect_execution_mode content' pos' = mode)
  ∧ ((String.length content <= test_run_start_pos)%nat -> mode = false)
  ∧ (forall a b,
       window
       = a +:+ "Web Worker restart failed, falling back to main thread processing" +:+ b ->
       mode = true)
  ∧ (forall name a ds ws b,
       name ∈ ["SIZE_ANALYSIS_COMPLETE"; "HASH_CALCULATION_COMPLETE"] ->
       ds ≠ "" -> WindowFacts.all_of digit ds = true ->
       ws ≠ "" -> WindowFacts.all_of space ws = true ->
       window = a +:+ "fileHashWorker.js:" +:+ ds +:+ ws +:+ name +:+ b ->
       mode = true).
Proof.
  intros window mode. unfold mode, ParseConsoleLog.detect_execution_mode.
  cbv zeta. fold window.
  split; [|split; [|split]].
  - intros content' pos' ->. reflexivity.
  - intros Hlen. unfold window, slice.
    rewrite WindowFacts.from_offset_beyond by done. reflexivity.
  - intros a b ->. unfold ParseConsoleLog.worker_patterns. cbn [existsb].
    rewrite (bool_decide_eq_true_2 (is_Some (search (Lit _) _)));
      [by rewrite !orb_true_r|].
    apply WindowFacts.literal_found.
  - intros name a ds ws b Hname Hds Hdigits Hws Hspaces ->.
    unfold ParseConsoleLog.worker_patterns. cbn [existsb].
    apply elem_of_cons in Hname as [->|Hname].
    + rewrite bool_decide_eq_true_2; [done|]. by apply WindowFacts.worker_line_found.
    + apply list_elem_of_singleton in Hname as ->.
      rewrite (bool_decide_eq_true_2
                 (is_Some (search (Lit _ ⋅ _ ⋅ _ ⋅ Lit "HASH_CALCULATION_COMPLETE")%re _)));
        [by rewrite orb_true_r|].
      by apply WindowFacts.worker_line_found.
Qed.

Definition log_worker_run : string :=
  lines ["processingTimer.js:1 PROCESSING_START: 1";
         "fileHashWorker.js:7 SIZE_ANALYSIS_COMPLETE: 3"].

(** 1300 four-byte characters and then the fallback message: the
    message starts 1300 characters, and 5200 bytes, into the text. *)
Definition log_wide : string :=
  String.concat "" (replicate 1300 microscope)
  +:+ "Web Worker restart failed, falling back to main thread processing".

(** X10 on a run whose second line is a worker line, at the end of
    that log, and on a text whose characters take four bytes each. *)
Lemma X10_worker_mode_witness :
  ParseConsoleLog.detect_execution_mode log_worker_run 0 = true
  ∧ ParseConsoleLog.detect_execution_mode log_worker_run 86 = false
  ∧ ParseConsoleLog.detect_execution_mode log_wide 0 = true.
Proof.
  split; [|split].
  - apply (proj2 (proj2 (proj2 (X10_worker_mode_is_read_from_the_window log_worker_run 0)))
             "SIZE_ANALYSIS_COMPLETE"
             ("processingTimer.js:1 PROCESSING_START: 1" +:+ lf) "7" " " ": 3").
    + left.
    + discriminate.
    + reflexivity.
    + discriminate.
    + reflexivity.
    + vm_compute. reflexivity.
  - apply (proj1 (proj2 (X10_worker_mode_is_read_from_the_window log_worker_run 86))).
    vm_compute. lia.
  - apply (proj1 (proj2 (proj2 (X10_worker_mode_is_read_from_the_window log_wide 0)))
             (String.concat "" (replicate 1300 microscope)) "").
    vm_compute. reflexivity.
Defined.

(** ** trial5_parser.py *)
Module Trial5Facts.
Import Trial5Parser.

Lemma current_run_step st m :
  current_run (group_step st m)
  = (current_run st + if LegacyTimingFacts.is_start m then 1 else 0)%nat.
Proof.
  unfold group_step, LegacyTimingFacts.is_start.
  destruct (String.eqb (fst m) "PROCESSING_START").
  - cbn [Nat.ltb Nat.leb current_run]. lia.
  - destruct (0 <? current_run st)%nat; cbn [current_run]; lia.
Qed.

(** The invariant of the grouping loop: the runs are [1..current]. *)
Definition numbered (g : groups) : Prop :=
  dom (timing_data g) = set_seq 1 (current_run g).

Lemma numbered_step g m : numbered g -> numbered (group_step g m).
Proof.
  unfold numbered, group_step. intros Hdom.
  destruct (String.eqb (fst m) "PROCESSING_START").
  - cbn [Nat.ltb Nat.leb timing_data current_run].
    by rewrite dom_insert_L, Hdom, set_seq_S_end_union_L.
  - destruct (0 <? current_run g)%nat eqn:Hpos; cbn [timing_data current_run]; [|done].
    apply Nat.ltb_lt in Hpos. rewrite dom_insert_L, Hdom.
    apply subseteq_union_1_L, singleton_subseteq_l. rewrite elem_of_set_seq. lia.
Qed.

Lemma group_events_numbered ms :
  numbered (group_events ms)
  ∧ current_run (group_events ms) = LegacyTimingFacts.count_starts ms.
Proof.
  unfold group_events.
  induction ms as [|m ms [Hn Hc]] using rev_ind; [done|].
  rewrite foldl_app. simpl. split; [by apply numbered_step|].
  rewrite current_run_step, Hc. unfold LegacyTimingFacts.count_starts.
  rewrite List.filter_app, length_app. simpl.
  by destruct (LegacyTimingFacts.is_start m).
Qed.

(** The rows of the timing half, numbered by the markers. *)
Lemma timing_rows_numbered content :
  TestRun <$> timing_rows content
  = seq 1 (LegacyTimingFacts.count_starts (timing_matches content)).
Proof.
  destruct (group_events_numbered (timing_matches content)) as [Hn Hc].
  unfold numbered in Hn. rewrite Hc in Hn.
  unfold timing_rows. rewrite <- list_fmap_compose.
  rewrite (RunFacts.sorted_keys_seq _ 1
             (LegacyTimingFacts.count_starts (timing_matches content))) by done.
  rewrite <- (list_fmap_id (seq _ _)) at 2. by apply list_fmap_ext.
Qed.

Lemma timing_runs_size content :
  size (timing_data (group_events (timing_matches content)))
  = LegacyTimingFacts.count_starts (timing_matches content).
Proof.
  destruct (group_events_numbered (timing_matches content)) as [Hn Hc].
  unfold numbered in Hn. rewrite Hc in Hn.
  rewrite <- size_dom, Hn. apply size_set_seq.
Qed.

Lemma trow_dict_run r : trow_dict r !! "TestRun" = Some (PInt (Z.of_nat (TestRun r))).
Proof. unfold trow_dict. cbn [list_to_map foldr fst snd]. apply lookup_insert_eq. Qed.

(** What [report_row] does: it prints one line. *)
Lemma report_rows_print {S} (rows : list trow) (s : S) :
  exists out,
    for_each report_row rows s = (inr tt, s, out)
    ∧ Forall (fun o => exists fmt args, o = Print fmt args) out.
Proof.
  induction rows as [|r rows (out & IH & Hout)]; [by exists []|].
  cbn [for_each]. unfold bind.
  assert (exists o, report_row r s = (inr tt, s, [o])
                    ∧ exists fmt args, o = Print fmt args) as (o & -> & Ho).
  { unfold report_row. destruct (_ && _); eexists; (split; [reflexivity|]); by eexists _, _. }
  rewrite IH. exists (o :: out). split; [done|]. by constructor.
Qed.

Section WithJson.
Variable json_loads : string -> json_error + gmap string pyval.

(** The body of the folder loop raises or goes on; what it has
    appended stays. *)
Definition folder_loop_outcome (content : string)
    : (exn + unit) * list (gmap string pyval) * list effect :=
  for_each (folder_body json_loads) (imap (fun i m => (S i, m)) (folder_matches content)) [].

(** The function, as the folder loop and the grouping loop leave it. *)
Lemma parse_trial5_data_eq content :
  exists report,
    Forall (fun o => exists fmt args, o = Print fmt args) report
    ∧ parse_trial5_data json_loads content
      = let header :=
          [ Print rule []; Print "TRIAL 5 DATA EXTRACTION" []; Print rule []; Print "" [];
            Print "FOLDER ANALYSIS DATA:" [];
            Print "Found {} complete JSON entries" [N (length (folder_matches content))] ] in
        match folder_loop_outcome content with
        | (inl e, _, out) => (inl e, header ++ out)
        | (inr _, folder_data, out) =>
            if existsb (fun m => too_long (snd m))
                 (IntFacts.from_first_start (timing_matches content))
            then (inl ValueError, header ++ out ++ [Print "" []])
            else
              (inr (folder_data, trow_dict <$> timing_rows content),
               header ++ out
                 ++ [ Print "" []; Print "TIMING DATA:" [];
                      Print "Found {} timing test runs"
                        [N (LegacyTimingFacts.count_starts (timing_matches content))] ]
                 ++ report)
        end.
Proof.
  destruct (report_rows_print (S := list (gmap string pyval)) (timing_rows content)
              (folder_loop_outcome content).1.2) as (report & Hreport & Hprints).
  exists report. split; [done|].
  unfold parse_trial5_data, def.
  unfold mbind at 1 2 3 4 5 6 7. unfold py_bind, bind at 1 2 3 4 5 6 7.
  unfold print at 1 2 3 4 5 6, emit. cbv beta iota zeta. cbn [app].
  fold (folder_loop_outcome content).
  destruct (folder_loop_outcome content) as [[[e|[]] folder_data] out]; [reflexivity|].
  cbn [fst snd] in Hreport.
  unfold mbind, py_bind, bind, get, print, emit, lift, mret, py_ret, ret.
  cbv beta iota zeta.
  rewrite IntFacts.trial5_group_events_checked_eq.
  destruct (existsb _ _).
  - cbv beta iota zeta. by rewrite !app_nil_r.
  - cbv beta iota zeta.
    change (rows_of (group_events (timing_matches content))) with (timing_rows content).
    rewrite Hreport, timing_runs_size. cbn [app]. by rewrite app_nil_r.
Qed.
End WithJson.
End Trial5Facts.

(** X11.  The timing half of parse_trial5_data.  When the call returns,
    it has made one row per PROCESSING_START match, numbered 1..N in
    the order of the markers, it has printed N as the number of timing
    test runs, and no timing from the first marker on has more digits
    than [int] converts. *)
Theorem X11_trial5_one_row_per_marker
    (json_loads : string -> json_error + gmap string pyval) (content : string)
    (folder_data timing_data : list (gmap string pyval)) :
  let ms := Trial5Parser.timing_matches content in
  let run := Trial5Parser.parse_trial5_data json_loads content in
  result run = inr (folder_data, timing_data) ->
  (.!! "TestRun") <$> timing_data
  = (fun k => Some (PInt (Z.of_nat k))) <$> seq 1 (LegacyTimingFacts.count_starts ms)
  ∧ Print "Found {} timing test runs" [N (LegacyTimingFacts.count_starts ms)] ∈ output run
  ∧ existsb (fun m => too_long (snd m)) (IntFacts.from_first_start ms) = false.
Proof.
  intros ms run. subst ms run.
  destruct (Trial5Facts.parse_trial5_data_eq json_loads content) as (report & _ & ->).
  cbv zeta.
  destruct (Trial5Facts.folder_loop_outcome json_loads content) as [[[e|[]] fd] out];
    [done|].
  destruct (existsb _ _); [done|]. unfold result, output. cbn [fst snd].
  intros [= <- <-]. split; [|split; [|done]].
  - rewrite <- Trial5Facts.timing_rows_numbered, <- !list_fmap_compose.
    apply list_fmap_ext. intros _ r _. apply Trial5Facts.trow_dict_run.
  - rewrite !elem_of_app. right. right. left.
    apply list_elem_of_further, list_elem_of_further, list_elem_of_here.
Qed.

Definition log_one_run : string :=
  lines ["processingTimer.js:1 PROCESSING_START: 10"].

(** X11 on a log with one marker. *)
Lemma X11_trial5_one_row_witness :
  (.!! "TestRun") <$> (Trial5Parser.trow_dict <$> Trial5Parser.timing_rows log_one_run)
  = (fun k => Some (PInt (Z.of_nat k)))
      <$> seq 1 (LegacyTimingFacts.count_starts (Trial5Parser.timing_matches log_one_run))
  ∧ Print "Found {} timing test runs"
      [N (LegacyTimingFacts.count_starts (Trial5Parser.timing_matches log_one_run))]
    ∈ output (Trial5Parser.parse_trial5_data (fun _ => inl NotJson) log_one_run)
  ∧ existsb (fun m => too_long (snd m))
      (IntFacts.from_first_start (Trial5Parser.timing_matches log_one_run)) = false.
Proof.
  apply (X11_trial5_one_row_per_marker (fun _ => inl NotJson) log_one_run []).
  vm_compute. reflexivity.
Defined.

(** *** merge_data *)
Module MergeFacts.
Import Trial5Parser.

(** The run numbers a list of records carries. *)
Definition runs_of (items : list (gmap string pyval)) : list Z :=
  omap (fun item => match item !! "TestRun" with Some (PInt z) => Some z | _ => None end)
       items.

(** The record carries the run number [k]. *)
Definition has_run (k : Z) (item : gmap string pyval) : bool :=
  match item !! "TestRun" with Some (PInt z) => (z =? k)%Z | _ => false end.

(** The last record of a list that carries the run number [k]. *)
Fixpoint last_of (k : Z) (items : list (gmap string pyval)) : option (gmap string pyval) :=
  match items with
  | [] => None
  | item :: items' =>
      match last_of k items' with
      | Some later => Some later
      | None => if has_run k item then Some item else None
      end
  end.

Lemma run_key_inr item k : run_key item = inr k <-> item !! "TestRun" = Some (PInt k).
Proof.
  unfold run_key. destruct (item !! "TestRun") as [[]|]; split; intros H; by simplify_eq.
Qed.

Lemma by_run_lookup items acc by_k k :
  by_run items acc = inr by_k ->
  by_k !! k = match last_of k items with Some item => Some item | None => acc !! k end.
Proof.
  revert acc. induction items as [|item items IH]; intros acc; simpl.
  - by intros [= <-].
  - destruct (run_key item) as [e|k0] eqn:Hk0; [done|]. simpl. intros Hby.
    rewrite (IH _ Hby). destruct (last_of k items); [done|].
    apply run_key_inr in Hk0. unfold has_run. rewrite Hk0, lookup_insert.
    case_decide as Hk.
    + subst k0. by rewrite Z.eqb_refl.
    + by apply Z.eqb_neq in Hk as ->.
Qed.

Lemma by_run_dom items acc by_k :
  by_run items acc = inr by_k -> dom by_k = list_to_set (runs_of items) ∪ dom acc.
Proof.
  revert acc. induction items as [|item items IH]; intros acc; simpl.
  - intros [= <-]. set_solver.
  - destruct (run_key item) as [e|k0] eqn:Hk0; [done|]. simpl. intros Hby.
    rewrite (IH _ Hby), dom_insert_L. apply run_key_inr in Hk0.
    unfold runs_of. simpl. rewrite Hk0. simpl. set_solver.
Qed.

(** The record carries an int under 'TestRun'. *)
Definition keyed (item : gmap string pyval) : Prop :=
  exists k, item !! "TestRun" = Some (PInt k).

Lemma by_run_keyed items acc :
  Forall keyed items -> exists by_k, by_run items acc = inr by_k.
Proof.
  intros Hitems. revert acc.
  induction Hitems as [|item items [k Hk] _ IH]; intros acc; simpl; [by eexists|].
  apply run_key_inr in Hk. rewrite Hk. simpl. apply IH.
Qed.

Lemma sorted_elements (runs : gset Z) :
  StronglySorted Z.lt (merge_sort Z.le (elements runs)).
Proof.
  assert (Hs : StronglySorted Z.le (merge_sort Z.le (elements runs))).
  { apply Sorted_StronglySorted; [intros ???; lia|]. apply Sorted_merge_sort. apply _. }
  assert (Hnd : NoDup (merge_sort Z.le (elements runs))).
  { rewrite merge_sort_Permutation. apply NoDup_elements. }
  induction Hs as [|k l Hl IH Hk]; [constructor|].
  apply NoDup_cons in Hnd as [Hnot Hnd]. constructor; [by apply IH|].
  apply Forall_forall. intros k' Hk'. rewrite Forall_forall in Hk.
  pose proof (Hk k' Hk'). assert (k ≠ k') by (by intros ->). lia.
Qed.
End MergeFacts.

(** X12.  For records that each carry an int under 'TestRun',
    merge_data returns one record per run number that a record of
    either list carries, in increasing order of the run numbers.  The
    record of run k has 'TestRun' k; any other key has the value of the
    last timing record of run k when that record has the key, and
    otherwise the value of the last folder record of run k. *)
Theorem X12_merge_data_joins_the_runs
    (folder_data timing_data : list (gmap string pyval)) :
  Forall MergeFacts.keyed (folder_data ++ timing_data) ->
  exists runs merged,
    Trial5Parser.merge_data folder_data timing_data = inr merged
    ∧ StronglySorted Z.lt runs
    ∧ (forall k, k ∈ runs <-> k ∈ MergeFacts.runs_of (folder_data ++ timing_data))
    ∧ Forall2 (fun k item =>
                 item !! "TestRun" = Some (PInt k)
                 ∧ forall key,
                     key ≠ "TestRun" ->
                     item !! key
                     = match default ∅ (MergeFacts.last_of k timing_data) !! key with
                       | Some v => Some v
                       | None => default ∅ (MergeFacts.last_of k folder_data) !! key
                       end)
        runs merged.
Proof.
  intros [Hfd Htd]%Forall_app.
  destruct (MergeFacts.by_run_keyed folder_data ∅ Hfd) as [fb Hf].
  destruct (MergeFacts.by_run_keyed timing_data ∅ Htd) as [tb Ht].
  unfold Trial5Parser.merge_data. rewrite Hf, Ht. cbn [mbind res_bind mret res_ret].
  exists (merge_sort Z.le (elements (dom fb ∪ dom tb))). eexists.
  split; [reflexivity|].
  split; [apply MergeFacts.sorted_elements|]. split.
  - intros k. rewrite merge_sort_Permutation, elem_of_elements.
    rewrite (MergeFacts.by_run_dom _ _ _ Hf), (MergeFacts.by_run_dom _ _ _ Ht).
    unfold MergeFacts.runs_of. rewrite omap_app, elem_of_app. set_solver.
  - apply Forall2_fmap_r, Forall_Forall2_diag, Forall_forall. intros k _.
    split; [by rewrite lookup_insert_eq|]. intros key Hkey.
    rewrite lookup_insert_ne by done.
    rewrite (MergeFacts.by_run_lookup _ _ _ k Hf), (MergeFacts.by_run_lookup _ _ _ k Ht).
    rewrite !lookup_empty.
    replace (default ∅ match MergeFacts.last_of k timing_data with
                       | Some item => Some item | None => None end)
      with (default (∅ : gmap string pyval) (MergeFacts.last_of k timing_data))
      by (by destruct (MergeFacts.last_of k timing_data)).
    replace (default ∅ match MergeFacts.last_of k folder_data with
                       | Some item => Some item | None => None end)
      with (default (∅ : gmap string pyval) (MergeFacts.last_of k folder_data))
      by (by destruct (MergeFacts.last_of k folder_data)).
    rewrite lookup_union.
    destruct (default ∅ (MergeFacts.last_of k timing_data) !! key);
      destruct (default ∅ (MergeFacts.last_of k folder_data) !! key); done.
Qed.

Definition folder_of_run_1 : gmap string pyval := {[ "TestRun" := PInt 1; "a" := PInt 1 ]}.
Definition timing_of_run_1 : gmap string pyval := {[ "TestRun" := PInt 1; "a" := PInt 2 ]}.
Definition timing_of_run_2 : gmap string pyval := {[ "TestRun" := PInt 2 ]}.

(** X12 on a folder record and two timing records: the key the two
    records of run 1 share gets the timing record's value. *)
Lemma X12_merge_data_witness :
  exists runs merged,
    Trial5Parser.merge_data [folder_of_run_1] [timing_of_run_1; timing_of_run_2]
    = inr merged
    ∧ StronglySorted Z.lt runs
    ∧ (forall k,
         k ∈ runs
         <-> k ∈ MergeFacts.runs_of ([folder_of_run_1] ++ [timing_of_run_1; timing_of_run_2]))
    ∧ Forall2 (fun k item =>
                 item !! "TestRun" = Some (PInt k)
                 ∧ forall key,
                     key ≠ "TestRun" ->
                     item !! key
                     = match default ∅ (MergeFacts.last_of k
                                          [timing_of_run_1; timing_of_run_2]) !! key with
                       | Some v => Some v
                       | None => default ∅ (MergeFacts.last_of k [folder_of_run_1]) !! key
                       end)
        runs merged.
Proof.
  apply (X12_merge_data_joins_the_runs [folder_of_run_1] [timing_of_run_1; timing_of_run_2]).
  repeat constructor; eexists; vm_compute; reflexivity.
Defined.

(** X13.  When the input file of trial5_parser.py exists but holds no
    folder entry and no timing event, save_results says that there is
    no data to save and returns None, and main then fails on
    [output_file.name]: the run ends with AttributeError (exit status
    1), and it has opened no file. *)
Theorem X13_trial5_main_fails_on_an_empty_log
    (json_loads : string -> json_error + gmap string pyval)
    (w : Os.world) (content : string) :
  Os.file_text w Trial5Parser.input_file = Some content ->
  Trial5Parser.folder_matches content = [] ->
  Trial5Parser.timing_matches content = [] ->
  let run := Trial5Parser.main json_loads w in
  result run = inl AttributeError
  ∧ exit_code run = 1%Z
  ∧ Print "No data to save" [] ∈ output run
  ∧ Forall (fun o => exists fmt args, o = Print fmt args) (output run).
Proof.
  intros Hw Hf Ht run.
  assert (Hrun : run
    = (inl AttributeError,
       [ Print Trial5Parser.rule [];
         Print "TRIAL 5 DATA EXTRACTION" [];
         Print Trial5Parser.rule [];
         Print "" [];
         Print "FOLDER ANALYSIS DATA:" [];
         Print "Found {} complete JSON entries" [N 0];
         Print "" [];
         Print "TIMING DATA:" [];
         Print "Found {} timing test runs" [N 0];
         Print "No data to save" [];
         Print "" [];
         Print "TRIAL 5 ANALYSIS READY!" [] ])).
  { unfold run, Trial5Parser.main, Os.path_exists. rewrite Hw.
    rewrite bool_decide_eq_true_2 by eauto. cbn [negb].
    change (default "" (Some content)) with content.
    unfold Trial5Parser.parse_trial5_data.
    rewrite Hf, Ht. reflexivity. }
  rewrite Hrun. split; [done|]. split; [done|]. split.
  - do 9 right. left.
  - repeat constructor; eauto.
Qed.

Definition empty_log : Os.world :=
  {| Os.file_text := fun p => if String.eqb p "5_Raw_ConsoleData.md" then Some "" else None;
     Os.path_stem := fun p => p;
     Os.path_sibling := fun _ name => name |}.

(** X13 on an input file without text. *)
Lemma X13_trial5_main_witness :
  result (Trial5Parser.main (fun _ => inl NotJson) empty_log) = inl AttributeError.
Proof.
  apply (X13_trial5_main_fails_on_an_empty_log (fun _ => inl NotJson) empty_log "");
    reflexivity.
Defined.

(** *** The folder half of parse_trial5_data *)
Module Trial5FolderFacts.
Import Trial5Parser.
Section WithJson.
Variable json_loads : string -> json_error + gmap string pyval.

(** The record a blob contributes, if it is JSON. *)
Definition entry (x : nat * string) : option (gmap string pyval) :=
  match json_loads x.2 with
  | inr data => Some (data ∪ {[ "TestRun" := PInt (Z.of_nat x.1) ]})
  | inl _ => None
  end.

(** What formatting the entry line of a blob raises, if anything. *)
Definition entry_line (data : gmap string pyval) : exn + unit :=
  format_1f (dget data "totalSizeMB" (PInt 0));;
  format_1f (dget data "avgDirectoryDepth" (PInt 0)).

(** What stops the loop at a blob, if anything. *)
Definition failure (m : string) : option exn :=
  match json_loads m with
  | inl NotJson => None
  | inl TooDeep => Some RecursionError
  | inl IntTooLong => Some ValueError
  | inr data => match entry_line data with inl e => Some e | inr _ => None end
  end.

Lemma trial5_folder_body_spec x folder_data :
  exists out,
    folder_body json_loads x folder_data
    = (match failure x.2 with Some e => inl e | None => inr tt end,
       folder_data ++ option_list (entry x), out).
Proof.
  destruct x as [i m]. unfold folder_body, failure, entry, entry_line, try_except.
  unfold ImprovedParserJson.loads. cbn [fst snd].
  unfold mbind, py_bind, bind, lift, get, put, print, emit. cbn [res_bind].
  destruct (json_loads m) as [[]|data].
  - simpl. eexists. by rewrite app_nil_r.
  - simpl. eexists. by rewrite app_nil_r.
  - simpl. eexists. by rewrite app_nil_r.
  - unfold mbind, res_bind.
    destruct (format_1f (dget data "totalSizeMB" (PInt 0))) as [e1|[]] eqn:H1.
    { apply JsonFacts.format_1f_exn in H1.
      repeat (apply elem_of_cons in H1 as [->|H1]); [..|by apply elem_of_nil in H1];
        simpl; eauto. }
    destruct (format_1f (dget data "avgDirectoryDepth" (PInt 0))) as [e2|[]] eqn:H2.
    { apply JsonFacts.format_1f_exn in H2.
      repeat (apply elem_of_cons in H2 as [->|H2]); [..|by apply elem_of_nil in H2];
        simpl; eauto. }
    simpl. eauto.
Qed.

(** The loop over the blobs: it ends at the first blob that fails, and
    until then it has appended the record of every blob that is JSON. *)
Lemma trial5_folder_loop xs folder_data :
  exists out,
    for_each (folder_body json_loads) xs folder_data
    = match list_find (fun x => is_Some (failure x.2)) xs with
      | Some (j, x) =>
          (inl (default ValueError (failure x.2)),
           folder_data ++ omap entry (take (S j) xs), out)
      | None => (inr tt, folder_data ++ omap entry xs, out)
      end.
Proof.
  revert folder_data. induction xs as [|x xs IH]; intros folder_data.
  - simpl. eexists. by rewrite app_nil_r.
  - cbn [for_each]. unfold bind.
    destruct (trial5_folder_body_spec x folder_data) as [out1 ->].
    cbn [list_find]. destruct (failure x.2) as [e|] eqn:Hfail.
    + rewrite decide_True by eauto. simpl. rewrite Hfail. simpl.
      destruct (entry x); simpl; eauto.
    + rewrite decide_False by (by intros [? ?]).
      destruct (IH (folder_data ++ option_list (entry x))) as [out2 ->].
      destruct (list_find _ xs) as [[j x']|]; simpl.
      * eexists. rewrite <- app_assoc. by destruct (entry x).
      * eexists. rewrite <- app_assoc. by destruct (entry x).
Qed.

Lemma parse_trial5_data_result content :
  result (parse_trial5_data json_loads content)
  = match list_find (fun x => is_Some (failure x.2))
            (imap (fun i m => (S i, m)) (folder_matches content)) with
    | Some (_, x) => inl (default ValueError (failure x.2))
    | None =>
        if existsb (fun m => too_long (snd m))
             (IntFacts.from_first_start (timing_matches content))
        then inl ValueError
        else inr (omap entry (imap (fun i m => (S i, m)) (folder_matches content)),
                  trow_dict <$> timing_rows content)
    end.
Proof.
  destruct (Trial5Facts.parse_trial5_data_eq json_loads content) as (report & _ & ->).
  cbv zeta. unfold Trial5Facts.folder_loop_outcome.
  destruct (trial5_folder_loop (imap (fun i m => (S i, m)) (folder_matches content)) [])
    as [out ->].
  destruct (list_find _ _) as [[j x]|]; [reflexivity|].
  by destruct (existsb _ _).
Qed.
End WithJson.
End Trial5FolderFacts.

(** X14.  The folder half of parse_trial5_data, when the function
    returns, has made one record for every matched blob that is JSON,
    in the order of the log: the blob's members, with 'TestRun' set to
    the blob's position among all matches, counted from 1, unless the
    blob has a 'TestRun' member of its own.  A blob that is not JSON is
    passed over and its number is not given to the next one. *)
Theorem X14_trial5_entries_are_numbered_by_position
    (json_loads : string -> json_error + gmap string pyval) (content : string)
    (folder_data timing_data : list (gmap string pyval)) :
  result (Trial5Parser.parse_trial5_data json_loads content)
  = inr (folder_data, timing_data) ->
  folder_data
  = omap (fun x : nat * string =>
            match json_loads x.2 with
            | inr data => Some (data ∪ {[ "TestRun" := PInt (Z.of_nat x.1) ]})
            | inl _ => None
            end)
         (imap (fun i m => (S i, m)) (Trial5Parser.folder_matches content))
  ∧ timing_data = Trial5Parser.trow_dict <$> Trial5Parser.timing_rows content.
Proof.
  rewrite Trial5FolderFacts.parse_trial5_data_result.
  destruct (list_find _ _) as [[j x]|]; [done|].
  destruct (existsb _ _); [done|]. by intros [= <- <-].
Qed.

(** X15.  parse_trial5_data catches JSONDecodeError and nothing else.
    On a log whose JSON blobs hold no text under 'totalFiles', it raises
    at the first matched blob on which json.loads raises something else
    (the blob is nested too deeply, or holds an integer literal of more
    digits than [int] converts) or whose 'totalSizeMB' or
    'avgDirectoryDepth' cannot be formatted with one decimal, and then
    returns nothing, whatever it had collected.  When no blob is of
    that kind, it raises ValueError if a timing from the first
    PROCESSING_START on has more digits than [int] converts, and
    returns otherwise. *)
Theorem X15_trial5_parse_stops_at_the_first_failure
    (json_loads : string -> json_error + gmap string pyval) (content : string) :
  let blobs := Trial5Parser.folder_matches content in
  let run := Trial5Parser.parse_trial5_data json_loads content in
  (forall m data s,
     m ∈ blobs -> json_loads m = inr data -> data !! "totalFiles" ≠ Some (PStr s)) ->
  match list_find (fun m => is_Some (Trial5FolderFacts.failure json_loads m)) blobs with
  | Some (_, m) =>
      exists e,
        Trial5FolderFacts.failure json_loads m = Some e
        ∧ result run = inl e
        ∧ e ∈ [RecursionError; ValueError; TypeError; OverflowError]
  | None =>
      if existsb (fun m => too_long (snd m))
           (IntFacts.from_first_start (Trial5Parser.timing_matches content))
      then result run = inl ValueError
      else exists rows, result run = inr rows
  end.
Proof.
  intros blobs run _. subst run.
  rewrite Trial5FolderFacts.parse_trial5_data_result. fold blobs.
  assert (Hfind : forall k,
            list_find (fun x : nat * string =>
                         is_Some (Trial5FolderFacts.failure json_loads x.2))
              (imap (fun i m => (S (k + i), m)) blobs)
            = (fun jm => (jm.1, (S (k + jm.1), jm.2)))
                <$> list_find (fun m => is_Some (Trial5FolderFacts.failure json_loads m))
                      blobs).
  { induction blobs as [|m ms IH]; intros k; [done|].
    cbn [imap list_find]. simpl.
    destruct (decide (is_Some (Trial5FolderFacts.failure json_loads m))).
    - simpl. by rewrite Nat.add_0_r.
    - rewrite (imap_ext _ (fun i m => (S (S k + i), m))) by (intros; simpl; do 2 f_equal; lia).
      rewrite IH. destruct (list_find _ ms) as [[j m']|]; simpl; [|done].
      do 3 f_equal. lia. }
  specialize (Hfind 0%nat). simpl in Hfind. rewrite Hfind. clear Hfind.
  destruct (list_find _ blobs) as [[j m]|] eqn:Hm; simpl.
  2: { destruct (existsb _ _); eauto. }
  apply list_find_Some in Hm as (_ & [e He] & _).
  exists e. rewrite He. split; [done|]. split; [done|].
  unfold Trial5FolderFacts.failure, Trial5FolderFacts.entry_line in He.
  destruct (json_loads m) as [[]|data];
    [done|injection He as <-; set_solver|injection He as <-; set_solver|].
  unfold mbind, res_bind in He.
  destruct (format_1f (dget data "totalSizeMB" (PInt 0))) as [e1|[]] eqn:H1.
  { injection He as <-. apply JsonFacts.format_1f_exn in H1. set_solver. }
  destruct (format_1f (dget data "avgDirectoryDepth" (PInt 0))) as [e2|[]] eqn:H2; [|done].
  injection He as <-. apply JsonFacts.format_1f_exn in H2. set_solver.
Qed.

Definition trial5_entry (blob : string) : string :=
  microscope_1252 +:+ " FOLDER_ANALYSIS_DATA: " +:+ blob.
Definition log_two_blobs : string :=
  lines [trial5_entry "{oops}"; trial5_entry (json_total_files "7")].

(** X14 on two entries of which the first is not JSON: the record of the
    second carries the number 2. *)
Lemma X14_trial5_entries_witness :
  [ ({[ "totalFiles" := PInt 7 ]} : gmap string pyval) ∪ {[ "TestRun" := PInt 2 ]} ]
  = omap (fun x : nat * string =>
            match json_loads_three x.2 with
            | inr data => Some (data ∪ {[ "TestRun" := PInt (Z.of_nat x.1) ]})
            | inl _ => None
            end)
         (imap (fun i m => (S i, m)) (Trial5Parser.folder_matches log_two_blobs))
  ∧ [] = Trial5Parser.trow_dict <$> Trial5Parser.timing_rows log_two_blobs.
Proof.
  apply (X14_trial5_entries_are_numbered_by_position json_loads_three log_two_blobs).
  vm_compute. reflexivity.
Defined.

(** X15 on the same two entries: no blob stops the loop and the log
    has no timing, so the call returns. *)
Lemma X15_trial5_parse_witness :
  match list_find (fun m => is_Some (Trial5FolderFacts.failure json_loads_three m))
          (Trial5Parser.folder_matches log_two_blobs) with
  | Some (_, m) =>
      exists e,
        Trial5FolderFacts.failure json_loads_three m = Some e
        ∧ result (Trial5Parser.parse_trial5_data json_loads_three log_two_blobs) = inl e
        ∧ e ∈ [RecursionError; ValueError; TypeError; OverflowError]
  | None =>
      if existsb (fun m => too_long (snd m))
           (IntFacts.from_first_start (Trial5Parser.timing_matches log_two_blobs))
      then result (Trial5Parser.parse_trial5_data json_loads_three log_two_blobs)
           = inl ValueError
      else exists rows,
             result (Trial5Parser.parse_trial5_data json_loads_three log_two_blobs)
             = inr rows
  end.
Proof.
  apply (X15_trial5_parse_stops_at_the_first_failure json_loads_three log_two_blobs).
  intros m data s _. unfold json_loads_three.
  destruct (String.eqb m (json_total_files "3")); [by intros [= <-]|].
  destruct (String.eqb m (json_total_files "7")); [by intros [= <-]|done].
Defined.

(** ** What a run prints and which files it opens *)
Module EffectFacts.

Definition is_print (o : effect) : Prop := exists fmt args, o = Print fmt args.

(** The files a run opens for writing, in the order of the calls. *)
Definition opened (out : list effect) : list string :=
  omap (fun o => match o with Open path => Some path | _ => None end) out.

(** The rows a run writes to a file, in the order of the calls. *)
Definition written (path : string) (out : list effect) : list (list pyval) :=
  omap (fun o => match o with
                 | WriteRow path' cells => if String.eqb path' path then Some cells else None
                 | _ => None
                 end) out.

Lemma opened_app out1 out2 : opened (out1 ++ out2) = opened out1 ++ opened out2.
Proof. apply omap_app. Qed.

Lemma opened_prints out : Forall is_print out -> opened out = [].
Proof.
  induction 1 as [|o out (fmt & args & ->) _ IH]; [done|]. exact IH.
Qed.

Lemma written_app path out1 out2 :
  written path (out1 ++ out2) = written path out1 ++ written path out2.
Proof. apply omap_app. Qed.

Lemma written_prints path out : Forall is_print out -> written path out = [].
Proof.
  induction 1 as [|o out (fmt & args & ->) _ IH]; [done|]. exact IH.
Qed.

Lemma is_print_Print fmt args : is_print (Print fmt args).
Proof. by eexists _, _. Qed.

(** A loop whose body only prints. *)
Lemma for_each_prints {S A} (body : A -> py S unit) (l : list A) (s : S) :
  (forall x s, exists out, body x s = (inr tt, s, out) ∧ Forall is_print out) ->
  exists out, for_each body l s = (inr tt, s, out) ∧ Forall is_print out.
Proof.
  intros Hbody. induction l as [|x l (out & IH & Hout)].
  - exists []. by split.
  - destruct (Hbody x s) as (out1 & Hx & Hout1).
    exists (out1 ++ out). cbn [for_each]. unfold bind. rewrite Hx, IH.
    split; [done|]. by apply Forall_app.
Qed.

(** A statement that only prints: it does not raise and leaves the
    locals as they are. *)
Definition quiet {S A} (m : py S A) : Prop :=
  forall s, exists x out, m s = (inr x, s, out) ∧ Forall is_print out.

Lemma quiet_ret {S A} (x : A) : quiet (mret x : py S A).
Proof. intros s. by exists x, []. Qed.

Lemma quiet_print {S} fmt args : quiet (print fmt args : py S unit).
Proof.
  intros s. exists tt, [Print fmt args]. split; [done|].
  constructor; [apply is_print_Print|done].
Qed.

Lemma quiet_bind {S A B} (m : py S A) (f : A -> py S B) :
  quiet m -> (forall x, quiet (f x)) -> quiet (m ≫= f).
Proof.
  intros Hm Hf s. destruct (Hm s) as (x & out1 & Hx & Hout1).
  destruct (Hf x s) as (y & out2 & Hy & Hout2).
  exists y, (out1 ++ out2). unfold mbind, py_bind, bind. rewrite Hx, Hy.
  split; [done|]. by apply Forall_app.
Qed.

Lemma quiet_for_each {S A} (body : A -> py S unit) (l : list A) :
  (forall x, quiet (body x)) -> quiet (for_each body l).
Proof.
  intros Hbody. induction l as [|x l IH]; [apply quiet_ret|].
  apply (quiet_bind (body x) (fun _ => for_each body l)); [apply Hbody|done].
Qed.

Lemma def_quiet {S} (m : py S unit) (locals : S) :
  quiet m -> exists out, def locals m = (inr tt, out) ∧ Forall is_print out.
Proof.
  intros Hm. destruct (Hm locals) as ([] & out & Hrun & ?). exists out.
  unfold def. by rewrite Hrun.
Qed.

Lemma quiet_unit {S} (m : py S unit) (s : S) :
  quiet m -> exists out, m s = (inr tt, s, out) ∧ Forall is_print out.
Proof. intros Hm. destruct (Hm s) as ([] & out & ? & ?). eauto. Qed.
End EffectFacts.

#[local] Hint Resolve EffectFacts.is_print_Print : core.

(** ** improved_parser.py *)
Module ImprovedFacts.
Import ImprovedParser EffectFacts.

(** The field loop without its prints. *)
Fixpoint fields (fps : list (string * re)) (m : string) (data : gmap string pyval)
    : exn + gmap string pyval :=
  match fps with
  | [] => inr data
  | (field, pat) :: fps' =>
      match field_value field pat m with
      | inr (v, _) => fields fps' m (<[field := v]> data)
      | inl e => inl e
      end
  end.

Lemma extract_fields_spec {S} fps m data (s : S) :
  exists out,
    extract_fields fps m data s = (fields fps m data, s, out) ∧ Forall is_print out.
Proof.
  revert data. induction fps as [|[field pat] fps IH]; intros data.
  - exists []. by split.
  - cbn [extract_fields fields]. unfold mbind, py_bind, bind, lift.
    destruct (field_value field pat m) as [e|[v is_default]]; [by exists []|].
    unfold print, emit. destruct (IH (<[field := v]> data)) as (out & -> & Hout).
    eexists. split; [reflexivity|]. simpl. constructor; [|done]. eauto.
Qed.

Lemma improved_field_value_fails field pat m e :
  field_value field pat m = inl e
  <-> exists mo,
        search pat m = Some mo
        ∧ if bool_decide (field ∈ float_fields) then float_ (group1 mo) = inl e
          else too_long (group1 mo) = true ∧ e = ValueError.
Proof.
  unfold field_value, int_checked. destruct (search pat m) as [mo|].
  - case_bool_decide as Hf.
    + unfold mbind, res_bind, mret, res_ret.
      destruct (float_ (group1 mo)) as [e'|f] eqn:Hfl.
      * split; [intros [= <-]; eauto|]. intros (mo' & [= <-] & Hmo). congruence.
      * split; [done|]. intros (mo' & [= <-] & Hmo). congruence.
    + unfold mbind, res_bind, mret, res_ret.
      destruct (too_long (group1 mo)) eqn:Hlong;
        (split; [intros [= <-]; eauto|]); intros (mo' & [= <-] & Hmo & He);
        congruence.
  - split; [done|]. by intros (mo & ? & _).
Qed.

Lemma fields_fails fps m d :
  (exists e, fields fps m d = inl e)
  <-> Exists (fun fp => exists e, field_value fp.1 fp.2 m = inl e) fps.
Proof.
  revert d. induction fps as [|[field pat] fps IH]; intros d; simpl.
  - rewrite Exists_nil. split; [by intros [? ?]|done].
  - rewrite Exists_cons. simpl.
    destruct (field_value field pat m) as [e|[v b]] eqn:Hv.
    + split; eauto.
    + rewrite IH. split; [by right|]. by intros [[? ?]|?].
Qed.

Lemma fields_exn fps m d e : fields fps m d = inl e -> e = ValueError.
Proof.
  revert d. induction fps as [|[field pat] fps IH]; intros d; simpl; [done|].
  destruct (field_value field pat m) as [e'|[v b]] eqn:Hv; [|by apply IH].
  intros [= <-]. apply improved_field_value_fails in Hv as (mo & _ & Hconv).
  destruct (bool_decide (field ∈ float_fields)).
  - by apply SkipFacts.float_exn in Hconv.
  - by destruct Hconv.
Qed.

(** A blob is malformed when a conversion fails in it: the text one of
    the four float patterns captures in it is no float literal, or the
    text one of the seven integer patterns captures has more digits
    than [int] converts. *)
Definition malformed (m : string) : Prop :=
  exists field pat mo,
    (field, pat) ∈ field_patterns
    ∧ search pat m = Some mo
    ∧ if bool_decide (field ∈ float_fields) then float_ (group1 mo) = inl ValueError
      else too_long (group1 mo) = true.

Lemma fields_malformed m :
  (exists e, fields field_patterns m ∅ = inl e) <-> malformed m.
Proof.
  rewrite fields_fails. unfold malformed. split.
  - intros ([field pat] & Hin & e & Hv)%Exists_exists. simpl in Hv.
    apply improved_field_value_fails in Hv as (mo & Hs & Hconv).
    exists field, pat, mo. split; [done|]. split; [done|].
    destruct (bool_decide (field ∈ float_fields)).
    + by rewrite (SkipFacts.float_exn _ _ Hconv) in Hconv.
    + by destruct Hconv.
  - intros (field & pat & mo & Hin & Hs & Hconv).
    apply Exists_exists. exists (field, pat). split; [done|].
    exists ValueError. apply improved_field_value_fails. exists mo. split; [done|].
    cbn [fst snd].
    destruct (bool_decide (field ∈ float_fields)); [exact Hconv|].
    split; [exact Hconv|reflexivity].
Qed.

#[global] Instance malformed_dec m : Decision (malformed m).
Proof.
  destruct (fields field_patterns m ∅) as [e|data] eqn:Hf.
  - left. apply fields_malformed. eauto.
  - right. intros [e He]%fields_malformed. congruence.
Defined.

(** The types of a record's fields. *)
Definition typed (record : gmap string pyval) : Prop :=
  forall field v,
    field ∈ field_patterns.*1 -> record !! field = Some v ->
    if bool_decide (field ∈ float_fields) then TypeFacts.is_float v else TypeFacts.is_int v.

Lemma fields_typed fps m d data :
  fields fps m d = inr data ->
  (forall f v, d !! f = Some v ->
     if bool_decide (f ∈ float_fields) then TypeFacts.is_float v else TypeFacts.is_int v) ->
  (forall f v, data !! f = Some v ->
     if bool_decide (f ∈ float_fields) then TypeFacts.is_float v else TypeFacts.is_int v)
  ∧ dom data = list_to_set fps.*1 ∪ dom d.
Proof.
  revert d. induction fps as [|[field pat] fps IH]; intros d; simpl.
  - intros [= <-] Hd. split; [done|]. set_solver.
  - destruct (field_value field pat m) as [e|[v b]] eqn:Hv; [done|].
    intros Hf Hd. apply IH in Hf as [Ht Hdom].
    + split; [done|]. rewrite Hdom, dom_insert_L. set_solver.
    + intros f v'. rewrite lookup_insert. case_decide as Hfield; [|apply Hd].
      subst f. intros [= <-].
      destruct (TypeFacts.improved_parser_field _ _ _ _ _ Hv) as [Hfl Hin].
      case_bool_decide; [by apply Hfl|by apply Hin].
Qed.

(** The record made from a blob that is not malformed. *)
Definition record (n : nat) (m : string) : option (gmap string pyval) :=
  match fields field_patterns m ∅ with
  | inr data =>
      match ParseConsoleLog.folder_row n data with inr row => Some row | inl _ => None end
  | inl _ => None
  end.

Lemma record_spec n m :
  ¬ malformed m ->
  exists data row,
    fields field_patterns m ∅ = inr data
    ∧ ParseConsoleLog.folder_row n data = inr row
    ∧ record n m = Some row
    ∧ row !! "TestRun#" = Some (PInt (Z.of_nat n))
    ∧ (forall field, field ∈ field_patterns.*1 -> row !! field = data !! field)
    ∧ dom row =@{gset string} list_to_set fieldnames
    ∧ typed row.
Proof.
  intros Hm. unfold record.
  destruct (fields field_patterns m ∅) as [e|data] eqn:Hd.
  { exfalso. apply Hm, fields_malformed. eauto. }
  destruct (fields_typed _ _ _ _ Hd) as [Ht Hdom]; [by intros ??; rewrite lookup_empty|].
  assert (Hall : Forall (fun f => is_Some (data !! f)) field_patterns.*1).
  { apply Forall_forall. intros f Hf. apply elem_of_dom. rewrite Hdom.
    by apply elem_of_union_l, elem_of_list_to_set. }
  simpl in Hall. repeat (apply Forall_cons in Hall as [[? ?] Hall]).
  exists data. unfold ParseConsoleLog.folder_row, getitem.
  repeat match goal with
         | H : data !! ?k = Some _ |- context [data !! ?k] => rewrite H
         end.
  eexists. split; [reflexivity|]. split; [reflexivity|]. split; [reflexivity|].
  split; [by simplify_map_eq|].
  assert (Hcopy : forall field,
            field ∈ field_patterns.*1 ->
            (<["TestRun#":=PInt (Z.of_nat n)]>
               (<["timestamp":=x]>
                  (<["totalFiles":=x0]>
                     (<["duplicateCandidateCount":=x1]>
                        (<["duplicateCandidatePercent":=x2]>
                           (<["uniqueFilesSizeMB":=x3]>
                              (<["duplicateCandidatesSizeMB":=x4]>
                                 (<["totalSizeMB":=x5]>
                                    (<["totalDirectoryCount":=x6]>
                                       (<["maxDirectoryDepth":=x7]>
                                          (<["uniqueFilesTotal":=x9]>
                                             (<["avgDirectoryDepth":=x8]> ∅)))))))))))
               : gmap string pyval) !! field = data !! field).
  { intros f Hf. simpl in Hf.
    repeat (apply elem_of_cons in Hf as [->|Hf]); try by simplify_map_eq.
    by apply elem_of_nil in Hf. }
  split; [exact Hcopy|]. split.
  - by rewrite !dom_insert_L, dom_empty_L.
  - intros field v Hfield. rewrite (Hcopy field Hfield). apply Ht.
Qed.

Lemma record_malformed n m : malformed m -> record n m = None.
Proof.
  intros [e He]%fields_malformed. unfold record. by rewrite He.
Qed.

Lemma improved_folder_body_spec i m rows n :
  exists out,
    Forall is_print out
    ∧ folder_body (i, m) (rows, n)
      = match record n m with
        | Some row => (inr tt, (rows ++ [row], S n), out)
        | None => (inl ValueError, (rows, n), out)
        end.
Proof.
  unfold folder_body. unfold mbind, py_bind, bind, print, emit, get, put, lift.
  destruct (extract_fields_spec field_patterns m ∅ (rows, n)) as (out & -> & Hout).
  destruct (decide (malformed m)) as [Hm|Hm].
  - rewrite (record_malformed n m Hm).
    apply fields_malformed in Hm as [e He]. rewrite He.
    apply fields_exn in He as ->. eexists. split; [|reflexivity].
    simpl. repeat constructor; eauto.
  - destruct (record_spec n m Hm) as (data & row & -> & -> & -> & _).
    eexists. split; [|reflexivity]. simpl. rewrite app_nil_r. repeat constructor; eauto.
Qed.

(** The records of a list of blobs, numbered from [n], when none of
    them is malformed. *)
Fixpoint records (n : nat) (ms : list string) : option (list (gmap string pyval)) :=
  match ms with
  | [] => Some []
  | m :: ms' =>
      match record n m, records (S n) ms' with
      | Some row, Some rows => Some (row :: rows)
      | _, _ => None
      end
  end.

Lemma improved_folder_loop k ms rows n :
  exists out st,
    Forall is_print out
    ∧ for_each folder_body (imap (fun i m => ((k + i)%nat, m)) ms) (rows, n)
      = match records n ms with
        | Some rs => (inr tt, (rows ++ rs, (n + length ms)%nat), out)
        | None => (inl ValueError, st, out)
        end.
Proof.
  revert k rows n. induction ms as [|m ms IH]; intros k rows n.
  - exists [], (rows, n). split; [done|]. simpl. by rewrite app_nil_r, Nat.add_0_r.
  - cbn [imap for_each records]. unfold bind.
    destruct (improved_folder_body_spec (k + 0) m rows n) as (out1 & Hout1 & ->).
    destruct (record n m) as [row|]; [|by exists out1, (rows, n)].
    rewrite (imap_ext _ (fun i m => ((S k + i)%nat, m)))
      by (intros; simpl; f_equal; lia).
    destruct (IH (S k) (rows ++ [row]) (S n)) as (out2 & st & Hout2 & ->).
    destruct (records (S n) ms) as [rs|].
    + exists (out1 ++ out2), st. split; [by apply Forall_app|].
      rewrite <- app_assoc. simpl. do 3 f_equal. lia.
    + exists (out1 ++ out2), st. split; [by apply Forall_app|]. done.
Qed.

Lemma records_Some n ms : Forall (fun m => ¬ malformed m) ms -> is_Some (records n ms).
Proof.
  intros Hms. revert n. induction Hms as [|m ms Hm _ IH]; intros n; simpl; [eauto|].
  destruct (record_spec n m Hm) as (_ & row & _ & _ & -> & _).
  by destruct (IH (S n)) as [rs ->].
Qed.

Lemma records_None n ms : Exists malformed ms -> records n ms = None.
Proof.
  intros Hms. revert n. induction Hms as [m ms Hm|m ms _ IH]; intros n; simpl.
  - by rewrite record_malformed.
  - rewrite IH. by destruct (record n m).
Qed.

Lemma records_spec n ms rs :
  records n ms = Some rs ->
  Forall2 (fun k row =>
             row !! "TestRun#" = Some (PInt (Z.of_nat k))
             ∧ dom row =@{gset string} list_to_set fieldnames
             ∧ typed row)
    (seq n (length ms)) rs.
Proof.
  revert n rs. induction ms as [|m ms IH]; intros n rs; simpl.
  - intros [= <-]. constructor.
  - destruct (record n m) as [row|] eqn:Hrow; [|done].
    destruct (records (S n) ms) as [rows|] eqn:Hrows; [|done].
    intros [= <-]. constructor; [|by apply IH].
    destruct (decide (malformed m)) as [Hm|Hm].
    { by rewrite record_malformed in Hrow. }
    destruct (record_spec n m Hm) as (_ & row' & _ & _ & Hrow' & ? & _ & ? & ?).
    by simplify_eq.
Qed.

(** The outcome of extract_complete_folder_data. *)
Lemma extract_complete_folder_data_eq content :
  exists out,
    Forall is_print out
    ∧ extract_complete_folder_data content
      = (match records 1 (matches content) with
         | Some rs => inr rs
         | None => inl ValueError
         end, out).
Proof.
  unfold extract_complete_folder_data, def.
  unfold mbind, mret, py_bind, py_ret, bind, ret, print, emit, get.
  destruct (improved_folder_loop 0 (matches content) [] 1) as (out & st & Hout & Hloop).
  simpl in Hloop. rewrite Hloop.
  destruct (records 1 (matches content)) as [rs|].
  - eexists. split; [|reflexivity]. simpl. rewrite app_nil_r. constructor; eauto.
  - destruct st. eexists. split; [|reflexivity]. simpl. constructor; eauto.
Qed.
End ImprovedFacts.

(** X16.  extract_complete_folder_data has no except clause.  When one
    of the matched blobs is malformed (the text captured for a size or
    depth field is no float literal, or the text captured for an
    integer field has more digits than [int] converts), the call ends
    with ValueError and returns nothing.  Otherwise it returns one record per matched blob,
    numbered 1..n in the order of the log; each record has exactly the
    twelve columns main writes, with a float in each of the four float
    fields and an int in each of the others. *)
Theorem X16_improved_parser_is_all_or_nothing (content : string) :
  let blobs := ImprovedParser.matches content in
  if decide (Exists ImprovedFacts.malformed blobs)
  then result (ImprovedParser.extract_complete_folder_data content) = inl ValueError
  else exists rows,
         result (ImprovedParser.extract_complete_folder_data content) = inr rows
         ∧ Forall2 (fun k row =>
                      row !! "TestRun#" = Some (PInt (Z.of_nat k))
                      ∧ dom row =@{gset string} list_to_set ImprovedParser.fieldnames
                      ∧ ImprovedFacts.typed row)
             (seq 1 (length blobs)) rows.
Proof.
  intros blobs.
  destruct (ImprovedFacts.extract_complete_folder_data_eq content) as (out & _ & ->).
  fold blobs. unfold result. cbn [fst].
  destruct (decide (Exists ImprovedFacts.malformed blobs)) as [Hex|Hex].
  - by rewrite ImprovedFacts.records_None.
  - apply not_Exists_Forall in Hex; [|intros m; apply _].
    destruct (ImprovedFacts.records_Some 1 blobs Hex) as [rs Hrs]. rewrite Hrs.
    exists rs. split; [done|]. by apply ImprovedFacts.records_spec.
Qed.

Module ImprovedMainFacts.
Import ImprovedParser EffectFacts ImprovedFacts.

Lemma show_line_quiet {S} lines x : quiet (show_line lines x : py S unit).
Proof.
  destruct x as [i line]. unfold show_line.
  destruct (contains sentinel line); [|apply quiet_ret].
  apply quiet_bind; [apply quiet_print|]. intros _.
  apply quiet_for_each. intros j.
  case_bool_decide; [apply quiet_print|apply quiet_ret].
Qed.

Lemma show_sample_matches_prints content :
  exists out, show_sample_matches content = (inr tt, out) ∧ Forall is_print out.
Proof.
  unfold show_sample_matches. apply def_quiet.
  apply quiet_bind; [apply quiet_print|]. intros _.
  apply quiet_for_each. intros x. apply show_line_quiet.
Qed.

Lemma show_record_quiet {S} x : quiet (show_record x : py S unit).
Proof.
  destruct x as [i record]. unfold show_record.
  apply quiet_bind; [apply quiet_print|]. intros _.
  apply quiet_for_each. intros field. apply quiet_print.
Qed.

Lemma records_fit n ms rs :
  records n ms = Some rs -> Forall (CsvFacts.fits fieldnames) rs.
Proof.
  intros Hrs%records_spec. apply Forall_forall. intros row Hrow.
  apply list_elem_of_lookup in Hrow as [j Hj].
  destruct (Forall2_lookup_r _ _ _ _ _ Hrs Hj) as (k & _ & _ & Hdom & _).
  unfold CsvFacts.fits. by rewrite Hdom.
Qed.

(** The run of [main] on an existing file. *)
Lemma main_on_file w argv content :
  length argv = 2%nat ->
  Os.file_text w (default "" (argv !! 1%nat)) = Some content ->
  let output_file :=
    Os.path_sibling w (default "" (argv !! 1%nat)) "4_ImprovedFolderData.csv" in
  exists pre post,
    Forall is_print pre ∧ Forall is_print post
    ∧ main w argv
      = match records 1 (matches content) with
        | None => (inl ValueError, pre)
        | Some [] => (inr tt, pre)
        | Some rows =>
            (inr tt,
             pre ++ Open output_file :: WriteRow output_file (PStr <$> fieldnames)
                 :: ((fun r => WriteRow output_file (CsvFacts.cells fieldnames r)) <$> rows)
                 ++ post)
        end.
Proof.
  intros Hargc Hfile output_file. unfold main, def.
  rewrite bool_decide_eq_false_2 by (intros ?; done).
  unfold Os.path_exists. rewrite Hfile.
  rewrite bool_decide_eq_true_2 by eauto. cbn [negb].
  change (default "" (Some content)) with content.
  destruct (show_sample_matches_prints content) as (out1 & Hshow & Hout1).
  destruct (extract_complete_folder_data_eq content) as (out2 & Hout2 & Hextract).
  unfold mbind, mret, py_bind, py_ret, bind, ret, print, call, Csv.writeheader, emit.
  rewrite Hshow, Hextract. cbv beta iota zeta. cbn [fst snd].
  destruct (records 1 (matches content)) as [[|row rows]|] eqn:Hrs.
  - rewrite bool_decide_eq_false_2 by (intros ?; done).
    exists ([Print "=== DEBUGGING PARSER ===" []] ++ out1
              ++ [Print "\n=== EXTRACTING DATA ===" []] ++ out2), [].
    split; [|split; [done|]].
    + constructor; [eauto|]. apply Forall_app. split; [done|]. constructor; [eauto|done].
    + cbv beta iota zeta. by rewrite !app_nil_r.
  - rewrite bool_decide_eq_true_2 by done.
    fold output_file.
    rewrite (CsvFacts.writerows_fits output_file fieldnames (row :: rows) tt)
      by (by eapply records_fit).
    destruct (quiet_unit (for_each show_record
                            (imap (fun i record => (i, record)) (take 3 (row :: rows)))) tt)
      as (out3 & -> & Hout3); [apply quiet_for_each; intros; apply show_record_quiet|].
    cbv beta iota zeta.
    exists ([Print "=== DEBUGGING PARSER ===" []] ++ out1
              ++ [Print "\n=== EXTRACTING DATA ===" []] ++ out2).
    exists ([Print "\n=== RESULTS ===" [];
             Print "Extracted {} records" [N (length (row :: rows))];
             Print "Saved to: {}" [V (PStr output_file)];
             Print "\nFirst few records:" []] ++ out3).
    split; [|split].
    + constructor; [eauto|]. apply Forall_app. split; [done|]. constructor; [eauto|done].
    + repeat (constructor; [eauto|]). done.
    + f_equal. rewrite <- !app_assoc. reflexivity.
  - exists ([Print "=== DEBUGGING PARSER ===" []] ++ out1
              ++ [Print "\n=== EXTRACTING DATA ===" []] ++ out2), [].
    split; [|split; [done|]].
    + constructor; [eauto|]. apply Forall_app. split; [done|]. constructor; [eauto|done].
    + reflexivity.
Qed.

Lemma main_usage w argv :
  length argv ≠ 2%nat ->
  main w argv
  = (inl (SystemExit 1), [Print "Usage: python improved_parser.py input_file.md" []]).
Proof. intros Hargc. unfold main, def. by rewrite bool_decide_eq_true_2. Qed.

Lemma main_not_found w argv :
  length argv = 2%nat ->
  Os.path_exists w (default "" (argv !! 1%nat)) = false ->
  main w argv
  = (inl (SystemExit 1),
     [Print "Error: Input file not found: {}" [V (PStr (default "" (argv !! 1%nat)))]]).
Proof.
  intros Hargc Hw. unfold main, def.
  rewrite bool_decide_eq_false_2 by (intros ?; done). by rewrite Hw.
Qed.

Lemma records_length n ms rs : records n ms = Some rs -> length rs = length ms.
Proof.
  intros Hrs%records_spec. apply Forall2_length in Hrs. by rewrite length_seq in Hrs.
Qed.
End ImprovedMainFacts.

(** X17.  improved_parser.py ends with status 0 exactly when it is given
    one argument, the file exists and no matched blob is malformed (no
    text captured for a size or depth field that is no float literal,
    and none captured for an integer field with more digits than [int]
    converts); a malformed blob ends the run with the ValueError of
    extract_complete_folder_data.  The one file it opens for writing is
    4_ImprovedFolderData.csv beside the input, and it opens it only in a
    run that ends with status 0 on a log with at least one matched
    blob. *)
Theorem X17_improved_parser_exit_status_and_file (w : Os.world) (argv : list string) :
  let input_path := default "" (argv !! 1%nat) in
  let blobs := ImprovedParser.matches (default "" (Os.file_text w input_path)) in
  let run := ImprovedParser.main w argv in
  exit_code run
  = (if bool_decide (length argv = 2%nat ∧ Os.path_exists w input_path = true
                     ∧ ¬ Exists ImprovedFacts.malformed blobs)
     then 0 else 1)%Z
  ∧ EffectFacts.opened (output run)
    = if bool_decide (length argv = 2%nat ∧ Os.path_exists w input_path = true
                      ∧ ¬ Exists ImprovedFacts.malformed blobs ∧ blobs ≠ [])
      then [Os.path_sibling w input_path "4_ImprovedFolderData.csv"]
      else [].
Proof.
  intros input_path blobs run. unfold run.
  destruct (decide (length argv = 2%nat)) as [Hargc|Hargc]; cycle 1.
  { rewrite ImprovedMainFacts.main_usage by done.
    rewrite !bool_decide_eq_false_2 by (by intros [? _]). done. }
  destruct (Os.path_exists w input_path) eqn:Hw; cycle 1.
  { rewrite ImprovedMainFacts.main_not_found by done.
    rewrite !bool_decide_eq_false_2 by (by intros (_ & ? & _)). done. }
  assert (exists content, Os.file_text w input_path = Some content) as [content Hfile].
  { unfold Os.path_exists in Hw. by apply bool_decide_eq_true in Hw as [content ?]; eauto. }
  destruct (ImprovedMainFacts.main_on_file w argv content Hargc Hfile)
    as (pre & post & Hpre & Hpost & ->).
  unfold blobs. rewrite Hfile. change (default "" (Some content)) with content.
  destruct (decide (Exists ImprovedFacts.malformed (ImprovedParser.matches content)))
    as [Hex|Hex].
  { rewrite ImprovedFacts.records_None by done.
    rewrite !bool_decide_eq_false_2 by (by intros (_ & _ & ? & _) || by intros (_ & _ & ?)).
    split; [done|]. by apply EffectFacts.opened_prints. }
  pose proof Hex as Hall. apply not_Exists_Forall in Hall; [|intros m; apply _].
  destruct (ImprovedFacts.records_Some 1 _ Hall) as [rs Hrs]. rewrite Hrs.
  pose proof (ImprovedMainFacts.records_length _ _ _ Hrs) as Hlen.
  rewrite (bool_decide_eq_true_2 (_ ∧ _ ∧ ¬ _)) by done.
  destruct rs as [|row rows].
  - split; [done|]. rewrite bool_decide_eq_false_2.
    + by apply EffectFacts.opened_prints.
    + intros (_ & _ & _ & Hne). apply Hne. by apply nil_length_inv.
  - split; [done|]. rewrite bool_decide_eq_true_2.
    + unfold output. cbn [snd]. rewrite EffectFacts.opened_app.
      rewrite (EffectFacts.opened_prints pre) by done. simpl.
      rewrite EffectFacts.opened_app, (EffectFacts.opened_prints post) by done.
      rewrite app_nil_r. f_equal.
      clear. induction rows as [|r rows IH]; [done|]. exact IH.
    + repeat split; try done. intros Hnil. rewrite Hnil in Hlen. done.
Qed.

(** ** The execution mode of a run *)
Module ModeFacts.
Import ParseConsoleLog TimingFacts.

(** The byte offsets of the boundary markers, in the order of the loop. *)
Definition marker_offsets (ms : list tmatch) : list nat := pos <$> List.filter is_start ms.

Lemma marker_offsets_snoc ms m :
  marker_offsets (ms ++ [m]) = marker_offsets ms ++ (if is_start m then [pos m] else []).
Proof.
  unfold marker_offsets. rewrite List.filter_app, fmap_app. simpl.
  by destruct (is_start m).
Qed.

Lemma length_marker_offsets ms : length (marker_offsets ms) = count_starts ms.
Proof. unfold marker_offsets, count_starts. by rewrite length_fmap. Qed.

(** [test_run_positions] holds, for run k, the offset of the k-th marker. *)
Lemma position_stored ms k :
  (k < count_starts ms)%nat ->
  test_run_positions (group_events ms) !! S k = marker_offsets ms !! k.
Proof.
  induction ms as [|m ms IH] using rev_ind; [unfold count_starts; simpl; lia|].
  rewrite count_starts_snoc, marker_offsets_snoc, group_events_snoc. intros Hk.
  pose proof (current_test_run_count ms) as Hcur.
  pose proof (length_marker_offsets ms) as Hlen.
  unfold group_step. destruct (is_start m) eqn:Hm.
  - cbn [Nat.ltb Nat.leb current_test_run test_run_positions]. rewrite Hcur.
    destruct (decide (k = count_starts ms)) as [->|Hne].
    + rewrite lookup_app_r by lia. rewrite Hlen, Nat.sub_diag. simpl.
      by rewrite lookup_insert_eq.
    + rewrite lookup_app_l by lia. rewrite lookup_insert_ne by lia. apply IH. lia.
  - rewrite app_nil_r.
    destruct (0 <? current_test_run (group_events ms))%nat;
      cbn [test_run_positions]; apply IH; lia.
Qed.

(** The mode column of rows made, run by run, by a function whose
    mode is [mode] at the position recorded for the run. *)
Lemma mode_column (make : nat -> row) (mode : nat -> bool) ms :
  (forall run,
     isWorkerMode (make run)
     = mode (default 0%nat (test_run_positions (group_events ms) !! run))) ->
  isWorkerMode <$> (make <$> sorted_keys (test_run_data (group_events ms)))
  = mode <$> marker_offsets ms.
Proof.
  intros Hmake. rewrite RunFacts.run_numbers, <- list_fmap_compose.
  apply list_eq. intros k. rewrite !list_lookup_fmap.
  destruct (decide (k < count_starts ms)%nat) as [Hk|Hk].
  - rewrite lookup_seq_lt by done. simpl. rewrite Hmake.
    rewrite (position_stored _ k Hk).
    destruct (marker_offsets ms !! k) eqn:Hoff; [done|].
    apply lookup_ge_None in Hoff. rewrite length_marker_offsets in Hoff. lia.
  - rewrite lookup_seq_ge by lia. simpl. symmetry.
    rewrite (proj2 (lookup_ge_None _ _)); [done|]. rewrite length_marker_offsets. lia.
Qed.

(** A row with its execution mode replaced. *)
Definition with_mode (b : bool) (r : row) : row :=
  {| Test_Run := Test_Run r;
     isWorkerMode := b;
     totalDurationMs := totalDurationMs r;
     phase1FileAnalysisMs := phase1FileAnalysisMs r;
     phase2HashProcessingMs := phase2HashProcessingMs r;
     phase3UIRenderingMs := phase3UIRenderingMs r;
     PROCESSING_START := PROCESSING_START r;
     DEDUPLICATION_START := DEDUPLICATION_START r;
     UI_UPDATE_START := UI_UPDATE_START r;
     ALL_FILES_DISPLAYED := ALL_FILES_DISPLAYED r |}.
End ModeFacts.

(** X18.  In the newer parse_console_log.py the execution mode of run k
    is what detect_execution_mode finds at the byte offset of the k-th
    PROCESSING_START match. *)
Theorem X18_mode_is_detected_at_the_marker (content : string) :
  ParseConsoleLog.isWorkerMode <$> ParseConsoleLog.parse_timing_data content
  = ParseConsoleLog.detect_execution_mode content
      <$> ModeFacts.marker_offsets (ParseConsoleLog.all_matches content).
Proof.
  unfold ParseConsoleLog.parse_timing_data, ParseConsoleLog.rows_of.
  apply ModeFacts.mode_column. intros run.
  unfold ParseConsoleLog.make_row. cbn [ParseConsoleLog.isWorkerMode]. reflexivity.
Qed.

(** X19.  parse_timing_data of improved_parser_json.py raises ValueError
    on the logs on which parse_timing_data of the newer
    parse_console_log.py does (a matched timing has more digits than
    [int] converts), and otherwise returns the rows of that function,
    column for column, but for the execution mode: the mode of run k is
    True exactly when the 3000 characters from the k-th marker on hold
    the text 'Web Worker restart failed' or the text
    'fileHashWorker.js'. *)
Theorem X19_json_parser_timing_rows (content : string) :
  let mode offset :=
    contains "Web Worker restart failed" (slice offset 3000 content)
    || contains "fileHashWorker.js" (slice offset 3000 content) in
  ImprovedParserJson.parse_timing_data_checked content
  = match ParseConsoleLog.parse_timing_data_checked content with
    | inl e => inl e
    | inr rows =>
        inr (zip_with ModeFacts.with_mode
               (mode <$> ModeFacts.marker_offsets (ParseConsoleLog.all_matches content))
               rows)
    end.
Proof.
  intros mode.
  rewrite IntFacts.json_parse_timing_data_checked_eq,
    IntFacts.parse_timing_data_checked_eq.
  destruct (existsb too_long (ParseConsoleLog.timing_texts content)); [reflexivity|].
  f_equal.
  unfold ImprovedParserJson.parse_timing_data, ParseConsoleLog.parse_timing_data,
    ParseConsoleLog.rows_of.
  set (g := ParseConsoleLog.group_events (ParseConsoleLog.all_matches content)).
  rewrite <- (ModeFacts.mode_column
                (fun run =>
                   ImprovedParserJson.make_row content
                     (ParseConsoleLog.test_run_positions g) run
                     (default ∅ (ParseConsoleLog.test_run_data g !! run)))
                mode (ParseConsoleLog.all_matches content)).
  - fold g. generalize (ParseConsoleLog.sorted_keys (ParseConsoleLog.test_run_data g)).
    intros runs. induction runs as [|run runs IH]; [done|].
    rewrite !fmap_cons. cbn [zip_with]. rewrite <- IH. f_equal.
  - intros run. unfold ImprovedParserJson.make_row.
    cbn [ParseConsoleLog.isWorkerMode]. reflexivity.
Qed.

(** ** The files the command-line parsers write *)
Module TableFacts.
Import EffectFacts.

Lemma opened_Print fmt args out : opened (Print fmt args :: out) = opened out.
Proof. reflexivity. Qed.

Lemma opened_Open path out : opened (Open path :: out) = path :: opened out.
Proof. reflexivity. Qed.

Lemma opened_WriteRow path cells out : opened (WriteRow path cells :: out) = opened out.
Proof. reflexivity. Qed.

Lemma opened_rows {A} path (f : A -> list pyval) (rows : list A) :
  opened ((fun r => WriteRow path (f r)) <$> rows) = [].
Proof. induction rows as [|r rows IH]; [done|]. exact IH. Qed.

(** What the loop over the blobs prints. *)
Lemma spoken_prints attempt said l n :
  (forall n m, Forall is_print (said n m)) ->
  Forall is_print (LoopFacts.spoken attempt said l n).
Proof.
  intros Hsaid. revert n. induction l as [|m l IH]; intros n; simpl; [done|].
  apply Forall_app. split; [apply Hsaid|apply IH].
Qed.

(** The files a table is written to: none when it has no row. *)
Definition file_of {A} (rows : list A) (path : string) : list string :=
  match rows with [] => [] | _ :: _ => [path] end.

Lemma bool_decide_nonempty {A} (l : list A) :
  bool_decide (l ≠ []) = match l with [] => false | _ :: _ => true end.
Proof. destruct l; [by apply bool_decide_eq_false_2; intros ?|by apply bool_decide_eq_true_2]. Qed.

(** "if data: write_csv(data, path, fieldnames); ..." on a table that
    fits its header, where what follows the call in the branch, and the
    else branch, only print. *)
Lemma save_table {S} data path fieldnames (after otherwise : py S unit) (s : S) :
  Forall (CsvFacts.fits fieldnames) data ->
  quiet after ->
  quiet otherwise ->
  exists out,
    (if bool_decide (data ≠ []) then
       call (ParseConsoleLog.write_csv data path fieldnames);; after
     else otherwise) s
    = (inr tt, s, out)
    ∧ opened out = file_of data path.
Proof.
  intros Hfit Hafter Hquiet. rewrite bool_decide_nonempty. destruct data as [|r data].
  - destruct (quiet_unit otherwise s Hquiet) as (out & -> & Hout).
    exists out. split; [done|]. by apply opened_prints.
  - destruct (quiet_unit after s Hafter) as (out & Hrun & Hout).
    unfold mbind, py_bind, bind, call.
    rewrite (CsvFacts.write_csv_fits (r :: data) path fieldnames Hfit).
    cbv beta iota zeta. cbn [fst snd]. rewrite Hrun. eexists. split; [reflexivity|].
    cbn [app].
    repeat first [rewrite opened_app | rewrite opened_Open | rewrite opened_WriteRow
                 | rewrite opened_rows].
    by rewrite (opened_prints out Hout).
Qed.

Lemma filter_nil_existsb {A} (f : A -> bool) (l : list A) :
  List.filter f l = [] <-> existsb f l = false.
Proof.
  induction l as [|x l IH]; simpl; [done|]. destruct (f x); simpl; [|done].
  split; intros; discriminate.
Qed.

(** A table with as many rows as there are items that pass a test is
    written when some item passes. *)
Lemma file_of_filter {A B} (rows : list A) (f : B -> bool) (l : list B) path :
  length rows = length (List.filter f l) ->
  file_of rows path = if existsb f l then [path] else [].
Proof.
  intros Hlen. destruct (existsb f l) eqn:Hex.
  - destruct rows; [|done]. symmetry in Hlen. apply nil_length_inv in Hlen.
    apply filter_nil_existsb in Hlen. congruence.
  - apply filter_nil_existsb in Hex. rewrite Hex in Hlen. by destruct rows.
Qed.

Lemma file_of_length {A} (rows : list A) (n : nat) path :
  length rows = n ->
  file_of rows path = if bool_decide (0 < n)%nat then [path] else [].
Proof.
  intros <-. destruct rows; [done|]. cbn [file_of length].
  rewrite bool_decide_eq_true_2; [done|lia].
Qed.

Lemma file_of_fmap {A B} (f : A -> B) (rows : list A) path :
  file_of (f <$> rows) path = file_of rows path.
Proof. by destruct rows. Qed.
End TableFacts.

Module MainFileFacts.
Import ParseConsoleLog EffectFacts TableFacts.

Lemma kv_said_prints n m : Forall is_print (FolderFacts.said n m).
Proof.
  unfold FolderFacts.said. destruct (extract_fields field_patterns m ∅); repeat constructor.
  eauto.
Qed.

Lemma newer_main_usage w argv :
  length argv ≠ 2%nat ->
  main w argv
  = (inl (SystemExit 1), [Print "Usage: python parse_console_log.py input_file.md" []]).
Proof.
  intros Hargc. unfold main, def. rewrite (bool_decide_eq_true_2 (length argv ≠ 2%nat)) by done. reflexivity.
Qed.

Lemma newer_main_not_found w argv :
  length argv = 2%nat ->
  Os.path_exists w (default "" (argv !! 1%nat)) = false ->
  main w argv
  = (inl (SystemExit 1),
     [Print "Error: Input file not found: {}" [V (PStr (default "" (argv !! 1%nat)))]]).
Proof.
  intros Hargc Hw. unfold main, def.
  rewrite (bool_decide_eq_false_2 (length argv ≠ 2%nat)) by (intros ?; done). rewrite Hw. reflexivity.
Qed.

Lemma newer_main_on_file w argv content :
  length argv = 2%nat ->
  Os.file_text w (default "" (argv !! 1%nat)) = Some content ->
  let input_path := default "" (argv !! 1%nat) in
  let prefix := extract_filename_prefix w input_path in
  exists rows out,
    result (parse_folder_analysis_data content) = inr rows
    ∧ main w argv
      = (if existsb too_long (timing_texts content) then inl ValueError else inr tt, out)
    ∧ opened out
      = if existsb too_long (timing_texts content) then []
        else file_of rows
               (Os.path_sibling w input_path (prefix +:+ "_FolderAnalysisData.csv"))
             ++ file_of (parse_timing_data content)
                  (Os.path_sibling w input_path (prefix +:+ "_TestSpeedData.csv")).
Proof.
  intros Hargc Hfile input_path prefix. unfold main, def.
  rewrite (bool_decide_eq_false_2 (length argv ≠ 2%nat)) by (intros ?; done).
  unfold Os.path_exists. rewrite Hfile.
  rewrite (bool_decide_eq_true_2 (is_Some (Some content))) by eauto. cbn [negb].
  change (default "" (Some content)) with content.
  fold input_path. fold prefix.
  rewrite FolderFacts.kv_parse_folder_analysis_data_eq.
  rewrite IntFacts.parse_timing_data_checked_eq.
  set (rows := LoopFacts.kept FolderFacts.attempt (matches content) 1).
  set (warnings := LoopFacts.spoken FolderFacts.attempt FolderFacts.said (matches content) 1).
  assert (Hwarn : Forall is_print warnings).
  { apply spoken_prints. apply kv_said_prints. }
  exists rows.
  destruct (existsb too_long (timing_texts content)).
  { eexists. split; [reflexivity|].
    unfold mbind, py_bind, bind, mret, py_ret, ret, call, print, emit, lift.
    cbv beta iota zeta. cbn [fst snd]. split; [reflexivity|].
    cbn [app].
    repeat first [rewrite opened_app | rewrite opened_Print].
    by rewrite (opened_prints warnings Hwarn). }
  destruct (save_table rows
              (Os.path_sibling w input_path (prefix +:+ "_FolderAnalysisData.csv"))
              folder_fieldnames
              (print "Exported {} folder analysis records to CSV" [N (length rows)])
              (mret tt) tt) as (out1 & Hsave1 & Hopen1).
  { apply MainFacts.folder_rows_fit. }
  { apply quiet_print. }
  { apply quiet_ret. }
  destruct (save_table (row_dict <$> parse_timing_data content)
              (Os.path_sibling w input_path (prefix +:+ "_TestSpeedData.csv"))
              timing_fieldnames
              (print "Exported {} timing records with 3-stage measurements to CSV"
                 [N (length (row_dict <$> parse_timing_data content))])
              (mret tt) tt) as (out2 & Hsave2 & Hopen2).
  { apply MainFacts.timing_rows_fit. }
  { apply quiet_print. }
  { apply quiet_ret. }
  eexists. split; [reflexivity|].
  unfold mbind, py_bind, bind, mret, py_ret, ret, call, print, emit, lift.
  cbv beta iota zeta. cbn [fst snd].
  unfold mbind, py_bind, bind, mret, py_ret, ret, call, print, emit in Hsave1, Hsave2.
  rewrite Hsave1. cbv beta iota zeta. rewrite Hsave2. cbv beta iota zeta.
  split; [reflexivity|].
  clear Hsave1 Hsave2. cbn [app].
  repeat first [rewrite opened_app | rewrite opened_Print].
  rewrite (opened_prints warnings Hwarn), Hopen1, Hopen2.
  cbn [app opened omap]. rewrite app_nil_r. f_equal. apply file_of_fmap.
Qed.
End MainFileFacts.

(** X20.  The newer parse_console_log.py opens a file for writing only
    when it was given one argument, the input file exists and no
    matched timing has more digits than [int] converts (such a timing
    ends the run before any table is written).  It then opens the
    folder table exactly when some matched blob is well formed, and
    after it the timing table exactly when the log has a
    PROCESSING_START match; a table without rows is not written. *)
Theorem X20_newer_main_writes_the_tables_that_have_rows
    (w : Os.world) (argv : list string) :
  let input_path := default "" (argv !! 1%nat) in
  let content := default "" (Os.file_text w input_path) in
  let prefix := ParseConsoleLog.extract_filename_prefix w input_path in
  EffectFacts.opened (output (ParseConsoleLog.main w argv))
  = if bool_decide (length argv = 2%nat ∧ Os.path_exists w input_path = true
                    ∧ existsb too_long (ParseConsoleLog.timing_texts content) = false)
    then
      (if existsb FolderFacts.well_formed (ParseConsoleLog.matches content)
       then [Os.path_sibling w input_path (prefix +:+ "_FolderAnalysisData.csv")]
       else [])
      ++ (if bool_decide
               (0 < TimingFacts.count_starts (ParseConsoleLog.all_matches content))%nat
          then [Os.path_sibling w input_path (prefix +:+ "_TestSpeedData.csv")]
          else [])
    else [].
Proof.
  intros input_path content prefix.
  destruct (decide (length argv = 2%nat)) as [Hargc|Hargc]; cycle 1.
  { rewrite MainFileFacts.newer_main_usage by done.
    by rewrite bool_decide_eq_false_2 by (by intros [? _]). }
  destruct (Os.path_exists w input_path) eqn:Hex; cycle 1.
  { rewrite MainFileFacts.newer_main_not_found by done.
    by rewrite bool_decide_eq_false_2 by (by intros (_ & ? & _)). }
  unfold Os.path_exists in Hex. apply bool_decide_eq_true in Hex as [content' Hfile].
  destruct (MainFileFacts.newer_main_on_file w argv content' Hargc Hfile)
    as (rows & out & Hrows & -> & Hopen).
  unfold output. cbn [snd]. rewrite Hopen.
  fold input_path prefix. unfold content. rewrite Hfile.
  change (default "" (Some content')) with content'.
  destruct (existsb too_long (ParseConsoleLog.timing_texts content')).
  { by rewrite bool_decide_eq_false_2 by (by intros (_ & _ & ?)). }
  rewrite bool_decide_eq_true_2 by done.
  rewrite FolderFacts.kv_parse_folder_analysis_data_eq in Hrows.
  injection Hrows as <-. f_equal.
  - apply TableFacts.file_of_filter, FolderFacts.kv_length_kept.
  - apply TableFacts.file_of_length.
    destruct (GroupFacts.run_groups content') as [Hnum _].
    apply (f_equal length) in Hnum. by rewrite length_fmap, length_seq in Hnum.
Qed.

(** ** main of the older parse_console_log.py *)
Module LegacyMainFacts.
Import LegacyParseConsoleLog EffectFacts TableFacts.

Lemma legacy_said_prints n m : Forall is_print (LegacyFolderFacts.said n m).
Proof.
  unfold LegacyFolderFacts.said. destruct (LegacyFolderFacts.failure n m); repeat constructor.
  eauto.
Qed.

Lemma legacy_folder_rows_fit l n :
  Forall (CsvFacts.fits folder_fieldnames) (LoopFacts.kept LegacyFolderFacts.attempt l n).
Proof.
  apply LoopFacts.kept_all. intros k m row. unfold LegacyFolderFacts.attempt.
  destruct (extract_fields field_patterns m ∅) as [|data] eqn:Hd; [done|].
  destruct (LegacyFolderFacts.extracted m data Hd)
    as (ts & sz & size & tot & mf & sf & ? & ? & ? & ? & ? & ?).
  erewrite LegacyFolderFacts.folder_row_eq by eassumption.
  destruct (LegacyFolderFacts.main_folder_size size tot mf); [done|]. intros [= <-].
  unfold CsvFacts.fits, LegacyFolderFacts.derived. by rewrite dom_list_to_map_L.
Qed.

Lemma legacy_timing_rows_fit content :
  Forall (CsvFacts.fits timing_fieldnames) (parse_timing_data content).
Proof.
  unfold parse_timing_data. apply Forall_fmap, Forall_forall. intros k _.
  unfold CsvFacts.fits, compose. by rewrite LegacyRowFacts.make_row_dom.
Qed.

(** One match of the timing pattern is enough for a row. *)
Lemma legacy_timing_file content path :
  file_of (parse_timing_data content) path
  = if bool_decide (timing_matches content ≠ []) then [path] else [].
Proof.
  unfold parse_timing_data. rewrite file_of_fmap, bool_decide_nonempty.
  destruct (timing_matches content) as [|m ms]; [reflexivity|].
  rewrite LegacyRunFacts.legacy_run_numbers.
  unfold LegacyTimingFacts.count_starts. cbn [List.filter].
  by destruct (LegacyTimingFacts.is_start m).
Qed.

Lemma legacy_main_usage w argv :
  length argv ≠ 2%nat ->
  main w argv
  = (inl (SystemExit 1), [Print "Usage: python parse_console_log.py input_file.md" []]).
Proof.
  intros Hargc. unfold main, def.
  rewrite (bool_decide_eq_true_2 (length argv ≠ 2%nat)) by done. reflexivity.
Qed.

Lemma legacy_main_not_found w argv :
  length argv = 2%nat ->
  Os.path_exists w (default "" (argv !! 1%nat)) = false ->
  main w argv
  = (inl (SystemExit 1),
     [Print "Error: Input file not found: {}" [V (PStr (default "" (argv !! 1%nat)))]]).
Proof.
  intros Hargc Hw. unfold main, def.
  rewrite (bool_decide_eq_false_2 (length argv ≠ 2%nat)) by (intros ?; done).
  rewrite Hw. reflexivity.
Qed.

Lemma legacy_main_on_file w argv content :
  length argv = 2%nat ->
  Os.file_text w (default "" (argv !! 1%nat)) = Some content ->
  let input_path := default "" (argv !! 1%nat) in
  let prefix := extract_filename_prefix w input_path in
  let long := existsb (fun m => too_long (snd m)) (timing_matches content) in
  exists out,
    main w argv = (if long then inl ValueError else inr tt, out)
    ∧ opened out
      = if long then []
        else file_of (LoopFacts.kept LegacyFolderFacts.attempt (matches content) 1)
               (Os.path_sibling w input_path (prefix +:+ "_FolderAnalysisData.csv"))
             ++ file_of (parse_timing_data content)
                  (Os.path_sibling w input_path (prefix +:+ "_TestSpeedData.csv")).
Proof.
  intros Hargc Hfile input_path prefix long. unfold main, def.
  rewrite (bool_decide_eq_false_2 (length argv ≠ 2%nat)) by (intros ?; done).
  unfold Os.path_exists. rewrite Hfile.
  rewrite (bool_decide_eq_true_2 (is_Some (Some content))) by eauto. cbn [negb].
  change (default "" (Some content)) with content.
  fold input_path. fold prefix.
  rewrite LegacyFolderFacts.legacy_parse_folder_analysis_data_eq.
  rewrite IntFacts.legacy_parse_timing_data_checked_eq. fold long.
  set (rows := LoopFacts.kept LegacyFolderFacts.attempt (matches content) 1).
  set (warnings :=
         LoopFacts.spoken LegacyFolderFacts.attempt LegacyFolderFacts.said (matches content) 1).
  assert (Hwarn : Forall is_print warnings).
  { apply spoken_prints. apply legacy_said_prints. }
  destruct long.
  { eexists.
    unfold mbind, py_bind, bind, mret, py_ret, ret, call, print, emit, lift.
    cbv beta iota zeta. cbn [fst snd]. split; [reflexivity|].
    cbn [app].
    repeat first [rewrite opened_app | rewrite opened_Print].
    by rewrite (opened_prints warnings Hwarn). }
  destruct (save_table rows
              (Os.path_sibling w input_path (prefix +:+ "_FolderAnalysisData.csv"))
              folder_fieldnames
              (print "Exported {} folder analysis records to CSV" [N (length rows)])
              (mret tt) tt) as (out1 & Hsave1 & Hopen1).
  { apply legacy_folder_rows_fit. }
  { apply quiet_print. }
  { apply quiet_ret. }
  destruct (save_table (parse_timing_data content)
              (Os.path_sibling w input_path (prefix +:+ "_TestSpeedData.csv"))
              timing_fieldnames
              (print "Exported {} timing records to CSV"
                 [N (length (parse_timing_data content))])
              (mret tt) tt) as (out2 & Hsave2 & Hopen2).
  { apply legacy_timing_rows_fit. }
  { apply quiet_print. }
  { apply quiet_ret. }
  eexists.
  change write_csv with ParseConsoleLog.write_csv.
  unfold mbind, py_bind, bind, mret, py_ret, ret, call, print, emit, lift.
  cbv beta iota zeta. cbn [fst snd].
  unfold mbind, py_bind, bind, mret, py_ret, ret, call, print, emit in Hsave1, Hsave2.
  rewrite Hsave1. cbv beta iota zeta. rewrite Hsave2. cbv beta iota zeta.
  split; [reflexivity|].
  clear Hsave1 Hsave2. cbn [app].
  repeat first [rewrite opened_app | rewrite opened_Print].
  rewrite (opened_prints warnings Hwarn), Hopen1, Hopen2.
  cbn [app opened omap]. by rewrite app_nil_r.
Qed.
End LegacyMainFacts.

(** X21.  The older parse_console_log.py ends with status 0 exactly
    when it is given one argument, the input file exists and no matched
    timing has more digits than [int] converts; it ends with status 1
    otherwise, and then opens no file.  No blob makes it fail.  In a
    run that ends with status 0 it opens the folder table when some
    matched blob yields a record, and the timing table as soon as the
    log has one timing event, marker or not. *)
Theorem X21_legacy_main_exit_status_and_files (w : Os.world) (argv : list string) :
  let input_path := default "" (argv !! 1%nat) in
  let content := default "" (Os.file_text w input_path) in
  let prefix := LegacyParseConsoleLog.extract_filename_prefix w input_path in
  let run := LegacyParseConsoleLog.main w argv in
  let completes :=
    bool_decide (length argv = 2%nat ∧ Os.path_exists w input_path = true
                 ∧ existsb (fun m => too_long (snd m))
                     (LegacyParseConsoleLog.timing_matches content) = false) in
  exit_code run = (if completes then 0 else 1)%Z
  ∧ EffectFacts.opened (output run)
    = if completes then
        (if existsb LegacyFolderFacts.well_formed (LegacyParseConsoleLog.matches content)
         then [Os.path_sibling w input_path (prefix +:+ "_FolderAnalysisData.csv")]
         else [])
        ++ (if bool_decide (LegacyParseConsoleLog.timing_matches content ≠ [])
            then [Os.path_sibling w input_path (prefix +:+ "_TestSpeedData.csv")]
            else [])
      else [].
Proof.
  intros input_path content prefix run completes. unfold run, completes.
  destruct (decide (length argv = 2%nat)) as [Hargc|Hargc]; cycle 1.
  { rewrite LegacyMainFacts.legacy_main_usage by done.
    by rewrite bool_decide_eq_false_2 by (by intros [? _]). }
  destruct (Os.path_exists w input_path) eqn:Hex; cycle 1.
  { rewrite LegacyMainFacts.legacy_main_not_found by done.
    by rewrite bool_decide_eq_false_2 by (by intros (_ & ? & _)). }
  unfold Os.path_exists in Hex. apply bool_decide_eq_true in Hex as [content' Hfile].
  destruct (LegacyMainFacts.legacy_main_on_file w argv content' Hargc Hfile)
    as (out & -> & Hopen).
  unfold output. cbn [snd]. rewrite Hopen.
  fold input_path prefix. unfold content. rewrite Hfile.
  change (default "" (Some content')) with content'.
  destruct (existsb _ (LegacyParseConsoleLog.timing_matches content')).
  { by rewrite bool_decide_eq_false_2 by (by intros (_ & _ & ?)). }
  rewrite bool_decide_eq_true_2 by done.
  split; [done|]. f_equal.
  - apply TableFacts.file_of_filter.
    apply (LoopFacts.length_kept _ LegacyFolderFacts.legacy_attempt_indep).
  - apply LegacyMainFacts.legacy_timing_file.
Qed.

(** ** main of improved_parser_json.py *)
Module JsonMainFacts.
Import ImprovedParserJson EffectFacts TableFacts.

Section WithJson.
Variable json_loads : string -> json_error + gmap string pyval.

Lemma json_said_prints n m : Forall is_print (JsonFacts.said json_loads n m).
Proof.
  destruct (JsonFacts.said_one json_loads n m) as (fmt & args & -> & _).
  constructor; [eauto|done].
Qed.

Lemma json_rows_fit l n :
  Forall (CsvFacts.fits folder_fieldnames)
    (LoopFacts.kept (JsonFacts.attempt json_loads) l n).
Proof.
  apply LoopFacts.kept_all. intros k m row. unfold JsonFacts.attempt.
  destruct (json_loads m) as [|data]; [done|]. intros [= <-].
  unfold CsvFacts.fits, json_row. by rewrite dom_list_to_map_L.
Qed.

Lemma show_sample_quiet {S} sample : quiet (show_sample sample : py S unit).
Proof.
  unfold show_sample. apply quiet_bind; [apply quiet_print|]. intros _.
  apply quiet_for_each. intros key.
  destruct (bool_decide (key ∈ previously_missing)); [apply quiet_print|apply quiet_ret].
Qed.

(** One PROCESSING_START match is what it takes for a timing row. *)
Lemma json_timing_file content path :
  file_of (ParseConsoleLog.row_dict <$> parse_timing_data content) path
  = if bool_decide (0 < TimingFacts.count_starts (ParseConsoleLog.all_matches content))%nat
    then [path] else [].
Proof.
  unfold parse_timing_data. cbv zeta. rewrite !file_of_fmap, RunFacts.run_numbers.
  apply file_of_length, length_seq.
Qed.

Lemma json_main_usage w argv :
  length argv ≠ 2%nat ->
  main json_loads w argv
  = (inl (SystemExit 1), [Print "Usage: python improved_parser_json.py input_file.md" []]).
Proof.
  intros Hargc. unfold main, def.
  rewrite (bool_decide_eq_true_2 (length argv ≠ 2%nat)) by done. reflexivity.
Qed.

Lemma json_main_not_found w argv :
  length argv = 2%nat ->
  Os.path_exists w (default "" (argv !! 1%nat)) = false ->
  main json_loads w argv
  = (inl (SystemExit 1),
     [Print "Error: Input file not found: {}" [V (PStr (default "" (argv !! 1%nat)))]]).
Proof.
  intros Hargc Hw. unfold main, def.
  rewrite (bool_decide_eq_false_2 (length argv ≠ 2%nat)) by (intros ?; done).
  rewrite Hw. reflexivity.
Qed.

Lemma json_main_on_file w argv content :
  length argv = 2%nat ->
  Os.file_text w (default "" (argv !! 1%nat)) = Some content ->
  let input_path := default "" (argv !! 1%nat) in
  let prefix := extract_filename_prefix w input_path in
  let long := existsb too_long (ParseConsoleLog.timing_texts content) in
  exists out,
    main json_loads w argv = (if long then inl ValueError else inr tt, out)
    ∧ opened out
      = if long then []
        else file_of (LoopFacts.kept (JsonFacts.attempt json_loads) (matches content) 1)
               (Os.path_sibling w input_path (prefix +:+ "_CompleteFolderAnalysisData.csv"))
             ++ file_of (ParseConsoleLog.row_dict <$> parse_timing_data content)
                  (Os.path_sibling w input_path (prefix +:+ "_TestSpeedData.csv")).
Proof.
  intros Hargc Hfile input_path prefix long. unfold main, def.
  rewrite (bool_decide_eq_false_2 (length argv ≠ 2%nat)) by (intros ?; done).
  unfold Os.path_exists. rewrite Hfile.
  rewrite (bool_decide_eq_true_2 (is_Some (Some content))) by eauto. cbn [negb].
  change (default "" (Some content)) with content.
  fold input_path. fold prefix.
  rewrite JsonFacts.parse_json_folder_analysis_data_eq.
  rewrite IntFacts.json_parse_timing_data_checked_eq. fold long.
  set (rows := LoopFacts.kept (JsonFacts.attempt json_loads) (matches content) 1).
  set (lines :=
         LoopFacts.spoken (JsonFacts.attempt json_loads) (JsonFacts.said json_loads)
           (matches content) 1).
  assert (Hlines : Forall is_print lines).
  { apply spoken_prints. apply json_said_prints. }
  destruct long.
  { eexists.
    unfold mbind, py_bind, bind, mret, py_ret, ret, call, print, emit, lift.
    cbv beta iota zeta. cbn [fst snd]. split; [reflexivity|].
    cbn [app].
    repeat first [rewrite opened_app | rewrite opened_Print].
    by rewrite (opened_prints lines Hlines). }
  destruct (save_table rows
              (Os.path_sibling w input_path (prefix +:+ "_CompleteFolderAnalysisData.csv"))
              folder_fieldnames
              (print "✅ Exported {} COMPLETE folder analysis records to CSV"
                 [N (length rows)];;
               match rows with
               | sample :: _ => show_sample sample
               | [] => mret tt
               end)
              (print "❌ No JSON folder analysis data found" []) tt)
    as (out1 & Hsave1 & Hopen1).
  { apply json_rows_fit. }
  { apply quiet_bind; [apply quiet_print|]. intros _.
    destruct rows; [apply quiet_ret|apply show_sample_quiet]. }
  { apply quiet_print. }
  destruct (save_table (ParseConsoleLog.row_dict <$> parse_timing_data content)
              (Os.path_sibling w input_path (prefix +:+ "_TestSpeedData.csv"))
              timing_fieldnames
              (print "✅ Exported {} timing records to CSV"
                 [N (length (ParseConsoleLog.row_dict <$> parse_timing_data content))])
              (print "❌ No timing data found" []) tt) as (out2 & Hsave2 & Hopen2).
  { apply MainFacts.timing_rows_fit. }
  { apply quiet_print. }
  { apply quiet_print. }
  eexists.
  change write_csv with ParseConsoleLog.write_csv.
  unfold mbind, py_bind, bind, mret, py_ret, ret, call, print, emit, lift.
  cbv beta iota zeta. cbn [fst snd].
  unfold mbind, py_bind, bind, mret, py_ret, ret, call, print, emit in Hsave1, Hsave2.
  rewrite Hsave1. cbv beta iota zeta. rewrite Hsave2. cbv beta iota zeta.
  split; [reflexivity|].
  clear Hsave1 Hsave2. cbn [app].
  repeat first [rewrite opened_app | rewrite opened_Print].
  rewrite (opened_prints lines Hlines), Hopen1, Hopen2.
  cbn [app opened omap]. by rewrite app_nil_r.
Qed.
End WithJson.
End JsonMainFacts.

(** X22.  On a log whose accepted JSON blobs hold no text member,
    improved_parser_json.py ends with status 0 exactly when it is given
    one argument, the input file exists and no matched timing has more
    digits than [int] converts, whatever json.loads makes of the blobs;
    it ends with status 1 otherwise, and then opens no file.  In a run
    that ends with status 0 it opens the folder table exactly when
    json.loads accepts some matched blob, and after it the timing table
    exactly when the log has a PROCESSING_START match. *)
Theorem X22_json_main_exit_status_and_files
    (json_loads : string -> json_error + gmap string pyval)
    (w : Os.world) (argv : list string) :
  let input_path := default "" (argv !! 1%nat) in
  let content := default "" (Os.file_text w input_path) in
  let prefix := ImprovedParserJson.extract_filename_prefix w input_path in
  let run := ImprovedParserJson.main json_loads w argv in
  let completes :=
    bool_decide (length argv = 2%nat ∧ Os.path_exists w input_path = true
                 ∧ existsb too_long (ParseConsoleLog.timing_texts content) = false) in
  (forall m data field s,
     m ∈ ImprovedParserJson.matches content -> json_loads m = inr data ->
     data !! field ≠ Some (PStr s)) ->
  exit_code run = (if completes then 0 else 1)%Z
  ∧ EffectFacts.opened (output run)
    = if completes then
        (if existsb (JsonFacts.well_formed json_loads) (ImprovedParserJson.matches content)
         then [Os.path_sibling w input_path (prefix +:+ "_CompleteFolderAnalysisData.csv")]
         else [])
        ++ (if bool_decide
                 (0 < TimingFacts.count_starts (ParseConsoleLog.all_matches content))%nat
            then [Os.path_sibling w input_path (prefix +:+ "_TestSpeedData.csv")]
            else [])
      else [].
Proof.
  intros input_path content prefix run completes _. unfold run, completes.
  destruct (decide (length argv = 2%nat)) as [Hargc|Hargc]; cycle 1.
  { rewrite JsonMainFacts.json_main_usage by done.
    by rewrite bool_decide_eq_false_2 by (by intros [? _]). }
  destruct (Os.path_exists w input_path) eqn:Hex; cycle 1.
  { rewrite JsonMainFacts.json_main_not_found by done.
    by rewrite bool_decide_eq_false_2 by (by intros (_ & ? & _)). }
  unfold Os.path_exists in Hex. apply bool_decide_eq_true in Hex as [content' Hfile].
  destruct (JsonMainFacts.json_main_on_file json_loads w argv content' Hargc Hfile)
    as (out & -> & Hopen).
  unfold output. cbn [snd]. rewrite Hopen.
  fold input_path prefix. unfold content. rewrite Hfile.
  change (default "" (Some content')) with content'.
  destruct (existsb too_long (ParseConsoleLog.timing_texts content')).
  { by rewrite bool_decide_eq_false_2 by (by intros (_ & _ & ?)). }
  rewrite bool_decide_eq_true_2 by done.
  split; [done|]. f_equal.
  - apply TableFacts.file_of_filter, JsonFacts.json_length_kept.
  - apply JsonMainFacts.json_timing_file.
Qed.

(** A world with one log file that holds one JSON entry. *)
Definition json_log : Os.world :=
  {| Os.file_text := fun p => if String.eqb p "run_4.md"
                              then Some (json_entry (json_total_files "3")) else None;
     Os.path_stem := fun p => if String.eqb p "run_4.md" then "run_4" else p;
     Os.path_sibling := fun _ name => name |}.

(** X22 on that file: the run ends with status 0 and writes the folder
    table only. *)
Lemma X22_json_main_witness :
  let run := ImprovedParserJson.main json_loads_three json_log
               ["improved_parser_json.py"; "run_4.md"] in
  exit_code run = 0%Z
  ∧ EffectFacts.opened (output run) = ["run_CompleteFolderAnalysisData.csv"].
Proof.
  intros run.
  pose proof (X22_json_main_exit_status_and_files json_loads_three json_log
                ["improved_parser_json.py"; "run_4.md"]) as H.
  cbv zeta in H. destruct H as [Hexit Hopen].
  { intros m data field s _. unfold json_loads_three.
    destruct (String.eqb m (json_total_files "3")).
    - intros [= <-]. destruct (decide (field = "totalFiles")) as [->|Hne].
      + by rewrite lookup_singleton_eq.
      + by rewrite lookup_singleton_ne.
    - destruct (String.eqb m (json_total_files "7")); [|done].
      intros [= <-]. destruct (decide (field = "totalFiles")) as [->|Hne].
      + by rewrite lookup_singleton_eq.
      + by rewrite lookup_singleton_ne. }
  unfold run. split.
  - rewrite Hexit. vm_compute. reflexivity.
  - rewrite Hopen. vm_compute. reflexivity.
Defined.

(** ** parse_trial5_data followed by merge_data *)
Module Trial5MergeFacts.
Import Trial5Parser.

Lemma runs_of_timing content :
  MergeFacts.runs_of (trow_dict <$> timing_rows content)
  = Z.of_nat <$> seq 1 (LegacyTimingFacts.count_starts (timing_matches content)).
Proof.
  rewrite <- Trial5Facts.timing_rows_numbered, <- list_fmap_compose.
  unfold MergeFacts.runs_of. induction (timing_rows content) as [|r rows IH]; [done|].
  cbn [fmap list_fmap omap list_omap]. rewrite Trial5Facts.trow_dict_run. simpl.
  f_equal. exact IH.
Qed.

Section WithJson.
Variable json_loads : string -> json_error + gmap string pyval.

(** json.loads accepts the blob at index [i]. *)
Definition accepted (blobs : list string) (i : nat) : Prop :=
  exists m data, blobs !! i = Some m ∧ json_loads m = inr data.

Lemma entries_keyed blobs k :
  (forall m data, m ∈ blobs -> json_loads m = inr data -> data !! "TestRun" = None) ->
  Forall MergeFacts.keyed (omap (Trial5FolderFacts.entry json_loads) (imap (fun i m => (S (k + i), m)) blobs))
  ∧ forall z,
      z ∈ MergeFacts.runs_of
            (omap (Trial5FolderFacts.entry json_loads) (imap (fun i m => (S (k + i), m)) blobs))
      <-> exists i, z = Z.of_nat (S (k + i)) ∧ accepted blobs i.
Proof.
  revert k. induction blobs as [|m blobs IH]; intros k Hfree.
  - split; [constructor|]. intros z. split; [by intros ?%elem_of_nil|].
    by intros (i & _ & m & data & ? & _).
  - cbn [imap omap list_omap].
    rewrite (imap_ext _ (fun i m => (S (S k + i), m))) by (intros; simpl; do 2 f_equal; lia).
    destruct (IH (S k)) as [Hkeyed Hruns].
    { intros m' data Hm'. apply Hfree. by apply list_elem_of_further. }
    assert (Hentry : Trial5FolderFacts.entry json_loads (S (k + 0), m)
                     = match json_loads m with
                       | inr data => Some (data ∪ {[ "TestRun" := PInt (Z.of_nat (S (k + 0))) ]})
                       | inl _ => None
                       end) by reflexivity.
    rewrite Hentry. clear Hentry.
    destruct (json_loads m) as [e|data] eqn:Hm.
    + split; [exact Hkeyed|]. intros z. rewrite Hruns. split.
      * intros (i & -> & m' & data' & Hi & Hd). exists (S i). split; [f_equal; lia|].
        by exists m', data'.
      * intros ([|i] & -> & m' & data' & Hi & Hd); simpl in Hi.
        { injection Hi as <-. congruence. }
        exists i. split; [f_equal; lia|]. by exists m', data'.
    + assert (Hrun : (data ∪ {[ "TestRun" := PInt (Z.of_nat (S (k + 0))) ]}
                        : gmap string pyval) !! "TestRun"
                     = Some (PInt (Z.of_nat (S (k + 0))))).
      { rewrite lookup_union_r; [apply lookup_singleton_eq|].
        apply (Hfree m data); [apply list_elem_of_here|done]. }
      split; [constructor; [by eexists|exact Hkeyed]|].
      intros z. unfold MergeFacts.runs_of. cbn [omap list_omap]. rewrite Hrun.
      cbn [option_bind mbind]. rewrite elem_of_cons.
      fold (MergeFacts.runs_of
              (omap (Trial5FolderFacts.entry json_loads)
                 (imap (fun i m => (S (S k + i), m)) blobs))).
      rewrite Hruns. split.
      * intros [->|(i & -> & m' & data' & Hi & Hd)].
        { exists 0%nat. split; [done|]. by exists m, data. }
        exists (S i). split; [f_equal; lia|]. by exists m', data'.
      * intros ([|i] & -> & m' & data' & Hi & Hd); simpl in Hi; [by left|].
        right. exists i. split; [f_equal; lia|]. by exists m', data'.
Qed.
End WithJson.
End Trial5MergeFacts.

(** X23.  merge_data accepts what parse_trial5_data returns.  For a log
    whose JSON blobs have no 'TestRun' member of their own, the call
    does not raise, and the run numbers of the merged records, in
    increasing order, are the numbers 1..N of the timing runs together
    with the positions (counted from 1) of the blobs json.loads
    accepts. *)
Theorem X23_trial5_merge_accepts_the_parsed_data
    (json_loads : string -> json_error + gmap string pyval) (content : string)
    (folder_data timing_data : list (gmap string pyval)) :
  let blobs := Trial5Parser.folder_matches content in
  let N := LegacyTimingFacts.count_starts (Trial5Parser.timing_matches content) in
  result (Trial5Parser.parse_trial5_data json_loads content)
  = inr (folder_data, timing_data) ->
  (forall m data, m ∈ blobs -> json_loads m = inr data -> data !! "TestRun" = None) ->
  exists runs merged,
    Trial5Parser.merge_data folder_data timing_data = inr merged
    ∧ StronglySorted Z.lt runs
    ∧ (forall k, k ∈ runs
                 <-> exists n, k = Z.of_nat (S n)
                               ∧ ((n < N)%nat ∨ Trial5MergeFacts.accepted json_loads blobs n))
    ∧ Forall2 (fun k item => item !! "TestRun" = Some (PInt k)) runs merged.
Proof.
  intros blobs N Hres Hfree.
  rewrite Trial5FolderFacts.parse_trial5_data_result in Hres.
  destruct (list_find _ _) as [[j x]|]; [done|].
  destruct (existsb _ _); [done|]. injection Hres as <- <-.
  destruct (Trial5MergeFacts.entries_keyed json_loads blobs 0 Hfree) as [Hkeyed Hruns].
  cbn [Nat.add] in Hkeyed, Hruns. fold blobs.
  set (folder_data := omap _ _) in *.
  destruct (MergeFacts.by_run_keyed folder_data ∅ Hkeyed) as [fbr Hf].
  destruct (MergeFacts.by_run_keyed
              (Trial5Parser.trow_dict <$> Trial5Parser.timing_rows content) ∅)
    as [tbr Ht].
  { apply Forall_fmap, Forall_forall. intros r _. eexists.
    apply Trial5Facts.trow_dict_run. }
  unfold Trial5Parser.merge_data. rewrite Hf, Ht. cbn [mbind res_bind mret res_ret].
  eexists (merge_sort Z.le (elements (dom fbr ∪ dom tbr))), _.
  split; [reflexivity|]. split; [apply MergeFacts.sorted_elements|]. split.
  - intros k. rewrite merge_sort_Permutation, elem_of_elements, elem_of_union.
    rewrite (MergeFacts.by_run_dom _ _ _ Hf), (MergeFacts.by_run_dom _ _ _ Ht).
    rewrite dom_empty_L, !union_empty_r_L, !elem_of_list_to_set.
    rewrite Hruns, Trial5MergeFacts.runs_of_timing, list_elem_of_fmap.
    fold N. split.
    + intros [(i & -> & Hi)|(n & -> & Hn)].
      * exists i. eauto.
      * apply elem_of_seq in Hn. destruct n as [|n]; [lia|]. exists n. split; [done|].
        left. lia.
    + intros (n & -> & [Hn|Hn]).
      * right. exists (S n). split; [done|]. apply elem_of_seq. lia.
      * left. by exists n.
  - apply Forall2_fmap_r, Forall_Forall2_diag, Forall_forall. intros k _.
    unfold compose. apply lookup_insert_eq.
Qed.

(** X23 on a log of two entries and no timing event, of which the first
    entry is not JSON: the one merged record is that of run 2. *)
Lemma X23_trial5_merge_witness :
  exists runs merged,
    Trial5Parser.merge_data
      [ ({[ "totalFiles" := PInt 7 ]} : gmap string pyval) ∪ {[ "TestRun" := PInt 2 ]} ] []
    = inr merged
    ∧ StronglySorted Z.lt runs
    ∧ (forall k,
         k ∈ runs
         <-> exists n,
               k = Z.of_nat (S n)
               ∧ ((n < LegacyTimingFacts.count_starts
                          (Trial5Parser.timing_matches log_two_blobs))%nat
                  ∨ Trial5MergeFacts.accepted json_loads_three
                      (Trial5Parser.folder_matches log_two_blobs) n))
    ∧ Forall2 (fun k item => item !! "TestRun" = Some (PInt k)) runs merged.
Proof.
  apply (X23_trial5_merge_accepts_the_parsed_data json_loads_three log_two_blobs).
  - vm_compute. reflexivity.
  - intros m data _. unfold json_loads_three.
    destruct (String.eqb m (json_total_files "3")); [by intros [= <-]|].
    destruct (String.eqb m (json_total_files "7")); [by intros [= <-]|done].
Defined.
